(** * SauceDemo Playwright suite: the logging harness and the cart badge

    The test files of the suite (cart, checkout, login and sort features)
    each carry their own copy of a small logging harness: [logToFile],
    [timeAction], [cleanupOldLogs], [logTestStatistics] and the [afterAll]
    flush.  This development embeds that harness, together with
    [InventoryPage.getCartCount], and proves what the specification says
    about them.  It also embeds code that uses the harness: the setup of
    the cart suite and its test "should add item to cart", the teardown
    of the sort suite, its test "should sort products from A to Z" and
    the order checks of its other tests, and the cleaning of price texts
    in the page objects.

    Conventions of the embedding:
    - a JavaScript string is the list of its UTF-16 code units;
    - a number that holds an integer (a time in milliseconds, a counter, a
      length) is an integer of [Z];
    - [Date.now()] and [new Date()] read a clock that the harness does not
      control: every reading takes the next value of an arbitrary sequence,
      and so does the modification time a write leaves on a file;
    - the file system is the part the harness touches: the entries of the
      feature directory [test-logs/<feature>/] (a finite map from file name
      to file) and the content of [test-logs/all_tests_summary.log];
    - [fs.readdirSync], [fs.statSync] and [fs.unlinkSync] may be refused by
      the operating system, and then throw; writing to a log file succeeds
      (the harness does not handle a failure of its own log writer);
    - a thrown value is an [Error] with a message and a stack;
    - code that may throw lives in a state-and-exception monad. *)

From Stdlib Require Import ZArith NArith List Ascii String Lia Permutation.
From stdpp Require Import gmap list sorting.

Local Open Scope Z_scope.

#[local] Set Warnings "-clear-no-such-hyp".

(** ** JavaScript strings *)

Abbreviation str := (list N).

(** A literal that only uses ASCII characters. *)
Definition lit (s : string) : str :=
  map N_of_ascii (list_ascii_of_string s).
Arguments lit : simpl never.

(** [String.prototype.startsWith]. *)
Fixpoint startsWith (s p : str) {struct p} : bool :=
  match p, s with
  | [], _ => true
  | _ :: _, [] => false
  | c :: p', d :: s' => (c =? d)%N && startsWith s' p'
  end.

(** [String.prototype.endsWith]. *)
Definition endsWith (s p : str) : bool :=
  startsWith (rev s) (rev p).

(** [String.prototype.includes]: some position of [s] starts with [p]. *)
Fixpoint includes (s p : str) : bool :=
  startsWith s p ||
  match s with
  | [] => false
  | _ :: s' => includes s' p
  end.

(** [m] contains the text [p]: [p] occurs in [m] as a contiguous run. *)
Definition containsText (m p : str) : Prop := ∃ a b, m = a ++ p ++ b.

(** A file that had content [before] now has [after]: something was
    appended, and the appended text holds the line [line]. *)
Definition appendedWith (before after line : str) : Prop :=
  ∃ pre post, after = before ++ pre ++ line ++ post.

(** A file that had content [before] now ends with the line [line]. *)
Definition appendedLast (before after line : str) : Prop :=
  ∃ pre, after = before ++ pre ++ line.

(** Decimal rendering of an integer, as a template literal does for a
    number that holds an integer. *)
Fixpoint digitsN (fuel : nat) (n : N) (acc : str) : str :=
  match fuel with
  | O => acc
  | S fuel' =>
      let acc' := (48 + n mod 10)%N :: acc in
      if (n / 10 =? 0)%N then acc' else digitsN fuel' (n / 10)%N acc'
  end.

Definition numberToString (z : Z) : str :=
  if z <? 0
  then 45%N :: digitsN (S (N.size_nat (Z.to_N (- z)))) (Z.to_N (- z)) []
  else digitsN (S (N.size_nat (Z.to_N z))) (Z.to_N z) [].

(** ['='.repeat(n)] and friends. *)
Definition repeatStr (s : str) (n : nat) : str :=
  concat (replicate n s).

(** The glyphs the harness writes, as UTF-16 code units. *)
Definition glyph_check : str := [0x2705%N].                (* U+2705 *)
Definition glyph_cross : str := [0x274C%N].                (* U+274C *)
Definition glyph_stopwatch : str := [0x23F1%N; 0xFE0F%N].  (* U+23F1 FE0F *)
Definition glyph_warning : str := [0x26A0%N; 0xFE0F%N].    (* U+26A0 FE0F *)
Definition glyph_folder : str := [0xD83D%N; 0xDCC1%N].     (* U+1F4C1 *)
Definition glyph_bin : str :=
  [0xD83D%N; 0xDDD1%N; 0xFE0F%N].                          (* U+1F5D1 FE0F *)
Definition glyph_chart : str := [0xD83D%N; 0xDCCA%N].      (* U+1F4CA *)
Definition glyph_clock : str := [0xD83D%N; 0xDD50%N].      (* U+1F550 *)
Definition glyph_snail : str := [0xD83D%N; 0xDC0C%N].      (* U+1F40C *)
Definition glyph_cart : str := [0xD83D%N; 0xDED2%N].       (* U+1F6D2 *)
Definition glyph_package : str := [0xD83D%N; 0xDCE6%N].    (* U+1F4E6 *)
Definition glyph_cycle : str := [0xD83D%N; 0xDD04%N].      (* U+1F504 *)
Definition glyph_flag : str := [0xD83C%N; 0xDFC1%N].       (* U+1F3C1 *)
Definition glyph_clipboard : str := [0xD83D%N; 0xDCCB%N].  (* U+1F4CB *)
Definition glyph_magnifier : str := [0xD83D%N; 0xDD0D%N].  (* U+1F50D *)
Definition glyph_numbers : str := [0xD83D%N; 0xDD22%N].    (* U+1F522 *)
Definition glyph_tick : str := [0x2714%N; 0xFE0F%N].       (* U+2714 FE0F *)
Definition glyph_letters : str := [0xD83D%N; 0xDD24%N].    (* U+1F524 *)
Definition glyph_target : str := [0xD83C%N; 0xDFAF%N].     (* U+1F3AF *)

(** ** Errors, results and the world the harness runs in *)

(** A thrown JavaScript [Error]: the two fields the harness reads. *)
Record Error := mkError { message : str; stack : str }.

Inductive Result (A : Type) : Type :=
| Ok (a : A)
| Throw (e : Error).
Arguments Ok {A} a.
Arguments Throw {A} e.

(** ** The monad of code that may throw

    A computation runs on a state [W] and either returns a value or throws;
    the state it leaves is kept in both cases. *)
Section Monad.
Context {W : Type}.

Definition M (A : Type) : Type := W → Result A * W.

Definition ret {A} (a : A) : M A := λ w, (Ok a, w).

Definition bind {A B} (c : M A) (k : A → M B) : M B :=
  λ w, match c w with
       | (Ok a, w') => k a w'
       | (Throw e, w') => (Throw e, w')
       end.

Definition throw {A} (e : Error) : M A := λ w, (Throw e, w).

(** [try { c } catch (error) { h error }], also [promise.catch(h)]. *)
Definition tryCatch {A} (c : M A) (h : Error → M A) : M A :=
  λ w, match c w with
       | (Ok a, w') => (Ok a, w')
       | (Throw e, w') => h e w'
       end.

(** A statement that cannot throw. *)
Definition lift (f : W → W) : M unit := λ w, (Ok tt, f w).

Fixpoint mapM {A B} (f : A → M B) (l : list A) : M (list B) :=
  match l with
  | [] => ret []
  | x :: l' => bind (f x) (λ y, bind (mapM f l') (λ ys, ret (y :: ys)))
  end.

Fixpoint forEach {A} (f : A → M unit) (l : list A) : M unit :=
  match l with
  | [] => ret tt
  | x :: l' => bind (f x) (λ _, forEach f l')
  end.
End Monad.
Arguments M : clear implicits.

Declare Scope harness_scope.
Delimit Scope harness_scope with harness.
Notation "x <- c ;; k" := (bind c (λ x, k))
  (at level 100, c at next level, right associativity) : harness_scope.
Notation "c ;;; k" := (bind c (λ _, k))
  (at level 100, right associativity) : harness_scope.

Record File := mkFile { content : str; mtime : Z }.

(** The paths the harness uses: an entry of the feature directory
    ([path.join(testFileLogsDir, name)]) or the master summary file. *)
Inductive Path :=
| InFeatureDir (name : str)
| MasterSummary.

(** Which calls of [fs.readdirSync], [fs.statSync] and [fs.unlinkSync] the
    operating system refuses, and with which error. *)
Record Faults := mkFaults {
  readdirFault : option Error;
  statFault : str → option Error;
  unlinkFault : str → option Error
}.

Definition noFaults : Faults :=
  {| readdirFault := None; statFault := λ _, None; unlinkFault := λ _, None |}.

Record World (S : Type) := mkWorld {
  featureDir : gmap str File;
  masterSummary : str;
  clock : nat → Z;
  ticks : nat;
  faults : Faults;
  testStats : S
}.
Arguments mkWorld {S}.
Arguments featureDir {S}.
Arguments masterSummary {S}.
Arguments clock {S}.
Arguments ticks {S}.
Arguments faults {S}.
Arguments testStats {S}.

Section WorldOps.
Context {S : Type}.

Definition setFeatureDir (d : gmap str File) (w : World S) : World S :=
  mkWorld d (masterSummary w) (clock w) (ticks w) (faults w) (testStats w).

Definition setMasterSummary (c : str) (w : World S) : World S :=
  mkWorld (featureDir w) c (clock w) (ticks w) (faults w) (testStats w).

Definition setTicks (n : nat) (w : World S) : World S :=
  mkWorld (featureDir w) (masterSummary w) (clock w) n (faults w) (testStats w).

Definition setTestStats (s : S) (w : World S) : World S :=
  mkWorld (featureDir w) (masterSummary w) (clock w) (ticks w) (faults w) s.

(** [Date.now()], also the time [new Date()] holds. *)
Definition dateNow (w : World S) : Z * World S :=
  (clock w (ticks w), setTicks (Datatypes.S (ticks w)) w).

(** The content of a file, empty when the file does not exist. *)
Definition readContent (p : Path) (w : World S) : str :=
  match p with
  | InFeatureDir n => from_option content [] (featureDir w !! n)
  | MasterSummary => masterSummary w
  end.

(** [fs.writeFileSync]: creates or replaces the file. *)
Definition writeFileSync (p : Path) (data : str) (w : World S) : World S :=
  match p with
  | InFeatureDir n =>
      let '(t, w1) := dateNow w in
      setFeatureDir (<[n := mkFile data t]> (featureDir w1)) w1
  | MasterSummary => setMasterSummary data w
  end.

(** [fs.appendFileSync]: creates the file when it does not exist. *)
Definition appendFileSync (p : Path) (data : str) (w : World S) : World S :=
  match p with
  | InFeatureDir n =>
      let '(t, w1) := dateNow w in
      setFeatureDir
        (<[n := mkFile (readContent p w ++ data) t]> (featureDir w1)) w1
  | MasterSummary => setMasterSummary (masterSummary w ++ data) w
  end.

(** *** The three calls of [fs] that the rotation relies on *)

Definition enoent (syscall name : str) : Error :=
  let m := lit "ENOENT: no such file or directory, " ++ syscall
           ++ lit " '" ++ name ++ lit "'" in
  mkError m (lit "Error: " ++ m).

(** [fs.readdirSync(testFileLogsDir)].  The names come in the order of
    the map; no statement below depends on that order. *)
Definition readdirSync : M (World S) (list str) :=
  λ w, match readdirFault (faults w) with
       | Some e => (Throw e, w)
       | None => (Ok (map fst (map_to_list (featureDir w))), w)
       end.

(** [fs.statSync(path.join(testFileLogsDir, file)).mtime.getTime()]. *)
Definition statSync_mtime (file : str) : M (World S) Z :=
  λ w, match statFault (faults w) file with
       | Some e => (Throw e, w)
       | None =>
           match featureDir w !! file with
           | Some f => (Ok (mtime f), w)
           | None => (Throw (enoent (lit "stat") file), w)
           end
       end.

(** [fs.unlinkSync(path.join(testFileLogsDir, file))]. *)
Definition unlinkSync (file : str) : M (World S) unit :=
  λ w, match unlinkFault (faults w) file with
       | Some e => (Throw e, w)
       | None =>
           match featureDir w !! file with
           | Some _ => (Ok tt, setFeatureDir (delete file (featureDir w)) w)
           | None => (Throw (enoent (lit "unlink") file), w)
           end
       end.

(** No call of [fs] is refused. *)
Definition filesystemHealthy (w : World S) : Prop :=
  readdirFault (faults w) = None
  ∧ (∀ file, statFault (faults w) file = None)
  ∧ (∀ file, unlinkFault (faults w) file = None).
End WorldOps.

(** ** [Array.prototype.sort] with a comparator

    The sort of the language is stable; for a comparator that orders by a
    numeric key every stable sort returns the same array, the one this
    insertion sort builds. *)
Section ArraySort.
Context {A : Type} (compareFn : A → A → Z).

Fixpoint insertSorted (x : A) (l : list A) : list A :=
  match l with
  | [] => [x]
  | y :: l' =>
      if compareFn x y >? 0 then y :: insertSorted x l' else x :: y :: l'
  end.

Definition arraySort (l : list A) : list A := foldr insertSorted [] l.
End ArraySort.

(** ** [Array.prototype.sort] without a comparator, on strings

    The elements are compared as strings, code unit by code unit. *)

(** [x < y] on strings: the first code unit that differs decides, and a
    proper prefix comes first. *)
Fixpoint lessThan (x y : str) : bool :=
  match x, y with
  | _, [] => false
  | [], _ :: _ => true
  | c :: x', d :: y' =>
      if (c <? d)%N then true
      else if (d <? c)%N then false
      else lessThan x' y'
  end.

(** The comparison [sort] uses when it is given none. *)
Definition defaultCompare (x y : str) : Z :=
  if lessThan x y then -1 else if lessThan y x then 1 else 0.

(** [Array.prototype.join] on an array of strings. *)
Fixpoint join (separator : str) (l : list str) : str :=
  match l with
  | [] => []
  | [x] => x
  | x :: l' => x ++ separator ++ join separator l'
  end.

(** ** The harness every test file carries *)

Record LogFileInfo := mkLogFileInfo { name : str; time : Z; path : Path }.

Section Harness.
Context {S : Type}.

(** The two constants at the top of each test file. *)
Variables TEST_FILE_NAME TEST_DISPLAY_NAME : str.
(** [Date.now()] and [Math.random().toString(36).substr(2, 9)] as read
    once, when the test file is loaded. *)
Variable loadTime : Z.
Variable randomSuffix : str.
(** [Date.prototype.toISOString], applied to a time in milliseconds. *)
Variable toISOString : Z → str.
(** [String.prototype.toUpperCase]. *)
Variable toUpperCase : str → str.
(** [process.cwd()]. *)
Variable cwd : str.
(** The statement that follows the WARNING line of a slow operation:
    [testStats.slowOps++] in the cart, checkout and login files, nothing
    in the sort file. *)
Variable countSlowOp : S → S.
(** The statement that follows the WARNING line of a failed cleanup:
    [testStats.warnings++] in the cart, checkout and login files, nothing
    in the sort file. *)
Variable countWarning : S → S.

Local Open Scope harness_scope.

Definition baseLogsDir : str := cwd ++ lit "/test-logs".
Definition testFileLogsDir : str := baseLogsDir ++ lit "/" ++ TEST_FILE_NAME.

Definition testRunId : str :=
  lit "run_" ++ numberToString loadTime ++ lit "_" ++ randomSuffix.
Definition logFileName : str :=
  TEST_FILE_NAME ++ lit "_tests_" ++ testRunId ++ lit ".log".
Definition logFilePath : Path := InFeatureDir logFileName.

Definition summaryLogName : str := TEST_FILE_NAME ++ lit "_summary.log".
Definition summaryLogPath : Path := InFeatureDir summaryLogName.

Definition masterSummaryPath : Path := MasterSummary.

(** The string a path prints as in a message. *)
Definition pathString (p : Path) : str :=
  match p with
  | InFeatureDir n => testFileLogsDir ++ lit "/" ++ n
  | MasterSummary => baseLogsDir ++ lit "/all_tests_summary.log"
  end.

(** *** The statements run when the test file is loaded *)

Definition initLogHeader (started : Z) : str :=
  [10%N] ++ repeatStr (lit "=") 80 ++ [10%N]
  ++ toUpperCase TEST_DISPLAY_NAME ++ [10%N]
  ++ lit "Test Run ID: " ++ testRunId ++ [10%N]
  ++ lit "Started: " ++ toISOString started ++ [10%N]
  ++ repeatStr (lit "=") 80 ++ [10%N].

Definition summaryHeader (started : Z) : str :=
  [10%N] ++ lit "[" ++ toISOString started ++ lit "] " ++ TEST_DISPLAY_NAME
  ++ lit " - Run Started: " ++ testRunId ++ [10%N].

Definition initLogFiles (w : World S) : World S :=
  let '(t1, w) := dateNow w in
  let w := writeFileSync logFilePath (initLogHeader t1) w in
  let '(t2, w) := dateNow w in
  let w := appendFileSync summaryLogPath (summaryHeader t2) w in
  let '(t3, w) := dateNow w in
  appendFileSync masterSummaryPath
    (lit "[" ++ toISOString t3 ++ lit "] [" ++ TEST_FILE_NAME
     ++ lit "] Test Run Started: " ++ testRunId ++ [10%N]) w.

(** *** logToFile *)

Definition logEntry (timestamp : Z) (level message : str) : str :=
  lit "[" ++ toISOString timestamp ++ lit "] [" ++ level ++ lit "] "
  ++ message ++ [10%N].

Definition summaryEntry (timestamp : Z) (message : str) : str :=
  lit "[" ++ toISOString timestamp ++ lit "] [" ++ testRunId ++ lit "] "
  ++ message ++ [10%N].

Definition masterEntry (timestamp : Z) (message : str) : str :=
  lit "[" ++ toISOString timestamp ++ lit "] [" ++ TEST_FILE_NAME
  ++ lit "] [" ++ testRunId ++ lit "] " ++ message ++ [10%N].

Definition importantEvent (message level : str) : bool :=
  bool_decide (level = lit "ERROR") || bool_decide (level = lit "SUMMARY")
  || includes message glyph_check || includes message glyph_cross.

Definition criticalEvent (message level : str) : bool :=
  bool_decide (level = lit "ERROR") || bool_decide (level = lit "CRITICAL")
  || includes message (lit "TEST START")
  || includes message (lit "COMPLETED").

Definition logToFile (message level : str) (w : World S) : World S :=
  let '(timestamp, w) := dateNow w in
  let w := appendFileSync logFilePath (logEntry timestamp level message) w in
  let w :=
    if importantEvent message level
    then appendFileSync summaryLogPath (summaryEntry timestamp message) w
    else w in
  if criticalEvent message level
  then appendFileSync masterSummaryPath (masterEntry timestamp message) w
  else w.

(** The calls of a run, in order: message and level. *)
Definition logAll (calls : list (str * str)) (w : World S) : World S :=
  foldl (λ w c, logToFile c.1 c.2 w) w calls.

(** The timestamp each of these calls reads, paired with the call. *)
Fixpoint stamped (calls : list (str * str)) (w : World S)
    : list (Z * (str * str)) :=
  match calls with
  | [] => []
  | c :: calls' =>
      (clock w (ticks w), c) :: stamped calls' (logToFile c.1 c.2 w)
  end.

(** *** timeAction *)

Definition dateNowM : M (World S) Z :=
  λ w, let '(t, w') := dateNow w in (Ok t, w').

Definition fullContextOf (actionName context : str) : str :=
  match context with
  | [] => actionName
  | _ :: _ => context ++ lit " - " ++ actionName
  end.

(** The world in which [timeAction] calls the operation: the start time
    has been read and the STARTING line written. *)
Definition beforeAction (actionName context : str) (w : World S)
    : World S :=
  logToFile
    (glyph_stopwatch ++ lit "  STARTING: "
     ++ fullContextOf actionName context)
    (lit "ACTION") (dateNow w).2.

Definition timeAction {T : Type}
    (actionName : str) (actionFn : M (World S) T) (context : str)
    : M (World S) T :=
  startTime <- dateNowM ;;
  let fullContext := fullContextOf actionName context in
  lift (logToFile (glyph_stopwatch ++ lit "  STARTING: " ++ fullContext)
          (lit "ACTION")) ;;;
  tryCatch
    (result <- actionFn ;;
     endTime <- dateNowM ;;
     let duration := endTime - startTime in
     lift (logToFile
             (glyph_check ++ lit " COMPLETED: " ++ fullContext ++ lit " ("
              ++ numberToString duration ++ lit "ms)")
             (lit "SUCCESS")) ;;;
     (if duration >? 5000
      then
        lift (logToFile
                (glyph_warning ++ lit "  SLOW OPERATION: " ++ fullContext
                 ++ lit " took " ++ numberToString duration ++ lit "ms")
                (lit "WARNING")) ;;;
        lift (λ w, setTestStats (countSlowOp (testStats w)) w)
      else ret tt) ;;;
     ret result)
    (λ error,
     endTime <- dateNowM ;;
     let duration := endTime - startTime in
     lift (logToFile
             (glyph_cross ++ lit " FAILED: " ++ fullContext ++ lit " after "
              ++ numberToString duration ++ lit "ms")
             (lit "ERROR")) ;;;
     lift (logToFile (glyph_cross ++ lit " ERROR DETAILS: " ++ message error)
             (lit "ERROR")) ;;;
     lift (logToFile (glyph_cross ++ lit " STACK TRACE: " ++ stack error)
             (lit "ERROR")) ;;;
     throw error).

(** *** cleanupOldLogs *)

Definition qualifies (file : str) : bool :=
  startsWith file (TEST_FILE_NAME ++ lit "_tests_run_")
  && endsWith file (lit ".log").

Definition byTimeDescending (a b : LogFileInfo) : Z := time b - time a.

(** The listing the routine works on: filtered, stat-ed, sorted. *)
Definition listLogFiles : M (World S) (list LogFileInfo) :=
  entries <- readdirSync ;;
  files <- mapM (λ file,
                   t <- statSync_mtime file ;;
                   ret (mkLogFileInfo file t (InFeatureDir file)))
                (List.filter qualifies entries) ;;
  ret (arraySort byTimeDescending files).

(** The same listing read off a directory in which every call succeeds. *)
Definition mtimeOf (d : gmap str File) (file : str) : Z :=
  from_option mtime 0 (d !! file).

Definition statOf (d : gmap str File) (file : str) : LogFileInfo :=
  mkLogFileInfo file (mtimeOf d file) (InFeatureDir file).

Definition sortedLogFiles (d : gmap str File) : list LogFileInfo :=
  arraySort byTimeDescending
    (map (statOf d) (List.filter qualifies (map fst (map_to_list d)))).

(** The per-run log files of a directory, as a set of names. *)
Definition logFiles (d : gmap str File) : gset str :=
  filter (λ file, qualifies file = true) (dom d).

(** The other log files of a directory that are at least as recent as
    [file]. *)
Definition atLeastAsRecent (d : gmap str File) (file : str) : gset str :=
  filter (λ other, other ≠ file ∧ mtimeOf d file ≤ mtimeOf d other)
    (logFiles d).

(** The body of [filesToDelete.forEach]. *)
Definition deleteOldLog (file : LogFileInfo) : M (World S) unit :=
  unlinkSync (name file) ;;;
  lift (logToFile (glyph_bin ++ lit "  Deleted old log: " ++ name file)
          (lit "INFO")).

(** The [try] block. *)
Definition cleanupBody : M (World S) unit :=
  files <- listLogFiles ;;
  lift (logToFile
          (glyph_folder ++ lit " Found "
           ++ numberToString (Z.of_nat (length files))
           ++ lit " existing log files for " ++ TEST_FILE_NAME)
          (lit "INFO")) ;;;
  if (10 <? length files)%nat
  then
    let filesToDelete := drop 10 files in
    lift (logToFile
            (glyph_bin ++ lit "  Cleaning up "
             ++ numberToString (Z.of_nat (length filesToDelete))
             ++ lit " old log files")
            (lit "INFO")) ;;;
    forEach deleteOldLog filesToDelete
  else ret tt.

(** The [catch] block. *)
Definition cleanupFailed (error : Error) : M (World S) unit :=
  lift (logToFile
          (glyph_warning ++ lit "  Failed to cleanup old logs: "
           ++ message error)
          (lit "WARNING")) ;;;
  lift (λ w, setTestStats (countWarning (testStats w)) w).

Definition cleanupOldLogs : M (World S) unit :=
  tryCatch cleanupBody cleanupFailed.
End Harness.
Arguments logEntry : simpl never.
Arguments summaryEntry : simpl never.
Arguments masterEntry : simpl never.

(** ** tests/cart.spec.ts *)
Module Cart.
Definition TEST_FILE_NAME : str := lit "cart_feature".
Definition TEST_DISPLAY_NAME : str := lit "Cart Feature Tests".

Record Stats := mkStats {
  startTime : Z;
  passed : Z;
  failed : Z;
  warnings : Z;
  slowOps : Z;
  cartAddTests : Z;
  cartRemoveTests : Z;
  multiItemTests : Z;
  navigationTests : Z
}.

(** [testStats] as the file declares it; [startTime] is [Date.now()]. *)
Definition initialStats (now : Z) : Stats :=
  mkStats now 0 0 0 0 0 0 0 0.

(** [testStats.slowOps++] *)
Definition slowOpsIncrement (s : Stats) : Stats :=
  mkStats (startTime s) (passed s) (failed s) (warnings s) (slowOps s + 1)
    (cartAddTests s) (cartRemoveTests s) (multiItemTests s)
    (navigationTests s).

(** [testStats.warnings++] *)
Definition warningsIncrement (s : Stats) : Stats :=
  mkStats (startTime s) (passed s) (failed s) (warnings s + 1) (slowOps s)
    (cartAddTests s) (cartRemoveTests s) (multiItemTests s)
    (navigationTests s).

(** [testStats.passed++] *)
Definition passedIncrement (s : Stats) : Stats :=
  mkStats (startTime s) (passed s + 1) (failed s) (warnings s) (slowOps s)
    (cartAddTests s) (cartRemoveTests s) (multiItemTests s)
    (navigationTests s).

(** [testStats.failed++] *)
Definition failedIncrement (s : Stats) : Stats :=
  mkStats (startTime s) (passed s) (failed s + 1) (warnings s) (slowOps s)
    (cartAddTests s) (cartRemoveTests s) (multiItemTests s)
    (navigationTests s).

(** [testStats.cartAddTests++] *)
Definition cartAddTestsIncrement (s : Stats) : Stats :=
  mkStats (startTime s) (passed s) (failed s) (warnings s) (slowOps s)
    (cartAddTests s + 1) (cartRemoveTests s) (multiItemTests s)
    (navigationTests s).

Section Run.
Variable loadTime : Z.
Variable randomSuffix : str.
Variable toISOString : Z → str.
Variable cwd : str.

Local Open Scope harness_scope.

Definition logFileName : str :=
  logFileName TEST_FILE_NAME loadTime randomSuffix.
Definition logFilePath : Path :=
  logFilePath TEST_FILE_NAME loadTime randomSuffix.
Definition summaryLogPath : Path := summaryLogPath TEST_FILE_NAME.

Definition logToFile (message level : str) : World Stats → World Stats :=
  logToFile TEST_FILE_NAME loadTime randomSuffix toISOString message level.

Definition timeAction {T : Type}
    (actionName : str) (actionFn : M (World Stats) T) (context : str)
    : M (World Stats) T :=
  timeAction TEST_FILE_NAME loadTime randomSuffix toISOString
    slowOpsIncrement actionName actionFn context.

Definition cleanupOldLogs : M (World Stats) unit :=
  cleanupOldLogs TEST_FILE_NAME loadTime randomSuffix toISOString
    warningsIncrement.

(** [logTestStatistics({ ...testStats, duration })] *)
Definition logTestStatistics (stats : Stats) (duration : Z)
    (w : World Stats) : World Stats :=
  let SUMMARY := lit "SUMMARY" in
  let w := logToFile [] SUMMARY w in
  let w := logToFile (repeatStr (lit "=") 60) SUMMARY w in
  let w := logToFile (glyph_chart ++ lit " " ++ TEST_DISPLAY_NAME
                      ++ lit " - FINAL STATISTICS") SUMMARY w in
  let w := logToFile (glyph_clock ++ lit " Test Run Duration: "
                      ++ numberToString duration ++ lit "ms") SUMMARY w in
  let w := logToFile (glyph_check ++ lit " Tests Passed: "
                      ++ numberToString (passed stats)) SUMMARY w in
  let w := logToFile (glyph_cross ++ lit " Tests Failed: "
                      ++ numberToString (failed stats)) SUMMARY w in
  let w := logToFile (glyph_warning ++ lit "  Warnings Generated: "
                      ++ numberToString (warnings stats)) SUMMARY w in
  let w := logToFile (glyph_snail ++ lit " Slow Operations: "
                      ++ numberToString (slowOps stats)) SUMMARY w in
  let w := logToFile (glyph_cart ++ lit " Cart Add Tests: "
                      ++ numberToString (cartAddTests stats)) SUMMARY w in
  let w := logToFile (glyph_bin ++ lit "  Cart Remove Tests: "
                      ++ numberToString (cartRemoveTests stats))
             SUMMARY w in
  let w := logToFile (glyph_package ++ lit " Multi-Item Tests: "
                      ++ numberToString (multiItemTests stats))
             SUMMARY w in
  let w := logToFile (glyph_cycle ++ lit " Navigation Tests: "
                      ++ numberToString (navigationTests stats))
             SUMMARY w in
  logToFile (repeatStr (lit "=") 60) SUMMARY w.

(** The last line [afterAll] appends to the master summary. *)
Definition finalSummaryLine (timestamp : Z) (stats : Stats)
    (duration : Z) : str :=
  lit "[" ++ toISOString timestamp ++ lit "] [" ++ TEST_FILE_NAME
  ++ lit "] COMPLETED - "
  ++ lit "Passed: " ++ numberToString (passed stats)
  ++ lit ", Failed: " ++ numberToString (failed stats) ++ lit ", "
  ++ lit "Cart Add: " ++ numberToString (cartAddTests stats)
  ++ lit ", Cart Remove: " ++ numberToString (cartRemoveTests stats)
  ++ lit ", "
  ++ lit "Multi-Item: " ++ numberToString (multiItemTests stats)
  ++ lit ", Navigation: " ++ numberToString (navigationTests stats)
  ++ lit ", "
  ++ lit "Duration: " ++ numberToString duration ++ lit "ms" ++ [10%N].

Definition afterAll (w : World Stats) : World Stats :=
  let '(now, w) := dateNow w in
  let duration := now - startTime (testStats w) in
  let w := logTestStatistics (testStats w) duration w in
  let w := logToFile (glyph_flag ++ lit " TEST SUITE COMPLETED")
             (lit "CRITICAL") w in
  let w := logToFile (glyph_folder ++ lit " Detailed logs saved to: "
                      ++ pathString TEST_FILE_NAME cwd logFilePath)
             (lit "SUMMARY") w in
  let w := logToFile (glyph_clipboard ++ lit " Test file summary: "
                      ++ pathString TEST_FILE_NAME cwd summaryLogPath)
             (lit "SUMMARY") w in
  let w := logToFile (glyph_chart ++ lit " Master summary: "
                      ++ pathString TEST_FILE_NAME cwd masterSummaryPath)
             (lit "SUMMARY") w in
  let '(timestamp, w) := dateNow w in
  appendFileSync masterSummaryPath
    (finalSummaryLine timestamp (testStats w) duration) w.

(** The scenario of the specification: three timed actions, each
    followed by [testStats.passed++], then the teardown. *)
Definition threePassedThenFlush {T : Type}
    (n1 n2 n3 : str) (a1 a2 a3 : M (World Stats) T) (c1 c2 c3 : str)
    : M (World Stats) unit :=
  timeAction n1 a1 c1 ;;;
  lift (λ w, setTestStats (passedIncrement (testStats w)) w) ;;;
  timeAction n2 a2 c2 ;;;
  lift (λ w, setTestStats (passedIncrement (testStats w)) w) ;;;
  timeAction n3 a3 c3 ;;;
  lift (λ w, setTestStats (passedIncrement (testStats w)) w) ;;;
  lift afterAll.

(** *** The setup of the suite

    [processVersion] and [processPlatform] are [process.version] and
    [process.platform]; [standardUserSet] tells whether
    [process.env.STANDARD_USER] is set to a non-empty string. *)
Variable processVersion processPlatform : str.
Variable standardUserSet : bool.

Definition logTestEnvironment (w : World Stats) : World Stats :=
  let SUMMARY := lit "SUMMARY" in
  let w := logToFile (repeatStr (lit "=") 60) SUMMARY w in
  let w := logToFile (lit "TEST FILE: " ++ TEST_FILE_NAME) SUMMARY w in
  let w := logToFile (lit "TEST SUITE: " ++ TEST_DISPLAY_NAME) SUMMARY w in
  let w := logToFile (lit "Node Version: " ++ processVersion) SUMMARY w in
  let w := logToFile (lit "Platform: " ++ processPlatform) SUMMARY w in
  let w := logToFile (lit "Working Directory: " ++ cwd) SUMMARY w in
  let w := logToFile (lit "Log Directory: "
                      ++ testFileLogsDir TEST_FILE_NAME cwd) SUMMARY w in
  let w := logToFile (lit "Current Log File: " ++ logFileName) SUMMARY w in
  let w := logToFile (lit "Environment Variables Loaded: "
                      ++ (if standardUserSet then lit "YES" else lit "NO"))
             SUMMARY w in
  logToFile (repeatStr (lit "=") 60) SUMMARY w.

(** [authenticatedPage.waitForLoadState('networkidle')], an operation of
    the browser. *)
Variable waitForLoadState : M (World Stats) unit.


(** *** The test "should add item to cart"

    The counts are JavaScript numbers: [numberString] is what a template
    literal prints for one, [plusOne n] is [n + 1], [objectIs] the
    comparison [toBe] makes and [toBeError] the error [expect] throws
    when it fails.  The two operations of the inventory page act on the
    browser; here they are operations on the world of the harness. *)
Variable JsNumber : Type.
Variable numberString : JsNumber → str.
Variable plusOne : JsNumber → JsNumber.
Variable objectIs : JsNumber → JsNumber → bool.
Variable toBeError : JsNumber → JsNumber → Error.
Variable getCartCount : M (World Stats) JsNumber.
Variable addProductToCart : str → M (World Stats) unit.

(** [expect(received).toBe(expected)] *)
Definition expectToBe (received expected : JsNumber)
    : M (World Stats) unit :=
  if objectIs received expected then ret tt
  else throw (toBeError received expected).

Definition shouldAddItemToCart : M (World Stats) unit :=
  lift (logToFile
          (glyph_cart
           ++ lit " TEST START: Add single item to cart functionality")
          (lit "SUMMARY")) ;;;
  lift (λ w, setTestStats (cartAddTestsIncrement (testStats w)) w) ;;;
  tryCatch
    (let productName := lit "Sauce Labs Backpack" in
     lift (logToFile (glyph_package ++ lit " Testing product: "
                      ++ productName) (lit "INFO")) ;;;
     initialCount <-
       timeAction (lit "Get initial cart count") getCartCount
         (lit "Add Item Test") ;;
     lift (logToFile (glyph_numbers ++ lit " Initial cart count: "
                      ++ numberString initialCount) (lit "INFO")) ;;;
     timeAction (lit "Add product to cart") (addProductToCart productName)
       (lit "Add Item Test") ;;;
     newCount <-
       timeAction (lit "Get updated cart count") getCartCount
         (lit "Add Item Test") ;;
     lift (logToFile (glyph_numbers ++ lit " New cart count: "
                      ++ numberString newCount) (lit "INFO")) ;;;
     lift (logToFile (glyph_tick ++ lit "  Expected count: "
                      ++ numberString (plusOne initialCount))
             (lit "INFO")) ;;;
     expectToBe newCount (plusOne initialCount) ;;;
     lift (λ w, setTestStats (passedIncrement (testStats w)) w) ;;;
     lift (logToFile
             (glyph_check
              ++ lit " TEST COMPLETED: Add item to cart test passed successfully")
             (lit "SUMMARY")))
    (λ error,
     lift (λ w, setTestStats (failedIncrement (testStats w)) w) ;;;
     lift (logToFile
             (glyph_cross ++ lit " TEST FAILED: Add item to cart test - "
              ++ message error)
             (lit "ERROR")) ;;;
     throw error).
End Run.
End Cart.

(** ** tests/sort.spec.ts *)
Module Sort.
Definition TEST_FILE_NAME : str := lit "sort_feature".
Definition TEST_DISPLAY_NAME : str := lit "Sort Feature Tests".

Record Stats := mkStats {
  startTime : Z;
  passed : Z;
  failed : Z;
  warnings : Z;
  slowOps : Z
}.

Definition initialStats (now : Z) : Stats := mkStats now 0 0 0 0.

(** [testStats.passed++] *)
Definition passedIncrement (s : Stats) : Stats :=
  mkStats (startTime s) (passed s + 1) (failed s) (warnings s) (slowOps s).

(** [testStats.failed++] *)
Definition failedIncrement (s : Stats) : Stats :=
  mkStats (startTime s) (passed s) (failed s + 1) (warnings s) (slowOps s).

Section Run.
Variable loadTime : Z.
Variable randomSuffix : str.
Variable toISOString : Z → str.

Definition logFilePath : Path :=
  logFilePath TEST_FILE_NAME loadTime randomSuffix.

(** The slow branch of this file only logs the WARNING line. *)
Definition timeAction {T : Type}
    (actionName : str) (actionFn : M (World Stats) T) (context : str)
    : M (World Stats) T :=
  timeAction TEST_FILE_NAME loadTime randomSuffix toISOString
    (λ s, s) actionName actionFn context.

(** The catch block of this file only logs the WARNING line. *)
Definition cleanupOldLogs : M (World Stats) unit :=
  cleanupOldLogs TEST_FILE_NAME loadTime randomSuffix toISOString
    (λ s, s).

Variable cwd : str.

Local Open Scope harness_scope.

Definition summaryLogPath : Path := summaryLogPath TEST_FILE_NAME.

Definition logToFile (message level : str) : World Stats → World Stats :=
  logToFile TEST_FILE_NAME loadTime randomSuffix toISOString message level.

(** [${stats.duration}]: the number, or the text "undefined" when the
    object has no such property. *)
Definition durationString (duration : option Z) : str :=
  match duration with
  | Some d => numberToString d
  | None => lit "undefined"
  end.

(** [logTestStatistics(stats)]; [duration] is [stats.duration]. *)
Definition logTestStatistics (stats : Stats) (duration : option Z)
    (w : World Stats) : World Stats :=
  let SUMMARY := lit "SUMMARY" in
  let w := logToFile [] SUMMARY w in
  let w := logToFile (repeatStr (lit "=") 60) SUMMARY w in
  let w := logToFile (glyph_chart ++ lit " " ++ TEST_DISPLAY_NAME
                      ++ lit " - FINAL STATISTICS") SUMMARY w in
  let w := logToFile (glyph_clock ++ lit " Test Run Duration: "
                      ++ durationString duration ++ lit "ms") SUMMARY w in
  let w := logToFile (glyph_check ++ lit " Tests Passed: "
                      ++ numberToString (passed stats)) SUMMARY w in
  let w := logToFile (glyph_cross ++ lit " Tests Failed: "
                      ++ numberToString (failed stats)) SUMMARY w in
  let w := logToFile (glyph_warning ++ lit "  Warnings Generated: "
                      ++ numberToString (warnings stats)) SUMMARY w in
  let w := logToFile (glyph_snail ++ lit " Slow Operations: "
                      ++ numberToString (slowOps stats)) SUMMARY w in
  logToFile (repeatStr (lit "=") 60) SUMMARY w.

(** The last line [afterAll] appends to the master summary; [now] is the
    reading [Date.now()] gives while the line is built. *)
Definition finalSummaryLine (timestamp : Z) (stats : Stats) (now : Z)
    : str :=
  lit "[" ++ toISOString timestamp ++ lit "] [" ++ TEST_FILE_NAME
  ++ lit "] COMPLETED - "
  ++ lit "Passed: " ++ numberToString (passed stats)
  ++ lit ", Failed: " ++ numberToString (failed stats)
  ++ lit ", Duration: " ++ numberToString (now - startTime stats)
  ++ lit "ms" ++ [10%N].

(** The teardown calls [logTestStatistics] twice: with
    [{ ...testStats, duration }], then with [testStats], which has no
    [duration]. *)
Definition afterAll (w : World Stats) : World Stats :=
  let '(now, w) := dateNow w in
  let duration := now - startTime (testStats w) in
  let w := logTestStatistics (testStats w) (Some duration) w in
  let w := logTestStatistics (testStats w) None w in
  let w := logToFile (glyph_flag ++ lit " TEST SUITE COMPLETED")
             (lit "CRITICAL") w in
  let w := logToFile (glyph_folder ++ lit " Detailed logs saved to: "
                      ++ pathString TEST_FILE_NAME cwd logFilePath)
             (lit "SUMMARY") w in
  let w := logToFile (glyph_clipboard ++ lit " Test file summary: "
                      ++ pathString TEST_FILE_NAME cwd summaryLogPath)
             (lit "SUMMARY") w in
  let w := logToFile (glyph_chart ++ lit " Master summary: "
                      ++ pathString TEST_FILE_NAME cwd masterSummaryPath)
             (lit "SUMMARY") w in
  let '(timestamp, w) := dateNow w in
  let '(now', w) := dateNow w in
  appendFileSync masterSummaryPath
    (finalSummaryLine timestamp (testStats w) now') w.

(** *** The order checks of the sort tests *)

(** [[...productNames].sort()], the order the A to Z test expects. *)
Definition sortedNamesAZ (productNames : list str) : list str :=
  arraySort defaultCompare productNames.

(** [[...productNames].sort().reverse()], the order the Z to A test
    expects. *)
Definition sortedNamesZA (productNames : list str) : list str :=
  rev (arraySort defaultCompare productNames).

(** *** The test "should sort products from A to Z"

    The operations of the inventory page and of the browser:
    [getProductNames], [sortBy], [page.waitForTimeout] and the
    [page.waitForFunction] call of the test.  [jsonStringify] is
    [JSON.stringify] on an array of strings; [toEqualPasses] tells
    whether [expect(received).toEqual(expected)] accepts and
    [toEqualError] is the error it throws when it does not. *)
Variable getProductNames : M (World Stats) (list str).
Variable sortBy : str → M (World Stats) unit.
Variable waitForTimeout : Z → M (World Stats) unit.
Variable waitForFunction : M (World Stats) unit.
Variable jsonStringify : list str → str.
Variable toEqualPasses : list str → list str → bool.
Variable toEqualError : list str → list str → Error.

Definition shouldSortAZ : M (World Stats) unit :=
  lift (logToFile
          (glyph_letters ++ lit " TEST START: A to Z sort functionality")
          (lit "SUMMARY")) ;;;
  tryCatch
    (initialProducts <-
       timeAction (lit "Get initial product list") getProductNames
         (lit "A-Z Test") ;;
     lift (logToFile
             (glyph_clipboard ++ lit " Initial products found: "
              ++ numberToString (Z.of_nat (length initialProducts)))
             (lit "INFO")) ;;;
     lift (logToFile
             (glyph_clipboard ++ lit " Initial product list: ["
              ++ join (lit ", ") initialProducts ++ lit "]")
             (lit "INFO")) ;;;
     timeAction (lit "Apply A-Z sort")
       (sortBy (lit "az") ;;; waitForTimeout 2000) (lit "A-Z Test") ;;;
     timeAction (lit "Wait for sort to apply") waitForFunction
       (lit "A-Z Test") ;;;
     productNames <-
       timeAction (lit "Get sorted product names") getProductNames
         (lit "A-Z Test") ;;
     lift (logToFile
             (glyph_chart ++ lit " Products after A-Z sort: ["
              ++ join (lit ", ") productNames ++ lit "]")
             (lit "INFO")) ;;;
     let sortedNames := sortedNamesAZ productNames in
     lift (logToFile
             (glyph_magnifier ++ lit " Expected A-Z order: ["
              ++ join (lit ", ") sortedNames ++ lit "]")
             (lit "INFO")) ;;;
     let isCorrectOrder :=
       bool_decide (jsonStringify productNames = jsonStringify sortedNames)
     in
     lift (logToFile
             (glyph_target ++ lit " A-Z Sort Result: "
              ++ (if isCorrectOrder then lit "PASS" else lit "FAIL"))
             (lit "SUMMARY")) ;;;
     (if toEqualPasses productNames sortedNames then ret tt
      else throw (toEqualError productNames sortedNames)) ;;;
     lift (λ w, setTestStats (passedIncrement (testStats w)) w) ;;;
     lift (logToFile
             (glyph_check
              ++ lit " TEST COMPLETED: A-Z sort test passed successfully")
             (lit "SUMMARY")))
    (λ error,
     lift (λ w, setTestStats (failedIncrement (testStats w)) w) ;;;
     lift (logToFile
             (glyph_cross ++ lit " TEST FAILED: A-Z sort test - "
              ++ message error)
             (lit "ERROR")) ;;;
     throw error).

(** The prices are JavaScript numbers; [numberString] is what a template
    literal prints for one.  [matcherPasses received expected] tells
    whether the matcher of [expect(received)] accepts, and [matcherError]
    is the error [expect] throws when it does not. *)
Variable JsNumber : Type.
Variable numberString : JsNumber → str.
Variable matcherPasses : JsNumber → JsNumber → bool.
Variable matcherError : JsNumber → JsNumber → Error.

Definition booleanString (b : bool) : str :=
  if b then lit "true" else lit "false".

(** The body of the loop [for (let i = 1; i < prices.length; i++)] of
    the two price tests, from index [i] on: [previous] is [prices[i - 1]]
    and [rest] holds [prices[i]] and what follows.  [symbol] is the sign
    printed between the two prices and [isValid current previous] the
    comparison: [prices[i] >= prices[i - 1]], with the matcher
    [toBeGreaterThanOrEqual], in the low-to-high test and
    [prices[i] <= prices[i - 1]], with the matcher [toBeLessThanOrEqual],
    in the high-to-low test.  The value returned is the variable
    [orderCorrect] the loop assigns. *)
Fixpoint verifyPriceOrderFrom (symbol : str)
    (isValid : JsNumber → JsNumber → bool)
    (i : nat) (previous : JsNumber) (rest : list JsNumber)
    (orderCorrect : bool) : M (World Stats) bool :=
  match rest with
  | [] => ret orderCorrect
  | current :: rest' =>
      let comparison :=
        lit "$" ++ numberString previous ++ lit " " ++ symbol ++ lit " $"
        ++ numberString current in
      let valid := isValid current previous in
      lift (logToFile
              (glyph_magnifier ++ lit " Price comparison "
               ++ numberToString (Z.of_nat i) ++ lit ": " ++ comparison
               ++ lit " = " ++ booleanString valid)
              (lit "INFO")) ;;;
      orderCorrect' <-
        (if negb valid
         then
           lift (logToFile
                   (glyph_cross ++ lit " Price order violation at index "
                    ++ numberToString (Z.of_nat i) ++ lit ": " ++ comparison)
                   (lit "ERROR")) ;;;
           ret false
         else ret orderCorrect) ;;
      (if matcherPasses current previous then ret tt
       else throw (matcherError current previous)) ;;;
      verifyPriceOrderFrom symbol isValid (Datatypes.S i) current rest'
        orderCorrect'
  end.

Definition verifyPriceOrder (symbol : str)
    (isValid : JsNumber → JsNumber → bool) (prices : list JsNumber)
    : M (World Stats) bool :=
  match prices with
  | [] => ret true
  | first :: rest => verifyPriceOrderFrom symbol isValid 1 first rest true
  end.
End Run.
End Sort.

(** ** tests/login.spec.ts *)
Module Login.
Definition TEST_FILE_NAME : str := lit "login_feature".

Record Stats := mkStats {
  startTime : Z;
  passed : Z;
  failed : Z;
  warnings : Z;
  slowOps : Z;
  authTests : Z;
  errorTests : Z
}.

(** [testStats.slowOps++] *)
Definition slowOpsIncrement (s : Stats) : Stats :=
  mkStats (startTime s) (passed s) (failed s) (warnings s) (slowOps s + 1)
    (authTests s) (errorTests s).

Definition timeAction {T : Type} (loadTime : Z) (randomSuffix : str)
    (toISOString : Z → str)
    (actionName : str) (actionFn : M (World Stats) T) (context : str)
    : M (World Stats) T :=
  timeAction TEST_FILE_NAME loadTime randomSuffix toISOString
    slowOpsIncrement actionName actionFn context.
End Login.

(** ** tests/checkout.spec.ts *)
Module Checkout.
Definition TEST_FILE_NAME : str := lit "checkout_feature".

Record Stats := mkStats {
  startTime : Z;
  passed : Z;
  failed : Z;
  warnings : Z;
  slowOps : Z;
  completeCheckoutTests : Z;
  validationTests : Z;
  summaryTests : Z;
  cancelTests : Z;
  finishButtonTests : Z
}.

(** [testStats.slowOps++] *)
Definition slowOpsIncrement (s : Stats) : Stats :=
  mkStats (startTime s) (passed s) (failed s) (warnings s) (slowOps s + 1)
    (completeCheckoutTests s) (validationTests s) (summaryTests s)
    (cancelTests s) (finishButtonTests s).

Definition timeAction {T : Type} (loadTime : Z) (randomSuffix : str)
    (toISOString : Z → str)
    (actionName : str) (actionFn : M (World Stats) T) (context : str)
    : M (World Stats) T :=
  timeAction TEST_FILE_NAME loadTime randomSuffix toISOString
    slowOpsIncrement actionName actionFn context.
End Checkout.

(** ** pages/InventoryPage.ts: the cart badge *)
Module InventoryPage.
(** What the page answers to the two calls on the [.shopping_cart_badge]
    locator, and what has been written to the console. *)
Record Page := mkPage {
  badgeIsVisible : Result bool;
  badgeTextContent : Result (option str);
  consoleOutput : list (str * Error)
}.

Section CartBadge.
(** JavaScript numbers, the number [0] and the global [parseInt]. *)
Variable JsNumber : Type.
Variable zero : JsNumber.
Variable parseInt : str → JsNumber.

Local Open Scope harness_scope.

(** [this.cartBadge.isVisible()] *)
Definition cartBadge_isVisible : M Page bool :=
  λ p, (badgeIsVisible p, p).

(** [this.cartBadge.textContent({ timeout: 5000 })] *)
Definition cartBadge_textContent : M Page (option str) :=
  λ p, (badgeTextContent p, p).

(** [console.log('Error getting cart count:', e)] *)
Definition consoleLog (label : str) (e : Error) : M Page unit :=
  lift (λ p, mkPage (badgeIsVisible p) (badgeTextContent p)
               (consoleOutput p ++ [(label, e)])).

Definition getCartCount : M Page JsNumber :=
  tryCatch
    (isVisible <- tryCatch cartBadge_isVisible (λ _, ret false) ;;
     if negb isVisible
     then ret zero
     else
       text <- cartBadge_textContent ;;
       ret (match text with
            | Some (c :: t) => parseInt (c :: t)
            | Some [] | None => zero
            end))
    (λ e,
     consoleLog (lit "Error getting cart count:") e ;;;
     ret zero).

(** [price.replace(/[^0-9.]/g, '')]: every code unit that is neither a
    digit nor a full stop is removed. *)
Definition removeNonNumeric (price : str) : str :=
  List.filter (λ c, ((48 <=? c) && (c <=? 57) || (c =? 46))%N) price.

(** [getProductPrices]: [firstPriceVisible] is the wait for the first
    price element, [allTextContents] the texts of the price elements and
    [parseFloat] the global function. *)
Definition getProductPrices {P : Type}
    (firstPriceVisible : M P unit) (allTextContents : M P (list str))
    (parseFloat : str → JsNumber) : M P (list JsNumber) :=
  firstPriceVisible ;;;
  priceElements <- allTextContents ;;
  ret (map (λ price, parseFloat (removeNonNumeric price)) priceElements).

(** The count the page shows, case by case: 0 when the badge is not
    visible (or the visibility check fails), 0 when reading the text
    fails, 0 when there is no text or the text is empty, and the
    parsed text otherwise. *)
Definition shownCartCount (p : Page) : JsNumber :=
  match badgeIsVisible p with
  | Throw _ | Ok false => zero
  | Ok true =>
      match badgeTextContent p with
      | Throw _ | Ok None | Ok (Some []) => zero
      | Ok (Some (c :: t)) => parseInt (c :: t)
      end
  end.
End CartBadge.
End InventoryPage.

(** ** Sample runs

    Concrete worlds and operations on which the statements below are
    evaluated. *)
Module Sample.
(** A stand-in for [Date.prototype.toISOString]. *)
Definition toISOString (t : Z) : str := lit "T" ++ numberToString t.

(** A clock that advances by one second from reading to reading. *)
Definition everySecond (n : nat) : Z := 1000 * Z.of_nat n.

(** The per-run log file of the cart run started at time [i] with random
    suffix [f<i>]. *)
Definition logName (i : Z) : str :=
  lit "cart_feature_tests_run_" ++ numberToString i ++ lit "_f"
  ++ numberToString i ++ lit ".log".

Definition logsUpTo (n : nat) : gmap str File :=
  list_to_map
    (map (λ i, (logName (Z.of_nat i), mkFile (lit "run") (60000 * Z.of_nat i)))
       (seq 1 n)).

(** Twelve log files f1 .. f12, each a minute younger than the one
    before, next to the summary file of the feature. *)
Definition twelveLogs : gmap str File :=
  <[lit "cart_feature_summary.log" := mkFile (lit "summary") 0]>
    (logsUpTo 12).

(** The same directory with three log files only. *)
Definition threeLogs : gmap str File :=
  <[lit "cart_feature_summary.log" := mkFile (lit "summary") 0]>
    (logsUpTo 3).

Definition cartWorld (d : gmap str File) (refused : Faults)
    : World Cart.Stats :=
  mkWorld d [] everySecond 0%nat refused (Cart.initialStats 0).

Definition sortWorld : World Sort.Stats :=
  mkWorld ∅ [] everySecond 0%nat noFaults (Sort.initialStats 0).

Definition eperm : Error :=
  mkError (lit "EPERM: operation not permitted, unlink")
    (lit "Error: EPERM: operation not permitted, unlink").

(** A file system that refuses to unlink [file]. *)
Definition refuseUnlink (file : str) : Faults :=
  mkFaults None (λ _, None)
    (λ n, if bool_decide (n = file) then Some eperm else None).

Definition timeoutError : Error :=
  mkError (lit "Timeout 10000ms exceeded.")
    (lit "TimeoutError: Timeout 10000ms exceeded.").

(** An operation that fails. *)
Definition failingAction {S : Type} : M (World S) unit :=
  throw timeoutError.

(** An operation during which ten readings of the clock go by. *)
Definition slowAction {S : Type} : M (World S) unit :=
  lift (λ w, setTicks (ticks w + 10) w).

(** An operation that returns at once. *)
Definition quickAction {S : Type} : M (World S) unit := ret tt.

(** A stand-in for [String.prototype.toUpperCase] on ASCII letters. *)
Definition toUpperCase (s : str) : str :=
  map (λ c, if ((97 <=? c) && (c <=? 122))%N then (c - 32)%N else c) s.

(** A cart run with no test in it: the test file is loaded, then the
    teardown runs. *)
Definition emptyCartRun : World Cart.Stats :=
  Cart.afterAll 12 (lit "f12") toISOString (lit "/repo")
    (initLogFiles Cart.TEST_FILE_NAME Cart.TEST_DISPLAY_NAME 12 (lit "f12")
       toISOString toUpperCase (cartWorld ∅ noFaults)).

(** A cart run that starts at time 0 in a directory whose twelve log
    files carry later dates: the test file is loaded and the environment
    is logged, as [beforeAll] does before it calls [cleanupOldLogs]. *)
Definition lateRun : World Cart.Stats :=
  Cart.logTestEnvironment 0 (lit "new") toISOString (lit "/repo")
    (lit "v20.11.0") (lit "linux") true
    (initLogFiles Cart.TEST_FILE_NAME Cart.TEST_DISPLAY_NAME 0 (lit "new")
       toISOString toUpperCase (cartWorld twelveLogs noFaults)).

(** A page whose badge shows the text "3". *)
Definition pageWithThree : InventoryPage.Page :=
  InventoryPage.mkPage (Ok true) (Ok (Some (lit "3"))) [].

(** An operation during which two readings of the clock go by: with the
    three readings [timeAction] takes before it calls the operation, the
    duration is 5000 ms exactly. *)
Definition fiveSecondAction {S : Type} : M (World S) unit :=
  lift (λ w, setTicks (ticks w + 2) w).

(** A page whose cart stays empty: the count is 0 before and after. *)
Definition emptyCartCount : M (World Cart.Stats) Z := ret 0.
Definition ignoredAddToCart (productName : str)
    : M (World Cart.Stats) unit := ret tt.

(** A page that shows two products, and whose other operations return
    at once. *)
Definition twoNames : M (World Sort.Stats) (list str) :=
  ret [lit "Zebra"; lit "apple"].
Definition sortAtOnce (option : str) : M (World Sort.Stats) unit := ret tt.
Definition waitAtOnce (timeout : Z) : M (World Sort.Stats) unit := ret tt.

(** Stand-ins for [JSON.stringify] on an array of strings, for the
    comparison [toEqual] makes and for the error it throws. *)
Definition jsonStringify (l : list str) : str :=
  lit "[" ++ join (lit ",") l ++ lit "]".
Definition toEqualPasses (received expected : list str) : bool :=
  bool_decide (received = expected).
Definition toEqualError (received expected : list str) : Error :=
  let m := lit "expect(received).toEqual(expected) Expected: "
           ++ jsonStringify expected ++ lit " Received: "
           ++ jsonStringify received in
  mkError m (lit "Error: " ++ m).

(** A stand-in for the error of a failed [expect(...).toBe(...)]. *)
Definition toBeError (received expected : Z) : Error :=
  let m := lit "expect(received).toBe(expected) Expected: "
           ++ numberToString expected ++ lit " Received: "
           ++ numberToString received in
  mkError m (lit "Error: " ++ m).
End Sample.

(** * Properties *)

(** ** Strings *)

Example numberToString_12 : numberToString 12 = lit "12".
Proof. reflexivity. Qed.

Example numberToString_0 : numberToString 0 = lit "0".
Proof. reflexivity. Qed.

Example numberToString_neg : numberToString (-5001) = lit "-5001".
Proof. reflexivity. Qed.

Example includes_mid :
  includes (lit "a TEST START b") (lit "TEST START") = true.
Proof. reflexivity. Qed.

Example includes_case :
  includes (lit "Tests Passed: 3") (lit "passed: 3") = false.
Proof. reflexivity. Qed.

Lemma startsWith_spec s p : startsWith s p = true ↔ ∃ r, s = p ++ r.
Proof.
  revert s; induction p as [|c p IH]; intros s; simpl.
  - split; [intros _; by exists s|done].
  - destruct s as [|d s].
    + split; [done|]. by intros [r Hr].
    + rewrite andb_true_iff, N.eqb_eq, IH. split.
      * intros [-> [r ->]]. by exists r.
      * intros [r Hr]. simplify_eq. eauto.
Qed.

Lemma startsWith_app p r : startsWith (p ++ r) p = true.
Proof. apply startsWith_spec. eauto. Qed.

Lemma startsWith_app_inv a s p :
  startsWith (a ++ s) (a ++ p) = startsWith s p.
Proof.
  induction a as [|c a IH]; simpl; [done|].
  by rewrite N.eqb_refl, IH.
Qed.

Lemma endsWith_spec s p : endsWith s p = true ↔ ∃ r, s = r ++ p.
Proof.
  unfold endsWith. rewrite startsWith_spec. split.
  - intros [r Hr]. exists (rev r).
    rewrite <- (rev_involutive s), Hr, rev_app_distr.
    by rewrite rev_involutive.
  - intros [r ->]. exists (rev r). by rewrite rev_app_distr.
Qed.

Lemma includes_spec s p : includes s p = true ↔ containsText s p.
Proof.
  unfold containsText. induction s as [|d s IH]; simpl.
  - rewrite orb_false_r, startsWith_spec. split.
    + intros [r Hr]. exists [], r. done.
    + intros [a [b Hab]]. destruct a; simpl in *; [eauto|done].
  - rewrite orb_true_iff, IH, startsWith_spec. split.
    + intros [[r Hr]|[a [b Hab]]].
      * exists [], r. done.
      * exists (d :: a), b. by rewrite Hab.
    + intros [a [b Hab]]. destruct a as [|x a]; simpl in *.
      * left. eauto.
      * right. simplify_eq. eauto.
Qed.

Lemma includes_false_spec s p : includes s p = false ↔ ¬ containsText s p.
Proof.
  rewrite <- includes_spec. by destruct (includes s p).
Qed.

(** ** Lists *)

Lemma sublist_List_filter {A} (f : A → bool) (l : list A) :
  sublist (List.filter f l) l.
Proof.
  induction l as [|x l IH]; simpl; [constructor|].
  destruct (f x); by constructor.
Qed.

(** ** Sorting *)

Section ArraySortFacts.
Context {A : Type} (key : A → Z).

Local Abbreviation newestFirst := (λ a b : A, key b - key a).
Local Abbreviation notOlder := (λ a b : A, key b ≤ key a).

Lemma insertSorted_Permutation x l :
  insertSorted newestFirst x l ≡ₚ x :: l.
Proof.
  induction l as [|y l IH]; simpl; [done|].
  destruct (key y - key x >? 0); [|done].
  rewrite IH. apply perm_swap.
Qed.

Lemma arraySort_Permutation l : arraySort newestFirst l ≡ₚ l.
Proof.
  induction l as [|x l IH]; simpl; [done|].
  by rewrite insertSorted_Permutation, IH.
Qed.

Lemma insertSorted_sorted x l :
  StronglySorted notOlder l →
  StronglySorted notOlder (insertSorted newestFirst x l).
Proof.
  induction 1 as [|y l Hl IH Hy]; simpl.
  - repeat constructor.
  - destruct (key y - key x >? 0) eqn:Hc.
    + apply Z.gtb_lt in Hc. constructor; [done|].
      rewrite insertSorted_Permutation. constructor; [lia|done].
    + rewrite Z.gtb_ltb in Hc. apply Z.ltb_ge in Hc.
      constructor; [by constructor|].
      constructor; [lia|].
      eapply Forall_impl; [exact Hy|]. simpl. intros; lia.
Qed.

Lemma arraySort_sorted l :
  StronglySorted notOlder (arraySort newestFirst l).
Proof.
  induction l as [|x l IH]; simpl; [constructor|].
  by apply insertSorted_sorted.
Qed.

(** A listing sorted newest first is determined by its elements when
    their keys are pairwise different. *)
Lemma sorted_Permutation_unique l l' :
  l ≡ₚ l' →
  StronglySorted notOlder l →
  StronglySorted (λ a b, key b < key a) l' →
  l = l'.
Proof.
  revert l. induction l' as [|a' l' IH]; intros l Hperm Hl Hl'.
  { by apply Permutation_nil_r in Hperm. }
  destruct l as [|a l].
  { by apply Permutation_nil_cons in Hperm. }
  apply StronglySorted_inv in Hl as [Hl Ha].
  apply StronglySorted_inv in Hl' as [Hl' Ha'].
  rewrite Forall_forall in Ha. rewrite Forall_forall in Ha'.
  assert (a = a') as ->.
  { assert (a ∈ a' :: l') as H1 by (rewrite <- Hperm; left).
    assert (a' ∈ a :: l) as H2 by (rewrite Hperm; left).
    apply elem_of_cons in H1 as [H1|H1]; [done|].
    apply elem_of_cons in H2 as [H2|H2]; [done|].
    apply Ha' in H1. apply Ha in H2. lia. }
  f_equal. apply IH; [|done..]. by apply Permutation_cons_inv in Hperm.
Qed.
End ArraySortFacts.


(** ** The file system and the clock *)

Section WorldFacts.
Context {S : Type}.
Implicit Types (w : World S) (p q : Path) (n : str).

Lemma readContent_append_same p data w :
  readContent p (appendFileSync p data w) = readContent p w ++ data.
Proof.
  destruct p as [n|]; simpl; [|done].
  by rewrite lookup_insert_eq.
Qed.

Lemma readContent_append_other p q data w :
  p ≠ q → readContent q (appendFileSync p data w) = readContent q w.
Proof.
  intros Hpq. destruct p as [n|], q as [n'|]; simpl; try done.
  rewrite lookup_insert_ne; [done|congruence].
Qed.

Lemma featureDir_append n data w :
  featureDir (appendFileSync (InFeatureDir n) data w)
  = <[n := mkFile (readContent (InFeatureDir n) w ++ data)
                  (clock w (ticks w))]> (featureDir w).
Proof. done. Qed.

Lemma featureDir_append_master data w :
  featureDir (appendFileSync MasterSummary data w) = featureDir w.
Proof. done. Qed.

Lemma faults_append p data w :
  faults (appendFileSync p data w) = faults w.
Proof. by destruct p. Qed.

Lemma testStats_append p data w :
  testStats (appendFileSync p data w) = testStats w.
Proof. by destruct p. Qed.

Lemma clock_append p data w :
  clock (appendFileSync p data w) = clock w.
Proof. by destruct p. Qed.

Lemma readContent_setTestStats p (s : S) w :
  readContent p (setTestStats s w) = readContent p w.
Proof. by destruct p. Qed.

Lemma readContent_setTicks p k w :
  readContent p (setTicks k w) = readContent p w.
Proof. by destruct p. Qed.

Lemma readContent_setMasterSummary n c w :
  readContent (InFeatureDir n) (setMasterSummary c w)
  = readContent (InFeatureDir n) w.
Proof. done. Qed.
End WorldFacts.

(** ** logToFile *)

Section LogToFileFacts.
Context {S : Type}.
Variables TEST_FILE_NAME : str.
Variable loadTime : Z.
Variable randomSuffix : str.
Variable toISOString : Z → str.

Implicit Types (w : World S) (message level : str).

Local Abbreviation logToFile' :=
  (logToFile (S := S) TEST_FILE_NAME loadTime randomSuffix toISOString).
Local Abbreviation logFileName' :=
  (logFileName TEST_FILE_NAME loadTime randomSuffix).
Local Abbreviation logFilePath' :=
  (logFilePath TEST_FILE_NAME loadTime randomSuffix).
Local Abbreviation summaryLogName' := (summaryLogName TEST_FILE_NAME).
Local Abbreviation summaryLogPath' := (summaryLogPath TEST_FILE_NAME).
Local Abbreviation logEntry' := (logEntry toISOString).
Local Abbreviation summaryEntry' :=
  (summaryEntry loadTime randomSuffix toISOString).
Local Abbreviation masterEntry' :=
  (masterEntry TEST_FILE_NAME loadTime randomSuffix toISOString).
Local Abbreviation qualifies' := (qualifies TEST_FILE_NAME).
Local Abbreviation logAll' :=
  (logAll (S := S) TEST_FILE_NAME loadTime randomSuffix toISOString).
Local Abbreviation stamped' :=
  (stamped (S := S) TEST_FILE_NAME loadTime randomSuffix toISOString).

Lemma logFileName_ne_summaryLogName : logFileName' ≠ summaryLogName'.
Proof.
  unfold logFileName, summaryLogName. intros H.
  apply app_inv_head in H. discriminate H.
Qed.

Lemma logFilePath_ne_summaryLogPath : logFilePath' ≠ summaryLogPath'.
Proof.
  intros H. apply logFileName_ne_summaryLogName. by injection H.
Qed.

Lemma logFileName_qualifies : qualifies' logFileName' = true.
Proof.
  unfold qualifies, logFileName, testRunId.
  apply andb_true_iff. split.
  - rewrite startsWith_app_inv. done.
  - apply endsWith_spec. eexists. by rewrite !app_assoc.
Qed.

Lemma summaryLogName_not_qualifies : qualifies' summaryLogName' = false.
Proof.
  unfold qualifies, summaryLogName.
  by rewrite startsWith_app_inv.
Qed.

(** The state [logToFile'] leaves, field by field. *)
Lemma featureDir_logToFile message level w :
  let t := clock w (ticks w) in
  let d1 :=
    <[logFileName' :=
        mkFile (readContent logFilePath' w ++ logEntry' t level message)
               (clock w (Datatypes.S (ticks w)))]> (featureDir w) in
  featureDir (logToFile' message level w)
  = if importantEvent message level
    then <[summaryLogName' :=
             mkFile (readContent summaryLogPath' w
                     ++ summaryEntry' t message)
                    (clock w (Datatypes.S (Datatypes.S (ticks w))))]> d1
    else d1.
Proof.
  unfold logToFile. simpl.
  destruct (importantEvent message level),
    (criticalEvent message level); simpl; try done.
  all: by rewrite lookup_insert_ne by apply logFileName_ne_summaryLogName.
Qed.

Lemma masterSummary_logToFile message level w :
  masterSummary (logToFile' message level w)
  = masterSummary w
    ++ (if criticalEvent message level
        then masterEntry' (clock w (ticks w)) message else []).
Proof.
  unfold logToFile. simpl.
  destruct (importantEvent message level),
    (criticalEvent message level); simpl; by rewrite ?app_nil_r.
Qed.

Lemma faults_logToFile message level w :
  faults (logToFile' message level w) = faults w.
Proof.
  unfold logToFile. simpl.
  by destruct (importantEvent message level),
    (criticalEvent message level).
Qed.

Lemma testStats_logToFile message level w :
  testStats (logToFile' message level w) = testStats w.
Proof.
  unfold logToFile. simpl.
  by destruct (importantEvent message level),
    (criticalEvent message level).
Qed.

Lemma clock_logToFile message level w :
  clock (logToFile' message level w) = clock w.
Proof.
  unfold logToFile. simpl.
  by destruct (importantEvent message level),
    (criticalEvent message level).
Qed.

Lemma runLog_logToFile message level w :
  readContent logFilePath' (logToFile' message level w)
  = readContent logFilePath' w
    ++ logEntry' (clock w (ticks w)) level message.
Proof.
  unfold readContent at 1. unfold logFilePath at 1.
  rewrite featureDir_logToFile.
  destruct (importantEvent message level).
  - rewrite lookup_insert_ne
      by (intros H; by apply logFileName_ne_summaryLogName).
    by rewrite lookup_insert_eq.
  - by rewrite lookup_insert_eq.
Qed.

Lemma summaryLog_logToFile message level w :
  readContent summaryLogPath' (logToFile' message level w)
  = readContent summaryLogPath' w
    ++ (if importantEvent message level
        then summaryEntry' (clock w (ticks w)) message else []).
Proof.
  unfold readContent at 1. unfold summaryLogPath at 1.
  rewrite featureDir_logToFile.
  destruct (importantEvent message level).
  - by rewrite lookup_insert_eq.
  - rewrite lookup_insert_ne by apply logFileName_ne_summaryLogName.
    by rewrite app_nil_r.
Qed.

Lemma lookup_logToFile_other message level w n :
  n ≠ logFileName' → n ≠ summaryLogName' →
  featureDir (logToFile' message level w) !! n = featureDir w !! n.
Proof.
  intros H1 H2. rewrite featureDir_logToFile.
  destruct (importantEvent message level);
    by rewrite ?lookup_insert_ne by done.
Qed.

Lemma elem_of_dom_logToFile message level w n :
  n ∈ dom (featureDir (logToFile' message level w)) ↔
  n ∈ dom (featureDir w) ∨ n = logFileName'
  ∨ (n = summaryLogName' ∧ importantEvent message level = true).
Proof.
  rewrite featureDir_logToFile.
  destruct (importantEvent message level);
    rewrite ?dom_insert_L, ?elem_of_union, ?elem_of_singleton;
    naive_solver.
Qed.

Lemma dom_logToFile message level w :
  dom (featureDir (logToFile' message level w))
  = dom (featureDir w) ∪ {[logFileName']}
    ∪ (if importantEvent message level then {[summaryLogName']} else ∅).
Proof.
  rewrite featureDir_logToFile.
  destruct (importantEvent message level);
    rewrite ?dom_insert_L; set_solver.
Qed.

(** *** Which tiers a call reaches *)

Lemma importantEvent_spec message level :
  importantEvent message level = true ↔
  level = lit "ERROR" ∨ level = lit "SUMMARY"
  ∨ containsText message glyph_check ∨ containsText message glyph_cross.
Proof.
  unfold importantEvent.
  rewrite !orb_true_iff, !bool_decide_eq_true, !includes_spec. tauto.
Qed.

Lemma criticalEvent_spec message level :
  criticalEvent message level = true ↔
  level = lit "ERROR" ∨ level = lit "CRITICAL"
  ∨ containsText message (lit "TEST START")
  ∨ containsText message (lit "COMPLETED").
Proof.
  unfold criticalEvent.
  rewrite !orb_true_iff, !bool_decide_eq_true, !includes_spec. tauto.
Qed.

Lemma summaryEntry_not_nil t message : summaryEntry' t message ≠ [].
Proof. done. Qed.

Lemma masterEntry_not_nil t message : masterEntry' t message ≠ [].
Proof. done. Qed.

(** C2. One call of [logToFile] appends its line to the per-feature
    summary exactly when the level is ERROR or SUMMARY or the message
    contains the check or the cross glyph, and leaves that file as it was
    otherwise; it appends its line to the master summary exactly when the
    level is ERROR or CRITICAL or the message contains "TEST START" or
    "COMPLETED", and leaves that file as it was otherwise. *)
Theorem logToFile_summary_routing message level w :
  let t := clock w (ticks w) in
  let w' :=
    logToFile TEST_FILE_NAME loadTime randomSuffix toISOString
      message level w in
  let important :=
    level = lit "ERROR" ∨ level = lit "SUMMARY"
    ∨ containsText message glyph_check
    ∨ containsText message glyph_cross in
  let critical :=
    level = lit "ERROR" ∨ level = lit "CRITICAL"
    ∨ containsText message (lit "TEST START")
    ∨ containsText message (lit "COMPLETED") in
  ((important
    ∧ readContent summaryLogPath' w'
      = readContent summaryLogPath' w ++ summaryEntry' t message)
   ∨ (¬ important
      ∧ readContent summaryLogPath' w' = readContent summaryLogPath' w))
  ∧ ((critical
      ∧ readContent masterSummaryPath w'
        = readContent masterSummaryPath w ++ masterEntry' t message)
     ∨ (¬ critical
        ∧ readContent masterSummaryPath w'
          = readContent masterSummaryPath w))
  ∧ (readContent summaryLogPath' w' ≠ readContent summaryLogPath' w
     ↔ important)
  ∧ (readContent masterSummaryPath w' ≠ readContent masterSummaryPath w
     ↔ critical).
Proof.
  intros t w' important critical. subst w' important critical.
  rewrite summaryLog_logToFile. simpl readContent.
  rewrite masterSummary_logToFile.
  rewrite <- importantEvent_spec, <- criticalEvent_spec.
  assert (Hnil : ∀ (a b : str), b ≠ [] → a ++ b ≠ a).
  { intros a b Hb Hab. apply Hb.
    apply (app_inv_head a). by rewrite app_nil_r. }
  destruct (importantEvent message level),
    (criticalEvent message level); rewrite ?app_nil_r.
  all: repeat split; try (left; by split); try (right; by split).
  all: try (by intros _); try done.
  all: try (intros _; by apply Hnil).
Qed.

(** *** Several calls in a row *)

Lemma logAll_contents calls w :
  readContent logFilePath' (logAll' calls w)
  = readContent logFilePath' w
    ++ concat (map (λ e, logEntry' e.1 e.2.2 e.2.1) (stamped' calls w))
  ∧ readContent summaryLogPath' (logAll' calls w)
    = readContent summaryLogPath' w
      ++ concat (map (λ e, summaryEntry' e.1 e.2.1)
                   (List.filter (λ e, importantEvent e.2.1 e.2.2)
                      (stamped' calls w)))
  ∧ readContent masterSummaryPath (logAll' calls w)
    = readContent masterSummaryPath w
      ++ concat (map (λ e, masterEntry' e.1 e.2.1)
                   (List.filter (λ e, criticalEvent e.2.1 e.2.2)
                      (stamped' calls w))).
Proof.
  revert w. induction calls as [|[m l] calls IH]; intros w.
  - simpl. by rewrite !app_nil_r.
  - unfold logAll. simpl foldl. fold (logAll' calls (logToFile' m l w)).
    destruct (IH (logToFile' m l w)) as (H1 & H2 & H3).
    rewrite H1, H2, H3. clear IH H1 H2 H3.
    rewrite runLog_logToFile, summaryLog_logToFile.
    simpl readContent. rewrite masterSummary_logToFile.
    cbn [stamped List.filter map concat fst snd].
    destruct (importantEvent m l), (criticalEvent m l);
      cbn [map concat fst snd];
      by rewrite <- ?app_assoc, ?app_nil_r.
Qed.

(** C10 (amended). Every call of [logToFile] appends the line
    [[timestamp] [level] message] to the per-run log, whatever the level
    and the message; so, over the [logToFile] calls of a run, the entries
    that [logToFile] adds to the per-feature summary and to the master
    summary are made from sub-sequences of the (timestamp, message) pairs
    it writes to the per-run log.  (The lines that the test file appends
    to the summaries without [logToFile] are not covered.) *)
Theorem logToFile_always_writes_run_log :
  (∀ message level w,
     readContent logFilePath'
       (logToFile TEST_FILE_NAME loadTime randomSuffix toISOString
          message level w)
     = readContent logFilePath' w
       ++ lit "[" ++ toISOString (clock w (ticks w)) ++ lit "] ["
       ++ level ++ lit "] " ++ message ++ [10%N])
  ∧ (∀ calls w, ∃ written inSummary inMaster : list (Z * (str * str)),
       map snd written = calls
       ∧ sublist inSummary written
       ∧ sublist inMaster written
       ∧ readContent logFilePath' (logAll' calls w)
         = readContent logFilePath' w
           ++ concat (map (λ e, logEntry' e.1 e.2.2 e.2.1) written)
       ∧ readContent summaryLogPath' (logAll' calls w)
         = readContent summaryLogPath' w
           ++ concat (map (λ e, summaryEntry' e.1 e.2.1) inSummary)
       ∧ readContent masterSummaryPath (logAll' calls w)
         = readContent masterSummaryPath w
           ++ concat (map (λ e, masterEntry' e.1 e.2.1) inMaster)).
Proof.
  split.
  - intros message level w. by rewrite runLog_logToFile.
  - intros calls w.
    exists (stamped' calls w),
      (List.filter (λ e, importantEvent e.2.1 e.2.2) (stamped' calls w)),
      (List.filter (λ e, criticalEvent e.2.1 e.2.2) (stamped' calls w)).
    destruct (logAll_contents calls w) as (H1 & H2 & H3).
    repeat split; try done.
    + clear. revert w. induction calls as [|c calls IH]; intros w;
        simpl; [done|]. by rewrite IH.
    + apply sublist_List_filter.
    + apply sublist_List_filter.
Qed.
End LogToFileFacts.

(** ** Loading the test file *)

Section InitFacts.
Context {S : Type}.
Variables TEST_FILE_NAME TEST_DISPLAY_NAME : str.
Variable loadTime : Z.
Variable randomSuffix : str.
Variable toISOString : Z → str.
Variable toUpperCase : str → str.

(** Once the test file is loaded, the per-run log and the per-feature
    summary both exist, so every later call of the harness finds them. *)
Lemma initLogFiles_creates_log_files (w : World S) :
  let w' :=
    initLogFiles TEST_FILE_NAME TEST_DISPLAY_NAME loadTime randomSuffix
      toISOString toUpperCase w in
  logFileName TEST_FILE_NAME loadTime randomSuffix ∈ dom (featureDir w')
  ∧ summaryLogName TEST_FILE_NAME ∈ dom (featureDir w').
Proof.
  cbn zeta. unfold initLogFiles. cbn. rewrite !dom_insert_L.
  split; set_solver.
Qed.
End InitFacts.

(** ** timeAction *)

Section TimeActionFacts.
Context {S T : Type}.
Variables TEST_FILE_NAME : str.
Variable loadTime : Z.
Variable randomSuffix : str.
Variable toISOString : Z → str.
Variable countSlowOp : S → S.

Implicit Types (w : World S) (actionFn : M (World S) T).

Local Abbreviation logToFile' :=
  (logToFile (S := S) TEST_FILE_NAME loadTime randomSuffix toISOString).
Local Abbreviation logFilePath' :=
  (logFilePath TEST_FILE_NAME loadTime randomSuffix).
Local Abbreviation logEntry' := (logEntry toISOString).
Local Abbreviation timeAction' :=
  (timeAction (S := S) (T := T) TEST_FILE_NAME loadTime randomSuffix
     toISOString countSlowOp).
Local Abbreviation beforeAction' :=
  (beforeAction (S := S) TEST_FILE_NAME loadTime randomSuffix toISOString).

(** What [timeAction] does once the operation has returned. *)
Lemma timeAction_resolved actionName actionFn context w result w2 :
  actionFn (beforeAction' actionName context w) = (Ok result, w2) →
  let duration := clock w2 (ticks w2) - clock w (ticks w) in
  let fullContext := fullContextOf actionName context in
  let completed :=
    logToFile'
      (glyph_check ++ lit " COMPLETED: " ++ fullContext ++ lit " ("
       ++ numberToString duration ++ lit "ms)")
      (lit "SUCCESS") (dateNow w2).2 in
  timeAction' actionName actionFn context w
  = (Ok result,
     if duration >? 5000
     then
       let warned :=
         logToFile'
           (glyph_warning ++ lit "  SLOW OPERATION: " ++ fullContext
            ++ lit " took " ++ numberToString duration ++ lit "ms")
           (lit "WARNING") completed in
       setTestStats (countSlowOp (testStats warned)) warned
     else completed).
Proof.
  intros Hrun duration fullContext completed.
  unfold timeAction, bind, dateNowM, lift, tryCatch, ret.
  cbn [dateNow fst snd].
  unfold beforeAction in Hrun. cbn [dateNow fst snd] in Hrun.
  rewrite Hrun. cbn [dateNow fst snd].
  fold duration. fold fullContext.
  by destruct (duration >? 5000).
Qed.

(** What [timeAction] does once the operation has thrown. *)
Lemma timeAction_rejected actionName actionFn context w error w2 :
  actionFn (beforeAction' actionName context w) = (Throw error, w2) →
  let duration := clock w2 (ticks w2) - clock w (ticks w) in
  let fullContext := fullContextOf actionName context in
  timeAction' actionName actionFn context w
  = (Throw error,
     logToFile' (glyph_cross ++ lit " STACK TRACE: " ++ stack error)
       (lit "ERROR")
       (logToFile' (glyph_cross ++ lit " ERROR DETAILS: " ++ message error)
          (lit "ERROR")
          (logToFile'
             (glyph_cross ++ lit " FAILED: " ++ fullContext
              ++ lit " after " ++ numberToString duration ++ lit "ms")
             (lit "ERROR") (dateNow w2).2))).
Proof.
  intros Hrun duration fullContext.
  unfold timeAction, bind, dateNowM, lift, tryCatch, throw.
  cbn [dateNow fst snd].
  unfold beforeAction in Hrun. cbn [dateNow fst snd] in Hrun.
  rewrite Hrun. by cbn [dateNow fst snd].
Qed.


(** When the operation returns after more than 5000 ms, [timeAction]
    returns its result, appends the SUCCESS line and one WARNING line to
    the per-run log, and runs the counting statement of the file once. *)
Lemma timeAction_slow actionName actionFn context w result w2 :
  actionFn (beforeAction' actionName context w) = (Ok result, w2) →
  5000 < clock w2 (ticks w2) - clock w (ticks w) →
  ∃ w3 t1 t2,
    timeAction' actionName actionFn context w = (Ok result, w3)
    ∧ readContent logFilePath' w3
      = readContent logFilePath' w2
        ++ logEntry' t1 (lit "SUCCESS")
             (glyph_check ++ lit " COMPLETED: "
              ++ fullContextOf actionName context ++ lit " ("
              ++ numberToString
                   (clock w2 (ticks w2) - clock w (ticks w))
              ++ lit "ms)")
        ++ logEntry' t2 (lit "WARNING")
             (glyph_warning ++ lit "  SLOW OPERATION: "
              ++ fullContextOf actionName context ++ lit " took "
              ++ numberToString
                   (clock w2 (ticks w2) - clock w (ticks w))
              ++ lit "ms")
    ∧ testStats w3 = countSlowOp (testStats w2).
Proof.
  intros Hrun Hslow. rewrite (timeAction_resolved _ _ _ _ _ _ Hrun).
  apply Z.gtb_lt in Hslow. rewrite Hslow.
  eexists _, _, _. split; [reflexivity|]. split.
  - rewrite readContent_setTestStats, !runLog_logToFile.
    by rewrite <- !app_assoc.
  - cbn [testStats setTestStats]. by rewrite !testStats_logToFile.
Qed.

(** X3. When the operation returns within 5000 ms (5000 ms included:
    the test is [duration > 5000]), only the SUCCESS line is written to
    the per-run log and the counters are left alone. *)
Lemma timeAction_fast actionName actionFn context w result w2 :
  actionFn (beforeAction' actionName context w) = (Ok result, w2) →
  clock w2 (ticks w2) - clock w (ticks w) ≤ 5000 →
  ∃ w3 t1,
    timeAction' actionName actionFn context w = (Ok result, w3)
    ∧ readContent logFilePath' w3
      = readContent logFilePath' w2
        ++ logEntry' t1 (lit "SUCCESS")
             (glyph_check ++ lit " COMPLETED: "
              ++ fullContextOf actionName context ++ lit " ("
              ++ numberToString
                   (clock w2 (ticks w2) - clock w (ticks w))
              ++ lit "ms)")
    ∧ testStats w3 = testStats w2.
Proof.
  intros Hrun Hfast. rewrite (timeAction_resolved _ _ _ _ _ _ Hrun).
  assert ((clock w2 (ticks w2) - clock w (ticks w) >? 5000) = false)
    as ->.
  { rewrite Z.gtb_ltb. apply Z.ltb_ge. lia. }
  eexists _, _. split; [reflexivity|]. split.
  - by rewrite runLog_logToFile.
  - by rewrite testStats_logToFile.
Qed.
End TimeActionFacts.

(** ** cleanupOldLogs *)

Section ListingFacts.
Variable TEST_FILE_NAME : str.

Implicit Types (d : gmap str File) (n : str).

Local Abbreviation qualifies' := (qualifies TEST_FILE_NAME).
Local Abbreviation sortedLogFiles' := (sortedLogFiles TEST_FILE_NAME).
Local Abbreviation logFiles' := (logFiles TEST_FILE_NAME).

Lemma elem_of_readdir d n : n ∈ map fst (map_to_list d) ↔ n ∈ dom d.
Proof.
  rewrite elem_of_dom.
  change (map fst (map_to_list d)) with ((map_to_list d).*1).
  rewrite list_elem_of_fmap. split.
  - intros [[k v] [-> H]]. apply elem_of_map_to_list in H. eauto.
  - intros [v H]. exists (n, v). split; [done|].
    by apply elem_of_map_to_list.
Qed.

Lemma elem_of_logFiles d n :
  n ∈ logFiles' d ↔ n ∈ dom d ∧ qualifies' n = true.
Proof. unfold logFiles. rewrite elem_of_filter. tauto. Qed.

Lemma elem_of_List_filter {A} (f : A → bool) (l : list A) x :
  x ∈ List.filter f l ↔ x ∈ l ∧ f x = true.
Proof. rewrite !list_elem_of_In. apply filter_In. Qed.

Lemma NoDup_List_filter {A} (f : A → bool) (l : list A) :
  NoDup l → NoDup (List.filter f l).
Proof.
  intros H. eapply sublist_NoDup; [done|apply sublist_List_filter].
Qed.

Lemma names_statOf d (l : list str) : map name (map (statOf d) l) = l.
Proof. rewrite map_map. simpl. apply map_id. Qed.

Lemma names_sortedLogFiles d :
  map name (sortedLogFiles' d)
  ≡ₚ List.filter qualifies' (map fst (map_to_list d)).
Proof.
  unfold sortedLogFiles.
  rewrite (arraySort_Permutation time). by rewrite names_statOf.
Qed.

Lemma NoDup_names_sortedLogFiles d : NoDup (map name (sortedLogFiles' d)).
Proof.
  rewrite names_sortedLogFiles. apply NoDup_List_filter.
  apply (NoDup_fst_map_to_list d).
Qed.

Lemma elem_of_names_sortedLogFiles d n :
  n ∈ map name (sortedLogFiles' d) ↔ n ∈ logFiles' d.
Proof.
  rewrite names_sortedLogFiles, elem_of_List_filter, elem_of_readdir.
  by rewrite elem_of_logFiles.
Qed.

Lemma logFiles_sortedLogFiles d :
  logFiles' d = list_to_set (map name (sortedLogFiles' d)).
Proof.
  apply set_eq. intros n.
  by rewrite elem_of_list_to_set, elem_of_names_sortedLogFiles.
Qed.

Lemma length_sortedLogFiles d :
  length (sortedLogFiles' d) = size (logFiles' d).
Proof.
  rewrite logFiles_sortedLogFiles, size_list_to_set
    by apply NoDup_names_sortedLogFiles.
  by rewrite length_map.
Qed.

Lemma time_sortedLogFiles d x :
  x ∈ sortedLogFiles' d → time x = mtimeOf d (name x).
Proof.
  unfold sortedLogFiles. rewrite (arraySort_Permutation time).
  rewrite list_elem_of_fmap. by intros [n [-> _]].
Qed.

Lemma sortedLogFiles_sorted d :
  StronglySorted (λ a b, time b ≤ time a) (sortedLogFiles' d).
Proof. apply (arraySort_sorted time). Qed.
End ListingFacts.

Section CleanupFacts.
Context {S : Type}.
Variables TEST_FILE_NAME : str.
Variable loadTime : Z.
Variable randomSuffix : str.
Variable toISOString : Z → str.
Variable countWarning : S → S.

Implicit Types (w : World S) (d : gmap str File) (n : str).
Implicit Types (files del : list LogFileInfo).

Local Abbreviation logToFile' :=
  (logToFile (S := S) TEST_FILE_NAME loadTime randomSuffix toISOString).
Local Abbreviation logFileName' :=
  (logFileName TEST_FILE_NAME loadTime randomSuffix).
Local Abbreviation logFilePath' :=
  (logFilePath TEST_FILE_NAME loadTime randomSuffix).
Local Abbreviation summaryLogName' := (summaryLogName TEST_FILE_NAME).
Local Abbreviation summaryLogPath' := (summaryLogPath TEST_FILE_NAME).
Local Abbreviation logEntry' := (logEntry toISOString).
Local Abbreviation qualifies' := (qualifies TEST_FILE_NAME).
Local Abbreviation sortedLogFiles' := (sortedLogFiles TEST_FILE_NAME).
Local Abbreviation logFiles' := (logFiles TEST_FILE_NAME).
Local Abbreviation listLogFiles' :=
  (listLogFiles (S := S) TEST_FILE_NAME).
Local Abbreviation deleteOldLog' :=
  (deleteOldLog (S := S) TEST_FILE_NAME loadTime randomSuffix toISOString).
Local Abbreviation cleanupBody' :=
  (cleanupBody (S := S) TEST_FILE_NAME loadTime randomSuffix toISOString).
Local Abbreviation cleanupOldLogs' :=
  (cleanupOldLogs (S := S) TEST_FILE_NAME loadTime randomSuffix
     toISOString countWarning).

Local Abbreviation foundMessage files :=
  (glyph_folder ++ lit " Found "
   ++ numberToString (Z.of_nat (length files))
   ++ lit " existing log files for " ++ TEST_FILE_NAME).
Local Abbreviation cleaningMessage files :=
  (glyph_bin ++ lit "  Cleaning up "
   ++ numberToString (Z.of_nat (length (drop 10 files)))
   ++ lit " old log files").

(** *** The listing *)

Lemma mapM_stat_ok (l : list str) w :
  (∀ n, statFault (faults w) n = None) →
  (∀ n, n ∈ l → n ∈ dom (featureDir w)) →
  mapM (λ file, bind (statSync_mtime file)
                  (λ t, ret (mkLogFileInfo file t (InFeatureDir file))))
    l w
  = (Ok (map (statOf (featureDir w)) l), w).
Proof.
  intros Hstat. induction l as [|n l IH]; intros Hdom; [done|].
  cbn [mapM map]. unfold bind at 1. unfold bind at 1.
  unfold statSync_mtime at 1. rewrite Hstat.
  assert (n ∈ dom (featureDir w)) as Hn by (apply Hdom; left).
  apply elem_of_dom in Hn as [f Hf]. rewrite Hf.
  unfold ret at 1. unfold bind at 1.
  rewrite IH by (intros; apply Hdom; by right).
  unfold ret, statOf, mtimeOf. by rewrite Hf.
Qed.

Lemma listLogFiles_ok w :
  readdirFault (faults w) = None →
  (∀ n, statFault (faults w) n = None) →
  listLogFiles' w = (Ok (sortedLogFiles' (featureDir w)), w).
Proof.
  intros Hreaddir Hstat.
  unfold listLogFiles. unfold bind at 1. unfold readdirSync.
  rewrite Hreaddir. unfold bind at 1. rewrite mapM_stat_ok; [done..|].
  intros n Hn. apply elem_of_List_filter in Hn as [Hn _].
  by apply elem_of_readdir.
Qed.

(** *** The deletions *)

Lemma deleteOldLog_ok file w :
  unlinkFault (faults w) (name file) = None →
  name file ∈ dom (featureDir w) →
  deleteOldLog' file w
  = (Ok tt,
     logToFile' (glyph_bin ++ lit "  Deleted old log: " ++ name file)
       (lit "INFO")
       (setFeatureDir (delete (name file) (featureDir w)) w)).
Proof.
  intros Hfault Hdom. unfold deleteOldLog, bind, unlinkSync, lift.
  rewrite Hfault. apply elem_of_dom in Hdom as [f Hf]. by rewrite Hf.
Qed.

Lemma forEach_deleteOldLog del w :
  NoDup (map name del) →
  (∀ n, n ∈ map name del → n ∈ dom (featureDir w)) →
  logFileName' ∉ map name del →
  summaryLogName' ∉ map name del →
  (∀ n, unlinkFault (faults w) n = None) →
  ∃ w',
    forEach deleteOldLog' del w = (Ok tt, w')
    ∧ faults w' = faults w
    ∧ testStats w' = testStats w
    ∧ (∀ n, n ∈ map name del → n ∉ dom (featureDir w'))
    ∧ (∀ n, n ∉ map name del → n ∈ dom (featureDir w) →
            n ∈ dom (featureDir w'))
    ∧ (∀ n, n ∈ dom (featureDir w') →
            n ∈ dom (featureDir w) ∨ n = logFileName'
            ∨ n = summaryLogName').
Proof.
  revert w. induction del as [|x del IH]; intros w Hnd Hdom Hown Hsum Hf.
  - exists w. cbn. repeat split; try done.
    + intros n Hn. by apply elem_of_nil in Hn.
    + by left.
  - cbn [map] in *. apply NoDup_cons in Hnd as [Hx Hnd].
    apply not_elem_of_cons in Hown as [Hown1 Hown].
    apply not_elem_of_cons in Hsum as [Hsum1 Hsum].
    cbn [forEach]. unfold bind at 1.
    rewrite deleteOldLog_ok by (try apply Hdom; try left; done).
    set (w2 := logToFile' _ _ _).
    assert (Hsub : ∀ n, n ∈ dom (featureDir w2) →
                        n ∈ dom (featureDir w) ∧ n ≠ name x
                        ∨ n = logFileName' ∨ n = summaryLogName').
    { intros n Hn. unfold w2 in Hn. apply elem_of_dom_logToFile in Hn.
      cbn [featureDir setFeatureDir] in Hn.
      rewrite dom_delete_L, elem_of_difference, elem_of_singleton in Hn.
      tauto. }
    assert (Hsup : ∀ n, n ∈ dom (featureDir w) → n ≠ name x →
                        n ∈ dom (featureDir w2)).
    { intros n Hn Hne. unfold w2. apply elem_of_dom_logToFile. left.
      cbn [featureDir setFeatureDir].
      by rewrite dom_delete_L, elem_of_difference, elem_of_singleton. }
    destruct (IH w2) as (w' & Hrun & Hfaults & Hstats & Hi & Hii & Hiii).
    + done.
    + intros n Hn. apply Hsup; [apply Hdom; by right|].
      by intros ->.
    + done.
    + done.
    + intros n. unfold w2. rewrite faults_logToFile. apply Hf.
    + exists w'. split; [done|]. split.
      { rewrite Hfaults. unfold w2. by rewrite faults_logToFile. }
      split.
      { rewrite Hstats. unfold w2. by rewrite testStats_logToFile. }
      split; [|split].
      * intros n Hn Hn'. apply elem_of_cons in Hn as [->|Hn].
        -- apply Hiii in Hn' as [Hn'|[Hn'|Hn']]; [|done..].
           apply Hsub in Hn'. destruct Hn' as [[_ ?]|[?|?]]; congruence.
        -- by apply (Hi n).
      * intros n Hn Hn'. apply not_elem_of_cons in Hn as [Hn1 Hn].
        apply Hii; [done|]. by apply Hsup.
      * intros n Hn. apply Hiii in Hn as [Hn|Hn]; [|tauto].
        apply Hsub in Hn. tauto.
Qed.

(** *** The body of the [try] block when no call is refused *)

Lemma cleanupBody_ok w :
  readdirFault (faults w) = None →
  (∀ n, statFault (faults w) n = None) →
  let files := sortedLogFiles' (featureDir w) in
  let found := logToFile' (foundMessage files) (lit "INFO") w in
  cleanupBody' w
  = if (10 <? length files)%nat
    then forEach deleteOldLog' (drop 10 files)
           (logToFile' (cleaningMessage files) (lit "INFO") found)
    else (Ok tt, found).
Proof.
  intros Hreaddir Hstat files found.
  unfold cleanupBody. unfold bind at 1.
  rewrite listLogFiles_ok by done. fold files.
  unfold bind at 1. unfold lift at 1. fold found.
  destruct (10 <? length files)%nat; [|done].
  unfold bind at 1. by unfold lift at 1.
Qed.

(** The listing never changes the world; when it returns, it returns
    the sorted listing of the directory. *)
Lemma mapM_stat_cases (l : list str) w :
  (∀ n, n ∈ l → n ∈ dom (featureDir w)) →
  ∃ r,
    mapM (λ file, bind (statSync_mtime file)
                    (λ t, ret (mkLogFileInfo file t (InFeatureDir file))))
      l w
    = (r, w)
    ∧ (r = Ok (map (statOf (featureDir w)) l)
       ∧ (∀ n, n ∈ l → statFault (faults w) n = None)
       ∨ ∃ error n,
           n ∈ l ∧ statFault (faults w) n = Some error
           ∧ r = Throw error).
Proof.
  induction l as [|n l IH]; intros Hdom.
  { eexists. split; [reflexivity|]. left. split; [done|].
    intros n Hn. by apply elem_of_nil in Hn. }
  cbn [mapM map]. unfold bind at 1. unfold bind at 1.
  unfold statSync_mtime at 1.
  destruct (statFault (faults w) n) as [error|] eqn:Hstat.
  { eexists. split; [reflexivity|]. right. exists error, n.
    split; [left|done]. }
  assert (n ∈ dom (featureDir w)) as Hn by (apply Hdom; left).
  apply elem_of_dom in Hn as [f Hf]. rewrite Hf.
  unfold ret at 1. unfold bind at 1.
  destruct IH as (r & -> & [[-> Hnone]|(error & n' & Hn' & Hfault & ->)]).
  - intros; apply Hdom; by right.
  - eexists. split; [reflexivity|]. left. split.
    + unfold statOf, mtimeOf. by rewrite Hf.
    + intros m Hm. apply elem_of_cons in Hm as [->|Hm]; [done|].
      by apply Hnone.
  - eexists. split; [reflexivity|]. right. exists error, n'.
    split; [by right|done].
Qed.

Lemma listLogFiles_cases w :
  ∃ r,
    listLogFiles' w = (r, w)
    ∧ (r = Ok (sortedLogFiles' (featureDir w))
       ∧ readdirFault (faults w) = None
       ∧ (∀ n, n ∈ logFiles' (featureDir w) →
               statFault (faults w) n = None)
       ∨ ∃ error,
           r = Throw error
           ∧ (readdirFault (faults w) = Some error
              ∨ ∃ n, n ∈ logFiles' (featureDir w)
                     ∧ statFault (faults w) n = Some error)).
Proof.
  unfold listLogFiles. unfold bind at 1. unfold readdirSync.
  destruct (readdirFault (faults w)) as [error|] eqn:Hreaddir.
  { eexists. split; [reflexivity|]. right. exists error.
    split; [done|by left]. }
  unfold bind at 1.
  destruct (mapM_stat_cases
              (List.filter qualifies' (map fst (map_to_list (featureDir w))))
              w)
    as (r & -> & [[-> Hnone]|(error & n & Hn & Hfault & ->)]).
  - intros n Hn. apply elem_of_List_filter in Hn as [Hn _].
    by apply elem_of_readdir.
  - eexists. split; [reflexivity|]. left. split; [done|]. split; [done|].
    intros n Hn. apply Hnone. apply elem_of_logFiles in Hn as [Hn Hq].
    apply elem_of_List_filter. by rewrite elem_of_readdir.
  - eexists. split; [reflexivity|]. right. exists error.
    split; [done|]. right. exists n. split; [|done].
    apply elem_of_List_filter in Hn as [Hn Hq].
    apply elem_of_logFiles. by rewrite <- elem_of_readdir.
Qed.

(** *** Which files are kept *)

Lemma names_take_drop files :
  map name files
  = map name (take 10 files) ++ map name (drop 10 files).
Proof. by rewrite <- map_app, take_drop. Qed.

Lemma own_log_kept d :
  let files := sortedLogFiles' d in
  (10 < length files)%nat →
  (size (atLeastAsRecent TEST_FILE_NAME d logFileName') < 10)%nat →
  logFileName' ∉ map name (drop 10 files).
Proof.
  intros files Hlen Hfew Hin.
  apply list_elem_of_fmap in Hin as (x & Hx & Hin).
  assert (Hnd := NoDup_names_sortedLogFiles TEST_FILE_NAME d).
  fold files in Hnd. rewrite names_take_drop in Hnd.
  apply NoDup_app in Hnd as (Hnd1 & Hdisj & _).
  assert (Hsorted := sortedLogFiles_sorted TEST_FILE_NAME d).
  fold files in Hsorted. rewrite <- (take_drop 10 files) in Hsorted.
  assert (list_to_set (map name (take 10 files))
          ⊆ atLeastAsRecent TEST_FILE_NAME d logFileName') as Hsub.
  { intros n Hn. apply elem_of_list_to_set in Hn.
    unfold atLeastAsRecent. apply elem_of_filter.
    assert (n ∈ map name files) as Hfiles.
    { rewrite names_take_drop. apply elem_of_app. by left. }
    split; [split|].
    - intros ->. apply (Hdisj _ Hn).
      apply list_elem_of_fmap. by exists x.
    - apply list_elem_of_fmap in Hn as (a & -> & Ha).
      assert (time x ≤ time a) as Hle
        by apply (StronglySorted_app_1_elem_of _ _ _ _ _ Hsorted Ha Hin).
      rewrite Hx.
      rewrite <- !(time_sortedLogFiles TEST_FILE_NAME d); [done|..].
      + fold files. rewrite <- (take_drop 10 files).
        apply elem_of_app. by left.
      + fold files. rewrite <- (take_drop 10 files).
        apply elem_of_app. by right.
    - by apply elem_of_names_sortedLogFiles. }
  apply subseteq_size in Hsub.
  rewrite size_list_to_set in Hsub by done.
  rewrite length_map, length_take in Hsub. lia.
Qed.

(** *** The rotation *)

(** The rotation on a directory with more than ten log files, when no
    call is refused and the log of the running process is not among the
    files picked for deletion: the ten first files of the sorted listing
    remain, next to the log of the running process. *)
Lemma cleanupOldLogs_rotates w :
  let d := featureDir w in
  let files := sortedLogFiles' d in
  filesystemHealthy w →
  (10 < length files)%nat →
  logFileName' ∉ map name (drop 10 files) →
  ∃ w',
    cleanupOldLogs' w = (Ok tt, w')
    ∧ logFiles' (featureDir w')
      = list_to_set (map name (take 10 files)) ∪ {[logFileName']}
    ∧ (∀ n, n ∈ map name (drop 10 files) → n ∉ dom (featureDir w'))
    ∧ (∀ n, n ∈ dom d → qualifies' n = false → n ∈ dom (featureDir w')).
Proof.
  intros d files (Hreaddir & Hstat & Hunlink) Hlen Hkept.
  unfold cleanupOldLogs, tryCatch.
  rewrite cleanupBody_ok by done. fold d. fold files.
  apply Nat.ltb_lt in Hlen as Hlen'. rewrite Hlen'. clear Hlen'.
  set (w2 := logToFile' _ _ (logToFile' _ _ w)).
  assert (Hnames : ∀ n, n ∈ map name files ↔ n ∈ dom d ∧ qualifies' n = true).
  { intros n. unfold files.
    by rewrite elem_of_names_sortedLogFiles, elem_of_logFiles. }
  assert (Hnd := NoDup_names_sortedLogFiles TEST_FILE_NAME d).
  fold files in Hnd. rewrite names_take_drop in Hnd.
  apply NoDup_app in Hnd as (Hnd1 & Hdisj & Hnd2).
  assert (Hdom2 : ∀ n, n ∈ dom (featureDir w2) ↔
                       n ∈ dom d ∨ n = logFileName'
                       ∨ n = summaryLogName' ∧ n ∈ dom (featureDir w2)).
  { intros n. split; [|unfold w2; rewrite !elem_of_dom_logToFile; tauto].
    intros Hn. assert (Hn' := Hn). unfold w2 in Hn'.
    rewrite !elem_of_dom_logToFile in Hn'. fold d in Hn'. tauto. }
  destruct (forEach_deleteOldLog (drop 10 files) w2)
    as (w' & Hrun & _ & _ & Hi & Hii & Hiii).
  - done.
  - intros n Hn. apply Hdom2. left.
    apply (Hnames n). rewrite names_take_drop. apply elem_of_app. by right.
  - done.
  - intros Hsum.
    assert (summaryLogName' ∈ map name files) as Hin
      by (rewrite names_take_drop; apply elem_of_app; by right).
    apply Hnames in Hin as [_ Hq].
    by rewrite summaryLogName_not_qualifies in Hq.
  - intros n. unfold w2. by rewrite !faults_logToFile.
  - exists w'. rewrite Hrun. split; [done|]. split; [|split; [done|]].
    + apply set_eq. intros n.
      rewrite elem_of_logFiles, elem_of_union, elem_of_list_to_set,
        elem_of_singleton.
      split.
      * intros [Hn Hq]. assert (Hn' := Hiii _ Hn).
        destruct (decide (n = logFileName')) as [|Hne]; [by right|left].
        assert (n ∈ dom d) as Hd.
        { destruct Hn' as [Hn'|[->| ->]].
          - apply Hdom2 in Hn' as [Hn'|[Hn'|[-> _]]]; [done|done|].
            by rewrite summaryLogName_not_qualifies in Hq.
          - done.
          - by rewrite summaryLogName_not_qualifies in Hq. }
        assert (n ∈ map name files) as Hin by by apply Hnames.
        rewrite names_take_drop in Hin.
        apply elem_of_app in Hin as [Hin|Hin]; [done|].
        by apply Hi in Hin.
      * intros [Hn| ->].
        -- assert (n ∈ map name files) as Hin
             by (rewrite names_take_drop; apply elem_of_app; by left).
           apply Hnames in Hin as [Hd Hq]. split; [|done].
           apply Hii; [by apply Hdisj|]. apply Hdom2. by left.
        -- split; [|apply logFileName_qualifies].
           apply Hii; [done|]. apply Hdom2. right. by left.
    + intros n Hn Hq. apply Hii.
      * intros Hin.
        assert (n ∈ map name files) as Hin'
          by (rewrite names_take_drop; apply elem_of_app; by right).
        apply Hnames in Hin' as [_ Hq']. congruence.
      * apply Hdom2. by left.
Qed.

(** The rotation when the log of the running process is one of the ten
    most recently modified (fewer than ten other log files are at least
    as recent) and no call of [fs] is refused, on a directory with N > 10
    per-run log files: [cleanupOldLogs] returns normally and deletes log
    files only, exactly ten log files remain, N - 10 are gone, and no
    deleted file was modified later than a file that remains.  Files
    that are not per-run logs are kept. *)
Lemma cleanupOldLogs_keeps_ten_most_recent w :
  let d := featureDir w in
  filesystemHealthy w →
  (10 < size (logFiles' d))%nat →
  logFileName' ∈ dom d →
  (size (atLeastAsRecent TEST_FILE_NAME d logFileName') < 10)%nat →
  ∃ w',
    cleanupOldLogs TEST_FILE_NAME loadTime randomSuffix toISOString
      countWarning w = (Ok tt, w')
    ∧ logFiles' (featureDir w') ⊆ logFiles' d
    ∧ size (logFiles' (featureDir w')) = 10%nat
    ∧ size (logFiles' d ∖ logFiles' (featureDir w'))
      = (size (logFiles' d) - 10)%nat
    ∧ (∀ deleted,
         deleted ∈ logFiles' d ∖ logFiles' (featureDir w') →
         deleted ∉ dom (featureDir w'))
    ∧ (∀ kept deleted,
         kept ∈ logFiles' (featureDir w') →
         deleted ∈ logFiles' d ∖ logFiles' (featureDir w') →
         mtimeOf d deleted ≤ mtimeOf d kept)
    ∧ (∀ n, n ∈ dom d → qualifies' n = false → n ∈ dom (featureDir w')).
Proof.
  intros d Hhealthy Hsize Hown Hrecent.
  set (files := sortedLogFiles' d).
  assert (Hlen : (10 < length files)%nat)
    by (unfold files; by rewrite length_sortedLogFiles).
  assert (Hkeep : logFileName' ∉ map name (drop 10 files))
    by by apply own_log_kept.
  destruct (cleanupOldLogs_rotates w)
    as (w' & Hrun & Hkept & _ & Hother); [done..|].
  fold d in Hkept, Hother. fold files in Hkept.
  assert (Hnd := NoDup_names_sortedLogFiles TEST_FILE_NAME d).
  fold files in Hnd. rewrite names_take_drop in Hnd.
  apply NoDup_app in Hnd as (Hnd1 & Hdisj & Hnd2).
  assert (logFileName' ∈ map name (take 10 files)) as Hin.
  { assert (logFileName' ∈ map name files) as Hin.
    { apply elem_of_names_sortedLogFiles, elem_of_logFiles.
      split; [done|apply logFileName_qualifies]. }
    rewrite names_take_drop in Hin.
    by apply elem_of_app in Hin as [Hin|Hin]. }
  assert (list_to_set (map name (take 10 files)) ∪ {[logFileName']}
          = (list_to_set (map name (take 10 files)) : gset str)) as Heq.
  { apply set_eq. intros n.
    rewrite elem_of_union, elem_of_list_to_set, elem_of_singleton.
    split; [intros [?| ->]; done|by left]. }
  rewrite Heq in Hkept. clear Heq.
  assert (Hsub : logFiles' (featureDir w') ⊆ logFiles' d).
  { rewrite Hkept. intros n Hn. apply elem_of_list_to_set in Hn.
    apply elem_of_names_sortedLogFiles. fold files.
    rewrite names_take_drop. apply elem_of_app. by left. }
  assert (Hten : size (logFiles' (featureDir w')) = 10%nat).
  { rewrite Hkept, size_list_to_set by done.
    rewrite length_map, length_take. lia. }
  exists w'. split; [done|]. split; [done|]. split; [done|].
  split; [|split; [|split; [|done]]].
  - rewrite size_difference by done. by rewrite Hten.
  - intros deleted Hdel Hin'.
    apply elem_of_difference in Hdel as [Hdel Hgone]. apply Hgone.
    apply elem_of_logFiles in Hdel as [_ Hq]. by apply elem_of_logFiles.
  - intros kept deleted Hk Hdel.
    apply elem_of_difference in Hdel as [Hdel Hgone].
    rewrite Hkept in Hk, Hgone.
    rewrite elem_of_list_to_set in Hk, Hgone.
    apply elem_of_names_sortedLogFiles in Hdel. fold files in Hdel.
    rewrite names_take_drop in Hdel.
    apply elem_of_app in Hdel as [Hdel|Hdel]; [done|].
    apply list_elem_of_fmap in Hk as (a & -> & Ha).
    apply list_elem_of_fmap in Hdel as (b & -> & Hb).
    assert (Hsorted := sortedLogFiles_sorted TEST_FILE_NAME d).
    fold files in Hsorted. rewrite <- (take_drop 10 files) in Hsorted.
    assert (time b ≤ time a) as Hle
      by apply (StronglySorted_app_1_elem_of _ _ _ _ _ Hsorted Ha Hb).
    rewrite <- !(time_sortedLogFiles TEST_FILE_NAME d); [done|..].
    + fold files. rewrite <- (take_drop 10 files).
      apply elem_of_app. by left.
    + fold files. rewrite <- (take_drop 10 files).
      apply elem_of_app. by right.
Qed.

(** What the [catch] block leaves. *)
Lemma cleanupOldLogs_caught w error w1 :
  cleanupBody' w = (Throw error, w1) →
  let warned :=
    logToFile'
      (glyph_warning ++ lit "  Failed to cleanup old logs: "
       ++ message error)
      (lit "WARNING") w1 in
  cleanupOldLogs' w
  = (Ok tt, setTestStats (countWarning (testStats warned)) warned).
Proof.
  intros Hbody. unfold cleanupOldLogs, tryCatch. by rewrite Hbody.
Qed.



(** C5. On a directory with at most ten per-run log files
    [cleanupOldLogs] deletes nothing: every file is still there when it
    returns, and the set of files is the same once the two log files the
    process writes to exist, as they do after the test file is loaded. *)
Theorem cleanupOldLogs_small_directory_untouched w :
  let d := featureDir w in
  (size (logFiles' d) ≤ 10)%nat →
  ∃ w',
    cleanupOldLogs TEST_FILE_NAME loadTime randomSuffix toISOString
      countWarning w = (Ok tt, w')
    ∧ (∀ n, n ∈ dom d → n ∈ dom (featureDir w'))
    ∧ (logFileName' ∈ dom d → summaryLogName' ∈ dom d →
       dom (featureDir w') = dom d).
Proof.
  intros d Hsize.
  assert (∃ w' message level,
            cleanupOldLogs' w = (Ok tt, w')
            ∧ featureDir w' = featureDir (logToFile' message level w))
    as (w' & message & level & Hrun & Hdir).
  { destruct (listLogFiles_cases w) as (r & Hlist & Hr).
    destruct Hr as [[-> _]|(error & -> & _)].
    - unfold cleanupOldLogs, tryCatch, cleanupBody. unfold bind at 1.
      rewrite Hlist. fold d. unfold bind at 1. unfold lift at 1.
      rewrite length_sortedLogFiles.
      assert ((10 <? size (logFiles' d))%nat = false) as ->
        by (apply Nat.ltb_ge; lia).
      unfold ret. by eexists _, _, _.
    - assert (cleanupBody' w = (Throw error, w)) as Hbody.
      { unfold cleanupBody. unfold bind at 1. by rewrite Hlist. }
      rewrite (cleanupOldLogs_caught _ _ _ Hbody).
      by eexists _, _, _. }
  exists w'. split; [done|]. rewrite Hdir, dom_logToFile. fold d.
  split.
  - intros n Hn. set_solver.
  - intros Hown Hsum. destruct (importantEvent _ _); set_solver.
Qed.

(** *** Twelve files *)

Lemma sortedLogFiles_of_increasing (f : nat → str) d :
  logFiles' d = list_to_set (map f (seq 1 12)) →
  (∀ i j, (1 ≤ i < j)%nat → (j ≤ 12)%nat →
          mtimeOf d (f i) < mtimeOf d (f j)) →
  sortedLogFiles' d = map (statOf d) (rev (map f (seq 1 12))).
Proof.
  intros Hfiles Htimes.
  apply (sorted_Permutation_unique time);
    [|apply sortedLogFiles_sorted|].
  - unfold sortedLogFiles. rewrite (arraySort_Permutation time).
    apply Permutation_map. apply NoDup_Permutation.
    + apply NoDup_List_filter, (NoDup_fst_map_to_list d).
    + rewrite <- Permutation_rev.
      apply (NoDup_fmap_2_strong f); [|apply NoDup_seq].
      intros i j Hi Hj Heq. apply elem_of_seq in Hi, Hj.
      destruct (decide (i < j)%nat) as [Hlt|Hge].
      { assert (H := Htimes i j). rewrite Heq in H. lia. }
      destruct (decide (j < i)%nat) as [Hlt|Hge'].
      { assert (H := Htimes j i). rewrite Heq in H. lia. }
      lia.
    + intros n. rewrite <- Permutation_rev.
      rewrite elem_of_List_filter, elem_of_readdir.
      rewrite <- elem_of_logFiles, Hfiles. apply elem_of_list_to_set.
  - cbn [seq map rev app].
    repeat first [apply SSorted_nil | apply SSorted_cons
                 | apply List.Forall_nil | apply List.Forall_cons].
    all: cbn [time statOf]; apply Htimes; lia.
Qed.

(** Twelve per-run log files f1 .. f12 whose modification times
    increase strictly, no call of [fs] refused, and the log of the
    running process not one of the two oldest: [cleanupOldLogs] returns
    normally, f3 .. f12 are still in the directory and f1 and f2 are
    not. *)
Lemma rotation_of_twelve_files (f : nat → str) w :
  let d := featureDir w in
  filesystemHealthy w →
  logFiles' d = list_to_set (map f (seq 1 12)) →
  (∀ i j, (1 ≤ i < j)%nat → (j ≤ 12)%nat →
          mtimeOf d (f i) < mtimeOf d (f j)) →
  logFileName' ≠ f 1%nat →
  logFileName' ≠ f 2%nat →
  ∃ w',
    cleanupOldLogs TEST_FILE_NAME loadTime randomSuffix toISOString
      countWarning w = (Ok tt, w')
    ∧ (∀ i, (3 ≤ i ≤ 12)%nat → f i ∈ dom (featureDir w'))
    ∧ (f 1%nat ∉ dom (featureDir w'))
    ∧ (f 2%nat ∉ dom (featureDir w')).
Proof.
  intros d Hhealthy Hfiles Htimes Hown1 Hown2.
  assert (Hsorted := sortedLogFiles_of_increasing f d Hfiles Htimes).
  destruct (cleanupOldLogs_rotates w)
    as (w' & Hrun & Hkept & Hgone & _); fold d.
  - done.
  - rewrite Hsorted. cbn. lia.
  - rewrite Hsorted. cbn. rewrite !not_elem_of_cons.
    repeat split; try done. apply not_elem_of_nil.
  - fold d in Hkept, Hgone. rewrite Hsorted in Hkept, Hgone.
    exists w'. split; [done|]. split; [|split].
    + intros i Hi.
      assert (f i ∈ logFiles' (featureDir w')) as Hin.
      { rewrite Hkept. apply elem_of_union. left.
        apply elem_of_list_to_set.
        assert (i ∈ seq 3 10) as Hseq by (apply elem_of_seq; lia).
        cbn in Hseq |- *.
        repeat (apply elem_of_cons in Hseq as [->|Hseq];
                [repeat first [apply list_elem_of_here
                              |apply list_elem_of_further]|]).
        by apply elem_of_nil in Hseq. }
      by apply elem_of_logFiles in Hin as [Hin _].
    + apply Hgone. cbn. apply list_elem_of_further, list_elem_of_here.
    + apply Hgone. cbn. apply list_elem_of_here.
Qed.

(** *** Where the errors of the [try] block come from *)

Lemma cleanupBody_readdir_refused w error :
  readdirFault (faults w) = Some error →
  cleanupBody' w = (Throw error, w).
Proof.
  intros Hfault. unfold cleanupBody. unfold bind at 1.
  unfold listLogFiles. unfold bind at 1. unfold readdirSync.
  by rewrite Hfault.
Qed.

Lemma cleanupBody_stat_refused w n error :
  readdirFault (faults w) = None →
  n ∈ logFiles' (featureDir w) →
  statFault (faults w) n = Some error →
  ∃ n' error',
    n' ∈ logFiles' (featureDir w)
    ∧ statFault (faults w) n' = Some error'
    ∧ cleanupBody' w = (Throw error', w).
Proof.
  intros Hreaddir Hn Hfault.
  destruct (listLogFiles_cases w) as (r & Hlist & Hr).
  destruct Hr
    as [(_ & _ & Hnone)|(error' & -> & [Hr|(n' & Hn' & Hfault')])].
  - rewrite Hnone in Hfault; done.
  - congruence.
  - exists n', error'. split; [done|]. split; [done|].
    unfold cleanupBody. unfold bind at 1. by rewrite Hlist.
Qed.

Lemma forEach_deleteOldLog_refused del w x error :
  x ∈ del →
  unlinkFault (faults w) (name x) = Some error →
  ∃ error' w1, forEach deleteOldLog' del w = (Throw error', w1).
Proof.
  revert w. induction del as [|y del IH]; intros w Hin Hfault.
  { by apply elem_of_nil in Hin. }
  cbn [forEach]. unfold bind at 1. unfold deleteOldLog at 1.
  unfold bind at 1. unfold unlinkSync at 1.
  destruct (unlinkFault (faults w) (name y)) as [e|] eqn:Hy;
    [by eexists _, _|].
  destruct (featureDir w !! name y) as [file|]; [|by eexists _, _].
  unfold lift at 1.
  apply elem_of_cons in Hin as [->|Hin]; [congruence|].
  apply IH; [done|]. by rewrite faults_logToFile.
Qed.
End CleanupFacts.

(** ** The slow branch of timeAction, file by file *)

(** In the cart file a slow operation is counted once. *)
Lemma cart_timeAction_slow_operation_counted {T : Type}
    loadTime randomSuffix toISOString actionName
    (actionFn : M (World Cart.Stats) T) context w result w2 :
  actionFn (beforeAction Cart.TEST_FILE_NAME loadTime randomSuffix
              toISOString actionName context w) = (Ok result, w2) →
  5000 < clock w2 (ticks w2) - clock w (ticks w) →
  ∃ w3,
    Cart.timeAction loadTime randomSuffix toISOString
      actionName actionFn context w = (Ok result, w3)
    ∧ Cart.slowOps (testStats w3) = Cart.slowOps (testStats w2) + 1.
Proof.
  intros Hrun Hslow.
  destruct (timeAction_slow Cart.TEST_FILE_NAME loadTime randomSuffix
              toISOString Cart.slowOpsIncrement _ _ _ _ _ _ Hrun Hslow)
    as (w3 & t1 & t2 & Htime & _ & Hstats).
  exists w3. split; [done|]. by rewrite Hstats.
Qed.

(** In the login file a slow operation is counted once. *)
Lemma login_timeAction_slow_operation_counted {T : Type}
    loadTime randomSuffix toISOString actionName
    (actionFn : M (World Login.Stats) T) context w result w2 :
  actionFn (beforeAction Login.TEST_FILE_NAME loadTime randomSuffix
              toISOString actionName context w) = (Ok result, w2) →
  5000 < clock w2 (ticks w2) - clock w (ticks w) →
  ∃ w3,
    Login.timeAction loadTime randomSuffix toISOString
      actionName actionFn context w = (Ok result, w3)
    ∧ Login.slowOps (testStats w3) = Login.slowOps (testStats w2) + 1.
Proof.
  intros Hrun Hslow.
  destruct (timeAction_slow Login.TEST_FILE_NAME loadTime randomSuffix
              toISOString Login.slowOpsIncrement _ _ _ _ _ _ Hrun Hslow)
    as (w3 & t1 & t2 & Htime & _ & Hstats).
  exists w3. split; [done|]. by rewrite Hstats.
Qed.

(** In the checkout file a slow operation is counted once. *)
Lemma checkout_timeAction_slow_operation_counted {T : Type}
    loadTime randomSuffix toISOString actionName
    (actionFn : M (World Checkout.Stats) T) context w result w2 :
  actionFn (beforeAction Checkout.TEST_FILE_NAME loadTime randomSuffix
              toISOString actionName context w) = (Ok result, w2) →
  5000 < clock w2 (ticks w2) - clock w (ticks w) →
  ∃ w3,
    Checkout.timeAction loadTime randomSuffix toISOString
      actionName actionFn context w = (Ok result, w3)
    ∧ Checkout.slowOps (testStats w3)
      = Checkout.slowOps (testStats w2) + 1.
Proof.
  intros Hrun Hslow.
  destruct (timeAction_slow Checkout.TEST_FILE_NAME loadTime randomSuffix
              toISOString Checkout.slowOpsIncrement _ _ _ _ _ _ Hrun Hslow)
    as (w3 & t1 & t2 & Htime & _ & Hstats).
  exists w3. split; [done|]. by rewrite Hstats.
Qed.

(** C4. In the sort file an operation that returns after more than
    5000 ms gets its WARNING line, yet [testStats.slowOps] is left as it
    was: the slow branch of that file has no [testStats.slowOps++]. *)
Theorem sort_timeAction_slow_operation_not_counted {T : Type}
    loadTime randomSuffix toISOString actionName
    (actionFn : M (World Sort.Stats) T) context w result w2 :
  actionFn (beforeAction Sort.TEST_FILE_NAME loadTime randomSuffix
              toISOString actionName context w) = (Ok result, w2) →
  5000 < clock w2 (ticks w2) - clock w (ticks w) →
  ∃ w3 t1 t2,
    Sort.timeAction loadTime randomSuffix toISOString
      actionName actionFn context w = (Ok result, w3)
    ∧ readContent (Sort.logFilePath loadTime randomSuffix) w3
      = readContent (Sort.logFilePath loadTime randomSuffix) w2
        ++ logEntry toISOString t1 (lit "SUCCESS")
             (glyph_check ++ lit " COMPLETED: "
              ++ fullContextOf actionName context ++ lit " ("
              ++ numberToString (clock w2 (ticks w2) - clock w (ticks w))
              ++ lit "ms)")
        ++ logEntry toISOString t2 (lit "WARNING")
             (glyph_warning ++ lit "  SLOW OPERATION: "
              ++ fullContextOf actionName context ++ lit " took "
              ++ numberToString (clock w2 (ticks w2) - clock w (ticks w))
              ++ lit "ms")
    ∧ Sort.slowOps (testStats w3) = Sort.slowOps (testStats w2).
Proof.
  intros Hrun Hslow.
  destruct (timeAction_slow Sort.TEST_FILE_NAME loadTime randomSuffix
              toISOString (λ s, s) _ _ _ _ _ _ Hrun Hslow)
    as (w3 & t1 & t2 & Htime & Hlog & Hstats).
  exists w3, t1, t2. split; [done|]. split; [done|]. by rewrite Hstats.
Qed.

(** ** The cart badge *)

(** C9. [getCartCount] never throws: whatever the page answers, it returns
    a number, which is 0 when the badge is not visible, when it has no
    text, or when reading it fails, and the parsed badge text otherwise. *)
Theorem getCartCount_total
    (JsNumber : Type) (zero : JsNumber) (parseInt : str → JsNumber)
    (p : InventoryPage.Page) :
  ∃ p',
    InventoryPage.getCartCount JsNumber zero parseInt p
    = (Ok (InventoryPage.shownCartCount JsNumber zero parseInt p), p')
    ∧ InventoryPage.badgeIsVisible p' = InventoryPage.badgeIsVisible p
    ∧ InventoryPage.badgeTextContent p' = InventoryPage.badgeTextContent p.
Proof.
  unfold InventoryPage.getCartCount, InventoryPage.shownCartCount,
    tryCatch, bind, ret, lift, InventoryPage.consoleLog,
    InventoryPage.cartBadge_isVisible, InventoryPage.cartBadge_textContent.
  destruct p as [[[]|e] [[[|c t]|]|e'] out]; cbn; by eexists.
Qed.

(** ** The statistics of the cart file *)

Section AppendFacts.
Implicit Types (a b c line x : str).

Lemma appendedWith_here a b line :
  (∃ pre, b = a ++ pre) → appendedWith a (b ++ line) line.
Proof.
  intros [pre ->]. exists pre, []. by rewrite app_nil_r, <- app_assoc.
Qed.

Lemma appendedWith_more a b line x :
  appendedWith a b line → appendedWith a (b ++ x) line.
Proof.
  intros (pre & post & ->). exists pre, (post ++ x).
  by rewrite <- !app_assoc.
Qed.

Lemma grown_refl a : ∃ pre, a = a ++ pre.
Proof. exists []. by rewrite app_nil_r. Qed.

Lemma grown_more a b x : (∃ pre, b = a ++ pre) → ∃ pre, b ++ x = a ++ pre.
Proof. intros [pre ->]. exists (pre ++ x). by rewrite <- app_assoc. Qed.

Lemma appendedLast_here a b line :
  (∃ pre, b = a ++ pre) → appendedLast a (b ++ line) line.
Proof. intros [pre ->]. exists pre. by rewrite <- app_assoc. Qed.
End AppendFacts.

Section CartFacts.
Variable loadTime : Z.
Variable randomSuffix : str.
Variable toISOString : Z → str.
Variable cwd : str.

Implicit Types (w : World Cart.Stats).

Local Abbreviation logToFile' :=
  (logToFile (S := Cart.Stats) Cart.TEST_FILE_NAME loadTime randomSuffix
     toISOString).
Local Abbreviation logFilePath' :=
  (logFilePath Cart.TEST_FILE_NAME loadTime randomSuffix).
Local Abbreviation summaryLogPath' :=
  (summaryLogPath Cart.TEST_FILE_NAME).
Local Abbreviation timeAction' :=
  (Cart.timeAction loadTime randomSuffix toISOString).
Local Abbreviation afterAll' :=
  (Cart.afterAll loadTime randomSuffix toISOString cwd).
Local Abbreviation logTestStatistics' :=
  (Cart.logTestStatistics loadTime randomSuffix toISOString).
Local Abbreviation beforeAction' :=
  (beforeAction (S := Cart.Stats) Cart.TEST_FILE_NAME loadTime
     randomSuffix toISOString).

Lemma importantEvent_SUMMARY message :
  importantEvent message (lit "SUMMARY") = true.
Proof. done. Qed.

Lemma testStats_beforeAction actionName context w :
  testStats (beforeAction' actionName context w) = testStats w.
Proof. unfold beforeAction. by rewrite testStats_logToFile. Qed.

Lemma cart_timeAction_keeps_passed {T : Type}
    actionName (actionFn : M (World Cart.Stats) T) context w result w2 :
  actionFn (beforeAction' actionName context w) = (Ok result, w2) →
  ∃ w3,
    timeAction' actionName actionFn context w = (Ok result, w3)
    ∧ Cart.passed (testStats w3) = Cart.passed (testStats w2).
Proof.
  intros Hrun. unfold Cart.timeAction.
  rewrite (timeAction_resolved _ _ _ _ _ _ _ _ _ _ _ Hrun).
  eexists. split; [reflexivity|].
  destruct (_ >? 5000); cbn [testStats setTestStats];
    by rewrite !testStats_logToFile.
Qed.

Lemma testStats_logTestStatistics stats duration w :
  testStats (logTestStatistics' stats duration w) = testStats w.
Proof.
  unfold Cart.logTestStatistics, Cart.logToFile. cbn zeta.
  by rewrite !testStats_logToFile.
Qed.

(** What [logTestStatistics] adds to the three files. *)
Lemma logTestStatistics_appends stats duration w :
  ∃ t,
    appendedWith (readContent logFilePath' w)
      (readContent logFilePath' (logTestStatistics' stats duration w))
      (logEntry toISOString t (lit "SUMMARY")
         (glyph_check ++ lit " Tests Passed: "
          ++ numberToString (Cart.passed stats)))
    ∧ appendedWith (readContent summaryLogPath' w)
        (readContent summaryLogPath' (logTestStatistics' stats duration w))
        (summaryEntry loadTime randomSuffix toISOString t
           (glyph_check ++ lit " Tests Passed: "
            ++ numberToString (Cart.passed stats)))
    ∧ ∃ pre,
        masterSummary (logTestStatistics' stats duration w)
        = masterSummary w ++ pre.
Proof.
  unfold Cart.logTestStatistics, Cart.logToFile. cbn zeta.
  eexists. split; [|split].
  - rewrite !runLog_logToFile.
    do 8 apply appendedWith_more. apply appendedWith_here.
    do 4 apply grown_more. apply grown_refl.
  - rewrite !summaryLog_logToFile, !importantEvent_SUMMARY.
    do 8 apply appendedWith_more. apply appendedWith_here.
    do 4 apply grown_more. apply grown_refl.
  - rewrite !masterSummary_logToFile.
    do 13 apply grown_more. apply grown_refl.
Qed.

(** What the teardown adds: the statistics block, then the last line of
    the master summary. *)
Lemma afterAll_flushes w :
  ∃ tS tM,
    let duration := clock w (ticks w) - Cart.startTime (testStats w) in
    testStats (afterAll' w) = testStats w
    ∧ appendedWith (readContent logFilePath' w)
        (readContent logFilePath' (afterAll' w))
        (logEntry toISOString tS (lit "SUMMARY")
           (glyph_check ++ lit " Tests Passed: "
            ++ numberToString (Cart.passed (testStats w))))
    ∧ appendedWith (readContent summaryLogPath' w)
        (readContent summaryLogPath' (afterAll' w))
        (summaryEntry loadTime randomSuffix toISOString tS
           (glyph_check ++ lit " Tests Passed: "
            ++ numberToString (Cart.passed (testStats w))))
    ∧ appendedLast (masterSummary w) (masterSummary (afterAll' w))
        (Cart.finalSummaryLine toISOString tM (testStats w) duration).
Proof.
  destruct (logTestStatistics_appends (testStats w)
              (clock w (ticks w) - Cart.startTime (testStats w))
              (dateNow w).2)
    as (tS & Hrun & Hsum & Hmaster).
  exists tS. eexists. cbn zeta.
  unfold Cart.afterAll, Cart.logToFile. cbn [dateNow fst snd].
  cbn [testStats setTicks appendFileSync masterSummaryPath
         setMasterSummary masterSummary readContent logFilePath
         summaryLogPath featureDir].
  change (from_option content [] (featureDir ?x !! ?n))
    with (readContent (InFeatureDir n) x).
  fold logFilePath'. fold summaryLogPath'.
  rewrite !testStats_logToFile, testStats_logTestStatistics.
  split; [done|]. split; [|split].
  - rewrite !runLog_logToFile. by do 4 apply appendedWith_more.
  - rewrite !summaryLog_logToFile. by do 4 apply appendedWith_more.
  - apply appendedLast_here. rewrite !masterSummary_logToFile.
    do 4 apply grown_more. exact Hmaster.
Qed.

(** A timed action that returns, followed by [testStats.passed++]: the
    rest of the test runs with [passed] one higher. *)
Lemma timed_action_then_passed {T : Type}
    n (a : M (World Cart.Stats) T) c w :
  (∀ w0, ∃ r w1,
     a w0 = (Ok r, w1)
     ∧ Cart.passed (testStats w1) = Cart.passed (testStats w0)) →
  ∃ w',
    (∀ rest : M (World Cart.Stats) unit,
       bind (timeAction' n a c)
         (λ _, bind (lift (λ w, setTestStats
                                  (Cart.passedIncrement (testStats w)) w))
                 (λ _, rest)) w
       = rest w')
    ∧ Cart.passed (testStats w') = Cart.passed (testStats w) + 1.
Proof.
  intros Ha.
  destruct (Ha (beforeAction' n c w)) as (r & w1 & Hrun & Hp).
  destruct (cart_timeAction_keeps_passed _ _ _ _ _ _ Hrun)
    as (w1' & Ht & Hp').
  eexists. split.
  - intros rest. unfold bind at 1. rewrite Ht. unfold bind at 1.
    unfold lift at 1. reflexivity.
  - cbn [testStats setTestStats Cart.passed Cart.passedIncrement].
    by rewrite Hp', Hp, testStats_beforeAction.
Qed.

(** C8 (amended). The counters start with [passed] at 0; three timed
    actions return, each followed by [testStats.passed++], none of them
    touching [passed] itself; then the teardown runs.  The teardown
    appends the SUMMARY line "Tests Passed: 3" (after the check glyph)
    to the per-run log and to the per-feature summary, and the master
    summary ends with a line that reads
    "[...] [cart_feature] COMPLETED - Passed: 3, Failed: ...".  The text
    is "Passed: 3", with a capital P. *)
Theorem three_passed_then_flush {T : Type}
    n1 n2 n3 (a1 a2 a3 : M (World Cart.Stats) T) c1 c2 c3 w :
  (∀ a, a ∈ [a1; a2; a3] →
     ∀ w0, ∃ r w1,
       a w0 = (Ok r, w1)
       ∧ Cart.passed (testStats w1) = Cart.passed (testStats w0)) →
  Cart.passed (testStats w) = 0 →
  ∃ wb tS tM rest,
    Cart.threePassedThenFlush loadTime randomSuffix toISOString cwd
      n1 n2 n3 a1 a2 a3 c1 c2 c3 w
    = (Ok tt, afterAll' wb)
    ∧ Cart.passed (testStats wb) = 3
    ∧ appendedWith (readContent logFilePath' wb)
        (readContent logFilePath' (afterAll' wb))
        (logEntry toISOString tS (lit "SUMMARY")
           (glyph_check ++ lit " Tests Passed: 3"))
    ∧ appendedWith (readContent summaryLogPath' wb)
        (readContent summaryLogPath' (afterAll' wb))
        (summaryEntry loadTime randomSuffix toISOString tS
           (glyph_check ++ lit " Tests Passed: 3"))
    ∧ appendedLast (masterSummary wb) (masterSummary (afterAll' wb))
        (lit "[" ++ toISOString tM
         ++ lit "] [cart_feature] COMPLETED - Passed: 3, Failed: "
         ++ rest).
Proof.
  intros Hacts Hzero. unfold Cart.threePassedThenFlush.
  destruct (timed_action_then_passed n1 a1 c1 w
              (Hacts a1 ltac:(set_solver))) as (v1 & Hrun1 & Hp1).
  rewrite Hrun1.
  destruct (timed_action_then_passed n2 a2 c2 v1
              (Hacts a2 ltac:(set_solver))) as (v2 & Hrun2 & Hp2).
  rewrite Hrun2.
  destruct (timed_action_then_passed n3 a3 c3 v2
              (Hacts a3 ltac:(set_solver))) as (wb & Hrun3 & Hp3).
  rewrite Hrun3. unfold lift.
  assert (Cart.passed (testStats wb) = 3) as Hthree by lia.
  destruct (afterAll_flushes wb) as (tS & tM & _ & Hrun & Hsum & Hmaster).
  rewrite Hthree in Hrun, Hsum.
  exists wb, tS, tM. eexists. split; [done|]. split; [done|].
  split; [exact Hrun|]. split; [exact Hsum|].
  unfold Cart.finalSummaryLine in Hmaster. rewrite Hthree in Hmaster.
  exact Hmaster.
Qed.
End CartFacts.

(** ** What the logging entry point never does *)

Section FrameFacts.
Context {S : Type}.
Variables TEST_FILE_NAME TEST_DISPLAY_NAME : str.
Variable loadTime : Z.
Variable randomSuffix : str.
Variable toISOString : Z → str.
Variable toUpperCase : str → str.

Implicit Types (w : World S) (message level : str).

Local Abbreviation logToFile' :=
  (logToFile (S := S) TEST_FILE_NAME loadTime randomSuffix toISOString).
Local Abbreviation logFileName' :=
  (logFileName TEST_FILE_NAME loadTime randomSuffix).
Local Abbreviation logFilePath' :=
  (logFilePath TEST_FILE_NAME loadTime randomSuffix).
Local Abbreviation summaryLogName' := (summaryLogName TEST_FILE_NAME).
Local Abbreviation summaryLogPath' := (summaryLogPath TEST_FILE_NAME).
Local Abbreviation logAll' :=
  (logAll (S := S) TEST_FILE_NAME loadTime randomSuffix toISOString).

Lemma logAll_cons message level calls w :
  logAll' ((message, level) :: calls) w
  = logAll' calls (logToFile' message level w).
Proof. done. Qed.

(** X1. Whatever is logged, and however often: a file of the feature
    directory other than the per-run log and the per-feature summary is
    left as it was, no file is removed, the three log files only grow at
    their end, and the fault state and the counters are left alone. *)
Theorem logAll_only_appends_to_its_logs calls w :
  let w' :=
    logAll TEST_FILE_NAME loadTime randomSuffix toISOString calls w in
  (∀ n, n ≠ logFileName' → n ≠ summaryLogName' →
        featureDir w' !! n = featureDir w !! n)
  ∧ (∀ n, n ∈ dom (featureDir w) → n ∈ dom (featureDir w'))
  ∧ (∀ p, p ∈ [logFilePath'; summaryLogPath'; masterSummaryPath] →
          ∃ added, readContent p w' = readContent p w ++ added)
  ∧ faults w' = faults w
  ∧ testStats w' = testStats w.
Proof.
  cbn zeta. revert w. induction calls as [|[message level] calls IH];
    intros w.
  { repeat split; try done. intros p _. exists []. by rewrite app_nil_r. }
  rewrite logAll_cons.
  destruct (IH (logToFile' message level w)) as (H1 & H2 & H3 & H4 & H5).
  split; [|split; [|split; [|split]]].
  - intros n Hn1 Hn2. rewrite H1 by done. by apply lookup_logToFile_other.
  - intros n Hn. apply H2, elem_of_dom_logToFile. by left.
  - intros p Hp. destruct (H3 p Hp) as [added ->].
    destruct (logAll_contents TEST_FILE_NAME loadTime randomSuffix
                toISOString [(message, level)] w) as (Hrun & Hsum & Hmas).
    change (logAll TEST_FILE_NAME loadTime randomSuffix toISOString
              [(message, level)] w)
      with (logToFile' message level w) in Hrun, Hsum, Hmas.
    repeat (apply elem_of_cons in Hp as [->|Hp]);
      [rewrite Hrun|rewrite Hsum|rewrite Hmas|by apply elem_of_nil in Hp];
      rewrite <- app_assoc; by eexists.
  - by rewrite H4, faults_logToFile.
  - by rewrite H5, testStats_logToFile.
Qed.

(** X2. Loading the test file replaces the per-run log by the run header,
    whatever a file of that name held before, and keeps what the two
    summary files held: each gets one run-start line at its end.  No
    other file of the directory is touched. *)
Theorem initLogFiles_keeps_summaries w :
  let w' :=
    initLogFiles TEST_FILE_NAME TEST_DISPLAY_NAME loadTime randomSuffix
      toISOString toUpperCase w in
  let t n := clock w (ticks w + n)%nat in
  readContent logFilePath' w'
  = initLogHeader TEST_DISPLAY_NAME loadTime randomSuffix toISOString
      toUpperCase (t 0%nat)
  ∧ readContent summaryLogPath' w'
    = readContent summaryLogPath' w
      ++ summaryHeader TEST_DISPLAY_NAME loadTime randomSuffix toISOString
           (t 2%nat)
  ∧ masterSummary w'
    = masterSummary w
      ++ lit "[" ++ toISOString (t 4%nat) ++ lit "] [" ++ TEST_FILE_NAME
      ++ lit "] Test Run Started: " ++ testRunId loadTime randomSuffix
      ++ [10%N]
  ∧ (∀ n, n ≠ logFileName' → n ≠ summaryLogName' →
          featureDir w' !! n = featureDir w !! n).
Proof.
  cbn zeta. unfold initLogFiles. cbn.
  rewrite !Nat.add_0_r.
  replace (ticks w + 2)%nat with (Datatypes.S (Datatypes.S (ticks w)))
    by lia.
  replace (ticks w + 4)%nat
    with (Datatypes.S (Datatypes.S (Datatypes.S (Datatypes.S (ticks w)))))
    by lia.
  split; [|split; [|split]].
  - rewrite lookup_insert_ne
      by (intros H; by apply (logFileName_ne_summaryLogName
                                TEST_FILE_NAME loadTime randomSuffix)).
    by rewrite lookup_insert_eq.
  - rewrite lookup_insert_eq. cbn.
    by rewrite lookup_insert_ne
      by apply (logFileName_ne_summaryLogName
                  TEST_FILE_NAME loadTime randomSuffix).
  - done.
  - intros n Hn1 Hn2. by rewrite !lookup_insert_ne by done.
Qed.
End FrameFacts.

(** ** Which tiers the lines of timeAction reach *)

Section TimeActionTiers.
Context {S T : Type}.
Variables TEST_FILE_NAME : str.
Variable loadTime : Z.
Variable randomSuffix : str.
Variable toISOString : Z → str.
Variable countSlowOp : S → S.

Implicit Types (w : World S) (actionFn : M (World S) T).

Local Abbreviation logToFile' :=
  (logToFile (S := S) TEST_FILE_NAME loadTime randomSuffix toISOString).
Local Abbreviation summaryLogPath' := (summaryLogPath TEST_FILE_NAME).
Local Abbreviation summaryEntry' :=
  (summaryEntry loadTime randomSuffix toISOString).
Local Abbreviation masterEntry' :=
  (masterEntry TEST_FILE_NAME loadTime randomSuffix toISOString).
Local Abbreviation beforeAction' :=
  (beforeAction (S := S) TEST_FILE_NAME loadTime randomSuffix toISOString).

Lemma includes_app_l (p r : str) : includes (p ++ r) p = true.
Proof.
  destruct p as [|c p]; [by destruct r|].
  cbn [app includes]. change (c :: p ++ r) with ((c :: p) ++ r).
  by rewrite startsWith_app.
Qed.

Lemma completed_line_important rest level :
  importantEvent (glyph_check ++ rest) level = true.
Proof.
  unfold importantEvent. rewrite includes_app_l.
  by rewrite orb_true_r.
Qed.

Lemma completed_line_critical rest level :
  criticalEvent (glyph_check ++ lit " COMPLETED: " ++ rest) level = true.
Proof.
  unfold criticalEvent. apply orb_true_iff. right. apply includes_spec.
  exists (glyph_check ++ lit " "), (lit ": " ++ rest).
  by rewrite <- !app_assoc.
Qed.

(** X4. The line that reports a timed action as completed carries the
    check glyph and the word COMPLETED: although its level is SUCCESS, it
    is copied to the per-feature summary and to the master summary,
    whatever the action is called. *)
Theorem timeAction_completed_line_reaches_summaries
    actionName actionFn context w result w2 :
  actionFn (beforeAction' actionName context w) = (Ok result, w2) →
  let completed :=
    glyph_check ++ lit " COMPLETED: " ++ fullContextOf actionName context
    ++ lit " (" ++ numberToString (clock w2 (ticks w2) - clock w (ticks w))
    ++ lit "ms)" in
  ∃ w3 t more more',
    timeAction TEST_FILE_NAME loadTime randomSuffix toISOString
        countSlowOp actionName actionFn context w = (Ok result, w3)
    ∧ readContent summaryLogPath' w3
      = readContent summaryLogPath' w2 ++ summaryEntry' t completed ++ more
    ∧ masterSummary w3
      = masterSummary w2 ++ masterEntry' t completed ++ more'.
Proof.
  intros Hrun completed.
  rewrite (timeAction_resolved _ _ _ _ _ _ _ _ _ _ _ Hrun).
  fold completed.
  destruct (_ >? 5000).
  - eexists _, _, _, _. split; [reflexivity|].
    rewrite readContent_setTestStats. cbn [masterSummary setTestStats].
    rewrite !summaryLog_logToFile, !masterSummary_logToFile.
    unfold completed.
    rewrite completed_line_important, completed_line_critical.
    rewrite <- !app_assoc.
    split; reflexivity.
  - eexists _, _, [], []. split; [reflexivity|].
    rewrite !summaryLog_logToFile, !masterSummary_logToFile.
    unfold completed.
    rewrite completed_line_important, completed_line_critical.
    rewrite !app_nil_r.
    split; reflexivity.
Qed.

(** X5. When the operation of a timed action throws, the three ERROR
    lines (elapsed time, message, stack trace) are appended to the
    per-feature summary and to the master summary as well, in that
    order and with nothing in between. *)
Theorem timeAction_failure_reaches_summaries
    actionName actionFn context w error w2 :
  actionFn (beforeAction' actionName context w) = (Throw error, w2) →
  let failedLine :=
    glyph_cross ++ lit " FAILED: " ++ fullContextOf actionName context
    ++ lit " after "
    ++ numberToString (clock w2 (ticks w2) - clock w (ticks w))
    ++ lit "ms" in
  let details := glyph_cross ++ lit " ERROR DETAILS: " ++ message error in
  let trace := glyph_cross ++ lit " STACK TRACE: " ++ stack error in
  ∃ w3 t1 t2 t3,
    timeAction TEST_FILE_NAME loadTime randomSuffix toISOString
        countSlowOp actionName actionFn context w = (Throw error, w3)
    ∧ readContent summaryLogPath' w3
      = readContent summaryLogPath' w2
        ++ summaryEntry' t1 failedLine ++ summaryEntry' t2 details
        ++ summaryEntry' t3 trace
    ∧ masterSummary w3
      = masterSummary w2
        ++ masterEntry' t1 failedLine ++ masterEntry' t2 details
        ++ masterEntry' t3 trace.
Proof.
  intros Hrun failedLine details trace.
  rewrite (timeAction_rejected _ _ _ _ _ _ _ _ _ _ _ Hrun).
  eexists _, _, _, _. split; [reflexivity|].
  rewrite !summaryLog_logToFile, !masterSummary_logToFile.
  change (importantEvent ?m (lit "ERROR")) with true.
  change (criticalEvent ?m (lit "ERROR")) with true.
  cbn match. rewrite <- !app_assoc. split; reflexivity.
Qed.
End TimeActionTiers.

(** ** More on the rotation *)

Section RotationFacts.
Context {S : Type}.
Variables TEST_FILE_NAME : str.
Variable loadTime : Z.
Variable randomSuffix : str.
Variable toISOString : Z → str.
Variable countWarning : S → S.

Implicit Types (w : World S) (d : gmap str File) (n : str).
Implicit Types (files del : list LogFileInfo).

Local Abbreviation logToFile' :=
  (logToFile (S := S) TEST_FILE_NAME loadTime randomSuffix toISOString).
Local Abbreviation logFileName' :=
  (logFileName TEST_FILE_NAME loadTime randomSuffix).
Local Abbreviation logFilePath' :=
  (logFilePath TEST_FILE_NAME loadTime randomSuffix).
Local Abbreviation summaryLogName' := (summaryLogName TEST_FILE_NAME).
Local Abbreviation logEntry' := (logEntry toISOString).
Local Abbreviation qualifies' := (qualifies TEST_FILE_NAME).
Local Abbreviation sortedLogFiles' := (sortedLogFiles TEST_FILE_NAME).
Local Abbreviation logFiles' := (logFiles TEST_FILE_NAME).
Local Abbreviation deleteOldLog' :=
  (deleteOldLog (S := S) TEST_FILE_NAME loadTime randomSuffix toISOString).
Local Abbreviation cleanupBody' :=
  (cleanupBody (S := S) TEST_FILE_NAME loadTime randomSuffix toISOString).
Local Abbreviation cleanupOldLogs' :=
  (cleanupOldLogs (S := S) TEST_FILE_NAME loadTime randomSuffix
     toISOString countWarning).
Local Abbreviation deletedLine :=
  (λ (t : Z) (file : LogFileInfo),
     logEntry' t (lit "INFO")
       (glyph_bin ++ lit "  Deleted old log: " ++ name file)).

Lemma forEach_app {A} (f : A → M (World S) unit) (l1 l2 : list A) w :
  forEach f (l1 ++ l2) w = bind (forEach f l1) (λ _, forEach f l2) w.
Proof.
  revert w. induction l1 as [|x l1 IH]; intros w; [done|].
  cbn [app forEach]. unfold bind.
  destruct (f x w) as [[[]|e] w1]; [|done].
  rewrite IH. reflexivity.
Qed.

(** The deletions, one file after the other: what is left in the
    directory and what the per-run log receives. *)
Lemma forEach_deleteOldLog_trace del w :
  NoDup (map name del) →
  (∀ n, n ∈ map name del → n ∈ dom (featureDir w)) →
  logFileName' ∉ map name del →
  summaryLogName' ∉ map name del →
  (∀ n, n ∈ map name del → unlinkFault (faults w) n = None) →
  ∃ w' stamps,
    forEach deleteOldLog' del w = (Ok tt, w')
    ∧ faults w' = faults w
    ∧ testStats w' = testStats w
    ∧ (∀ n, n ∈ map name del → n ∉ dom (featureDir w'))
    ∧ (∀ n, n ∉ map name del → n ∈ dom (featureDir w) →
            n ∈ dom (featureDir w'))
    ∧ (∀ n, n ∈ dom (featureDir w') →
            n ∈ dom (featureDir w) ∨ n = logFileName'
            ∨ n = summaryLogName')
    ∧ length stamps = length del
    ∧ readContent logFilePath' w'
      = readContent logFilePath' w
        ++ concat (zip_with deletedLine stamps del).
Proof.
  revert w. induction del as [|x del IH]; intros w Hnd Hdom Hown Hsum Hf.
  - exists w, []. cbn. rewrite app_nil_r. repeat split; try done.
    + intros n Hn. by apply elem_of_nil in Hn.
    + by left.
  - cbn [map] in *. apply NoDup_cons in Hnd as [Hx Hnd].
    apply not_elem_of_cons in Hown as [Hown1 Hown].
    apply not_elem_of_cons in Hsum as [Hsum1 Hsum].
    cbn [forEach]. unfold bind at 1.
    rewrite deleteOldLog_ok by (try apply Hf; try apply Hdom; left).
    set (w1 := setFeatureDir (delete (name x) (featureDir w)) w).
    set (w2 := logToFile' _ _ w1).
    assert (Hsub : ∀ n, n ∈ dom (featureDir w2) →
                        n ∈ dom (featureDir w) ∧ n ≠ name x
                        ∨ n = logFileName' ∨ n = summaryLogName').
    { intros n Hn. unfold w2 in Hn. apply elem_of_dom_logToFile in Hn.
      unfold w1 in Hn. cbn [featureDir setFeatureDir] in Hn.
      rewrite dom_delete_L, elem_of_difference, elem_of_singleton in Hn.
      tauto. }
    assert (Hsup : ∀ n, n ∈ dom (featureDir w) → n ≠ name x →
                        n ∈ dom (featureDir w2)).
    { intros n Hn Hne. unfold w2. apply elem_of_dom_logToFile. left.
      unfold w1. cbn [featureDir setFeatureDir].
      by rewrite dom_delete_L, elem_of_difference, elem_of_singleton. }
    destruct (IH w2)
      as (w' & stamps & Hrun & Hfaults & Hstats & Hi & Hii & Hiii
          & Hlen & Hlog).
    + done.
    + intros n Hn. apply Hsup; [apply Hdom; by right|]. by intros ->.
    + done.
    + done.
    + intros n Hn. unfold w2. rewrite faults_logToFile. apply Hf.
      by right.
    + exists w', (clock w1 (ticks w1) :: stamps). split; [done|]. split.
      { rewrite Hfaults. unfold w2. by rewrite faults_logToFile. }
      split.
      { rewrite Hstats. unfold w2. by rewrite testStats_logToFile. }
      split; [|split; [|split; [|split]]].
      * intros n Hn Hn'. apply elem_of_cons in Hn as [->|Hn].
        -- apply Hiii in Hn' as [Hn'|[Hn'|Hn']]; [|done..].
           apply Hsub in Hn'. destruct Hn' as [[_ ?]|[?|?]]; congruence.
        -- by apply (Hi n).
      * intros n Hn Hn'. apply not_elem_of_cons in Hn as [Hn1 Hn].
        apply Hii; [done|]. by apply Hsup.
      * intros n Hn. apply Hiii in Hn as [Hn|Hn]; [|tauto].
        apply Hsub in Hn. tauto.
      * cbn [length]. by rewrite Hlen.
      * rewrite Hlog. unfold w2. rewrite runLog_logToFile.
        cbn [zip_with concat]. rewrite <- !app_assoc.
        f_equal. unfold w1, readContent, logFilePath.
        cbn [featureDir setFeatureDir].
        by rewrite lookup_delete_ne.
Qed.

(** A directory with at most ten log files: the rotation writes one line
    and leaves. *)
Lemma cleanupOldLogs_small w :
  (size (logFiles' (featureDir w)) ≤ 10)%nat →
  ∃ w' message level,
    cleanupOldLogs' w = (Ok tt, w')
    ∧ featureDir w' = featureDir (logToFile' message level w).
Proof.
  intros Hsize.
  destruct (listLogFiles_cases TEST_FILE_NAME w) as (r & Hlist & Hr).
  destruct Hr as [[-> _]|(error & -> & _)].
  - unfold cleanupOldLogs, tryCatch, cleanupBody. unfold bind at 1.
    rewrite Hlist. unfold bind at 1. unfold lift at 1.
    rewrite length_sortedLogFiles.
    assert ((10 <? size (logFiles' (featureDir w)))%nat = false) as ->
      by (apply Nat.ltb_ge; lia).
    unfold ret. by eexists _, _, _.
  - assert (cleanupBody' w = (Throw error, w)) as Hbody.
    { unfold cleanupBody. unfold bind at 1. by rewrite Hlist. }
    rewrite (cleanupOldLogs_caught _ _ _ _ _ _ _ _ Hbody).
    by eexists _, _, _.
Qed.

(** X6. Rotating twice in a row is the same as rotating once: after a
    rotation that has brought the directory down to ten log files, a
    second call deletes nothing. *)
Theorem cleanupOldLogs_second_call_deletes_nothing w :
  let d := featureDir w in
  filesystemHealthy w →
  (10 < size (logFiles TEST_FILE_NAME d))%nat →
  logFileName' ∈ dom d →
  (size (atLeastAsRecent TEST_FILE_NAME d logFileName') < 10)%nat →
  ∃ w1 w2,
    cleanupOldLogs TEST_FILE_NAME loadTime randomSuffix toISOString
      countWarning w = (Ok tt, w1)
    ∧ cleanupOldLogs TEST_FILE_NAME loadTime randomSuffix toISOString
        countWarning w1 = (Ok tt, w2)
    ∧ size (logFiles' (featureDir w1)) = 10%nat
    ∧ (∀ n, n ∈ dom (featureDir w1) → n ∈ dom (featureDir w2))
    ∧ logFiles' (featureDir w2) = logFiles' (featureDir w1).
Proof.
  intros d Hhealthy Hsize Hown Hrecent.
  set (files := sortedLogFiles' d).
  assert (Hlen : (10 < length files)%nat)
    by (unfold files; by rewrite length_sortedLogFiles).
  assert (Hkeep : logFileName' ∉ map name (drop 10 files))
    by by apply own_log_kept.
  destruct (cleanupOldLogs_rotates TEST_FILE_NAME loadTime randomSuffix
              toISOString countWarning w)
    as (w1 & Hrun & Hkept & _ & _); [done..|].
  fold d in Hkept. fold files in Hkept.
  assert (Hnd := NoDup_names_sortedLogFiles TEST_FILE_NAME d).
  fold files in Hnd. rewrite names_take_drop in Hnd.
  apply NoDup_app in Hnd as (Hnd1 & _ & _).
  assert (logFileName' ∈ map name (take 10 files)) as Hin.
  { assert (logFileName' ∈ map name files) as Hin.
    { apply elem_of_names_sortedLogFiles, elem_of_logFiles.
      split; [done|apply logFileName_qualifies]. }
    rewrite names_take_drop in Hin.
    by apply elem_of_app in Hin as [Hin|Hin]. }
  assert (Hkept' : logFiles' (featureDir w1)
                   = list_to_set (map name (take 10 files))).
  { rewrite Hkept. apply set_eq. intros n.
    rewrite elem_of_union, elem_of_list_to_set, elem_of_singleton.
    split; [intros [?| ->]; done|by left]. }
  assert (Hten : size (logFiles' (featureDir w1)) = 10%nat).
  { rewrite Hkept', size_list_to_set by done.
    rewrite length_map, length_take. lia. }
  destruct (cleanupOldLogs_small w1) as (w2 & m & l & Hrun2 & Hdir);
    [lia|].
  exists w1, w2. split; [done|]. split; [done|]. split; [done|].
  assert (Hown1 : logFileName' ∈ dom (featureDir w1)).
  { assert (logFileName' ∈ logFiles' (featureDir w1)) as H
      by (rewrite Hkept', elem_of_list_to_set; done).
    by apply elem_of_logFiles in H as [H _]. }
  split.
  - intros n Hn. rewrite Hdir. apply elem_of_dom_logToFile. by left.
  - apply set_eq. intros n. rewrite !elem_of_logFiles, Hdir.
    rewrite elem_of_dom_logToFile. split; [|tauto].
    intros [[Hn|[->|[-> _]]] Hq]; [done|done|].
    by rewrite summaryLogName_not_qualifies in Hq.
Qed.



End RotationFacts.

(** ** The rotation and the log of the running process *)

Section OwnLogFacts.
Context {S : Type}.
Variables TEST_FILE_NAME : str.
Variable loadTime : Z.
Variable randomSuffix : str.
Variable toISOString : Z → str.
Variable countWarning : S → S.

Implicit Types (w : World S) (d : gmap str File) (n : str).
Implicit Types (files del : list LogFileInfo).

Local Abbreviation logToFile' :=
  (logToFile (S := S) TEST_FILE_NAME loadTime randomSuffix toISOString).
Local Abbreviation logFileName' :=
  (logFileName TEST_FILE_NAME loadTime randomSuffix).
Local Abbreviation logFilePath' :=
  (logFilePath TEST_FILE_NAME loadTime randomSuffix).
Local Abbreviation summaryLogName' := (summaryLogName TEST_FILE_NAME).
Local Abbreviation logEntry' := (logEntry toISOString).
Local Abbreviation qualifies' := (qualifies TEST_FILE_NAME).
Local Abbreviation sortedLogFiles' := (sortedLogFiles TEST_FILE_NAME).
Local Abbreviation logFiles' := (logFiles TEST_FILE_NAME).
Local Abbreviation deleteOldLog' :=
  (deleteOldLog (S := S) TEST_FILE_NAME loadTime randomSuffix toISOString).
Local Abbreviation cleanupBody' :=
  (cleanupBody (S := S) TEST_FILE_NAME loadTime randomSuffix toISOString).
Local Abbreviation cleanupOldLogs' :=
  (cleanupOldLogs (S := S) TEST_FILE_NAME loadTime randomSuffix
     toISOString countWarning).
Local Abbreviation deletedLine :=
  (λ (t : Z) (file : LogFileInfo),
     logEntry' t (lit "INFO")
       (glyph_bin ++ lit "  Deleted old log: " ++ name file)).
Local Abbreviation foundMessage files :=
  (glyph_folder ++ lit " Found "
   ++ numberToString (Z.of_nat (length files))
   ++ lit " existing log files for " ++ TEST_FILE_NAME).
Local Abbreviation cleaningMessage files :=
  (glyph_bin ++ lit "  Cleaning up "
   ++ numberToString (Z.of_nat (length (drop 10 files)))
   ++ lit " old log files").

(** The deletions, whether or not the log of the running process is one
    of the files to delete: every other file of the list is gone, and
    the log of the running process is there, since each deletion is
    reported in it. *)
Lemma forEach_deleteOldLog_any del w :
  NoDup (map name del) →
  (∀ n, n ∈ map name del → n ∈ dom (featureDir w)) →
  summaryLogName' ∉ map name del →
  (∀ n, n ∈ map name del → unlinkFault (faults w) n = None) →
  ∃ w',
    forEach deleteOldLog' del w = (Ok tt, w')
    ∧ faults w' = faults w
    ∧ testStats w' = testStats w
    ∧ (∀ n, n ∈ map name del → n ≠ logFileName' →
            n ∉ dom (featureDir w'))
    ∧ (del ≠ [] → logFileName' ∈ dom (featureDir w'))
    ∧ (∀ n, n ∉ map name del → n ∈ dom (featureDir w) →
            n ∈ dom (featureDir w'))
    ∧ (∀ n, n ∈ dom (featureDir w') →
            n ∈ dom (featureDir w) ∨ n = logFileName'
            ∨ n = summaryLogName').
Proof.
  revert w. induction del as [|x del IH]; intros w Hnd Hdom Hsum Hf.
  - exists w. cbn. repeat split; try done.
    + intros n Hn. by apply elem_of_nil in Hn.
    + by left.
  - cbn [map] in *. apply NoDup_cons in Hnd as [Hx Hnd].
    apply not_elem_of_cons in Hsum as [Hsum1 Hsum].
    cbn [forEach]. unfold bind at 1.
    rewrite (deleteOldLog_ok TEST_FILE_NAME loadTime randomSuffix
               toISOString)
      by (try apply Hf; try apply Hdom; left).
    set (w1 := setFeatureDir (delete (name x) (featureDir w)) w).
    set (w2 := logToFile' _ _ w1).
    assert (Hsub : ∀ n, n ∈ dom (featureDir w2) →
                        n ∈ dom (featureDir w) ∧ n ≠ name x
                        ∨ n = logFileName' ∨ n = summaryLogName').
    { intros n Hn. unfold w2 in Hn. apply elem_of_dom_logToFile in Hn.
      unfold w1 in Hn. cbn [featureDir setFeatureDir] in Hn.
      rewrite dom_delete_L, elem_of_difference, elem_of_singleton in Hn.
      tauto. }
    assert (Hsup : ∀ n, n ∈ dom (featureDir w) → n ≠ name x →
                        n ∈ dom (featureDir w2)).
    { intros n Hn Hne. unfold w2. apply elem_of_dom_logToFile. left.
      unfold w1. cbn [featureDir setFeatureDir].
      by rewrite dom_delete_L, elem_of_difference, elem_of_singleton. }
    assert (Hown2 : logFileName' ∈ dom (featureDir w2)).
    { unfold w2. apply elem_of_dom_logToFile. right. by left. }
    destruct (IH w2)
      as (w' & Hrun & Hfaults & Hstats & Hi & Hown & Hii & Hiii).
    + done.
    + intros n Hn. apply Hsup; [apply Hdom; by right|]. by intros ->.
    + done.
    + intros n Hn. unfold w2. rewrite faults_logToFile. apply Hf.
      by right.
    + exists w'. split; [done|]. split.
      { rewrite Hfaults. unfold w2. by rewrite faults_logToFile. }
      split.
      { rewrite Hstats. unfold w2. by rewrite testStats_logToFile. }
      split; [|split; [|split]].
      * intros n Hn Hne Hn'. apply elem_of_cons in Hn as [->|Hn].
        -- apply Hiii in Hn' as [Hn'|[Hn'|Hn']]; [|done..].
           apply Hsub in Hn'. destruct Hn' as [[_ ?]|[?|?]]; congruence.
        -- by apply (Hi n).
      * intros _.
        destruct (decide (logFileName' ∈ map name del)) as [Hin|Hout].
        -- apply Hown. intros ->. by apply elem_of_nil in Hin.
        -- by apply Hii.
      * intros n Hn Hn'. apply not_elem_of_cons in Hn as [Hn1 Hn].
        apply Hii; [done|]. by apply Hsup.
      * intros n Hn. apply Hiii in Hn as [Hn|Hn]; [|tauto].
        apply Hsub in Hn. tauto.
Qed.

(** What the per-run log holds after the deletions when it is itself one
    of the deleted files: [unlinkSync] discards what it held, the line
    that reports the deletion creates it again, and the lines of the
    deletions that follow are appended to the new file. *)
Lemma forEach_deleteOldLog_own pre x post w :
  name x = logFileName' →
  NoDup (map name (pre ++ x :: post)) →
  (∀ n, n ∈ map name (pre ++ x :: post) → n ∈ dom (featureDir w)) →
  summaryLogName' ∉ map name (pre ++ x :: post) →
  (∀ n, n ∈ map name (pre ++ x :: post) →
        unlinkFault (faults w) n = None) →
  ∃ w' stamps,
    forEach deleteOldLog' (pre ++ x :: post) w = (Ok tt, w')
    ∧ length stamps = Datatypes.S (length post)
    ∧ readContent logFilePath' w'
      = concat (zip_with deletedLine stamps (x :: post)).
Proof.
  intros Hx Hnd Hdom Hsum Hf.
  rewrite map_app in Hnd, Hdom, Hsum, Hf. cbn [map] in Hnd, Hdom, Hsum, Hf.
  apply NoDup_app in Hnd as (Hnd1 & Hdisj & Hnd2).
  apply NoDup_cons in Hnd2 as [Hx2 Hnd2].
  rewrite Hx in Hdisj, Hx2.
  assert (Hown1 : logFileName' ∉ map name pre).
  { intros Hin. apply (Hdisj _ Hin). left. }
  destruct (forEach_deleteOldLog_trace TEST_FILE_NAME loadTime randomSuffix
              toISOString pre w)
    as (w1 & stamps1 & Hrun1 & Hfaults1 & _ & _ & Hii1 & _ & _ & _).
  { done. }
  { intros n Hn. apply Hdom, elem_of_app. by left. }
  { done. }
  { intros Hin. apply Hsum, elem_of_app. by left. }
  { intros n Hn. apply Hf, elem_of_app. by left. }
  rewrite forEach_app. unfold bind at 1. rewrite Hrun1.
  cbn [forEach]. unfold bind at 1.
  rewrite (deleteOldLog_ok TEST_FILE_NAME loadTime randomSuffix toISOString).
  2:{ rewrite Hfaults1. apply Hf, elem_of_app. right. left. }
  2:{ rewrite Hx. apply Hii1; [done|]. apply Hdom, elem_of_app.
      right. rewrite <- Hx. left. }
  rewrite Hx.
  set (w2 := setFeatureDir (delete logFileName' (featureDir w1)) w1).
  set (w3 := logToFile' _ _ w2).
  destruct (forEach_deleteOldLog_trace TEST_FILE_NAME loadTime randomSuffix
              toISOString post w3)
    as (w' & stamps & Hrun & _ & _ & _ & _ & _ & Hlen & Hlog).
  { done. }
  { intros n Hn. unfold w3. apply elem_of_dom_logToFile. left.
    unfold w2. cbn [featureDir setFeatureDir].
    rewrite dom_delete_L, elem_of_difference, elem_of_singleton.
    split; [|by intros ->].
    apply Hii1.
    - intros Hin. apply (Hdisj _ Hin). by right.
    - apply Hdom, elem_of_app. right. by right. }
  { done. }
  { intros Hin. apply Hsum, elem_of_app. right. by right. }
  { intros n Hn. unfold w3. rewrite faults_logToFile. unfold w2.
    cbn [faults setFeatureDir]. rewrite Hfaults1.
    apply Hf, elem_of_app. right. by right. }
  exists w', (clock w2 (ticks w2) :: stamps).
  split; [done|]. split; [cbn [length]; by rewrite Hlen|].
  rewrite Hlog. unfold w3. rewrite runLog_logToFile.
  cbn [zip_with concat]. rewrite Hx.
  assert (readContent logFilePath' w2 = []) as ->; [|done].
  unfold w2, readContent, logFilePath. cbn [featureDir setFeatureDir].
  by rewrite lookup_delete_eq.
Qed.

(** When the listing holds more than ten files and no call is refused,
    [cleanupOldLogs] is its deletions. *)
Lemma cleanupOldLogs_deletions w w' :
  let files := sortedLogFiles' (featureDir w) in
  readdirFault (faults w) = None →
  (∀ n, statFault (faults w) n = None) →
  (10 < length files)%nat →
  forEach deleteOldLog' (drop 10 files)
    (logToFile' (cleaningMessage files) (lit "INFO")
       (logToFile' (foundMessage files) (lit "INFO") w))
  = (Ok tt, w') →
  cleanupOldLogs' w = (Ok tt, w').
Proof.
  intros files Hreaddir Hstat Hlen Hrun.
  unfold cleanupOldLogs, tryCatch.
  rewrite (cleanupBody_ok TEST_FILE_NAME loadTime randomSuffix toISOString)
    by done.
  fold files. apply Nat.ltb_lt in Hlen as ->. by rewrite Hrun.
Qed.

(** The rotation on a directory with more than ten log files, when no
    call is refused: the ten first files of the sorted listing remain,
    and so does the log of the running process, wherever it stood in the
    listing. *)
Lemma cleanupOldLogs_rotates_any w :
  let d := featureDir w in
  let files := sortedLogFiles' d in
  filesystemHealthy w →
  (10 < length files)%nat →
  ∃ w',
    cleanupOldLogs' w = (Ok tt, w')
    ∧ logFiles' (featureDir w')
      = list_to_set (map name (take 10 files)) ∪ {[logFileName']}
    ∧ (∀ n, n ∈ map name (drop 10 files) → n ≠ logFileName' →
            n ∉ dom (featureDir w'))
    ∧ (∀ n, n ∈ dom d → qualifies' n = false → n ∈ dom (featureDir w')).
Proof.
  intros d files (Hreaddir & Hstat & Hunlink) Hlen.
  set (w2 := logToFile' (cleaningMessage files) (lit "INFO")
               (logToFile' (foundMessage files) (lit "INFO") w)).
  assert (Hnames : ∀ n, n ∈ map name files ↔ n ∈ dom d ∧ qualifies' n = true).
  { intros n. unfold files.
    by rewrite elem_of_names_sortedLogFiles, elem_of_logFiles. }
  assert (Hnd := NoDup_names_sortedLogFiles TEST_FILE_NAME d).
  fold files in Hnd. rewrite names_take_drop in Hnd.
  apply NoDup_app in Hnd as (Hnd1 & Hdisj & Hnd2).
  assert (Hdom2 : ∀ n, n ∈ dom (featureDir w2) ↔
                       n ∈ dom d ∨ n = logFileName'
                       ∨ n = summaryLogName' ∧ n ∈ dom (featureDir w2)).
  { intros n. split; [|unfold w2; rewrite !elem_of_dom_logToFile; tauto].
    intros Hn. assert (Hn' := Hn). unfold w2 in Hn'.
    rewrite !elem_of_dom_logToFile in Hn'. fold d in Hn'. tauto. }
  destruct (forEach_deleteOldLog_any (drop 10 files) w2)
    as (w' & Hrun & _ & _ & Hi & Hown & Hii & Hiii).
  { done. }
  { intros n Hn. apply Hdom2. left.
    apply (Hnames n). rewrite names_take_drop. apply elem_of_app. by right. }
  { intros Hsum.
    assert (summaryLogName' ∈ map name files) as Hin
      by (rewrite names_take_drop; apply elem_of_app; by right).
    apply Hnames in Hin as [_ Hq].
    by rewrite summaryLogName_not_qualifies in Hq. }
  { intros n _. unfold w2. by rewrite !faults_logToFile. }
  assert (Hown' : logFileName' ∈ dom (featureDir w')).
  { apply Hown. intros Hnil.
    assert (length (drop 10 files) = 0%nat) as Hzero by by rewrite Hnil.
    rewrite length_drop in Hzero. lia. }
  exists w'. split; [by apply cleanupOldLogs_deletions|].
  split; [|split; [done|]].
  - apply set_eq. intros n.
    rewrite elem_of_logFiles, elem_of_union, elem_of_list_to_set,
      elem_of_singleton.
    split.
    + intros [Hn Hq]. assert (Hn' := Hiii _ Hn).
      destruct (decide (n = logFileName')) as [|Hne]; [by right|left].
      assert (n ∈ dom d) as Hd.
      { destruct Hn' as [Hn'|[->| ->]].
        - apply Hdom2 in Hn' as [Hn'|[Hn'|[-> _]]]; [done|done|].
          by rewrite summaryLogName_not_qualifies in Hq.
        - done.
        - by rewrite summaryLogName_not_qualifies in Hq. }
      assert (n ∈ map name files) as Hin by by apply Hnames.
      rewrite names_take_drop in Hin.
      apply elem_of_app in Hin as [Hin|Hin]; [done|].
      by apply Hi in Hin.
    + intros [Hn| ->]; [|split; [done|apply logFileName_qualifies]].
      assert (n ∈ map name files) as Hin
        by (rewrite names_take_drop; apply elem_of_app; by left).
      apply Hnames in Hin as [Hd Hq]. split; [|done].
      apply Hii; [by apply Hdisj|]. apply Hdom2. by left.
  - intros n Hn Hq. apply Hii.
    + intros Hin.
      assert (n ∈ map name files) as Hin'
        by (rewrite names_take_drop; apply elem_of_app; by right).
      apply Hnames in Hin' as [_ Hq']. congruence.
    + apply Hdom2. by left.
Qed.

(** C1. [cleanupOldLogs] does not bring the directory down to ten log
    files when the log of the running process is itself one of the files
    it picks for deletion, that is, one of the files beyond the tenth of
    the listing sorted by modification time, most recent first (the
    directory then holds N > 10 per-run logs).  No call of [fs] is
    refused and the call returns normally, but the line that reports the
    deletion of that log is appended to it and creates it again: eleven
    per-run logs remain, not ten, and N - 11 are gone, not N - 10.  The
    comment above the deletions in the code reads: keep only the 10 most
    recent log files. *)
Theorem cleanupOldLogs_recreates_its_own_log w :
  let d := featureDir w in
  let files := sortedLogFiles TEST_FILE_NAME d in
  filesystemHealthy w →
  logFileName' ∈ map name (drop 10 files) →
  ∃ w',
    cleanupOldLogs TEST_FILE_NAME loadTime randomSuffix toISOString
      countWarning w = (Ok tt, w')
    ∧ (10 < size (logFiles' d))%nat
    ∧ logFileName' ∈ logFiles' d
    ∧ logFileName' ∈ dom (featureDir w')
    ∧ logFiles' (featureDir w')
      = list_to_set (map name (take 10 files)) ∪ {[logFileName']}
    ∧ logFiles' (featureDir w') ⊆ logFiles' d
    ∧ size (logFiles' (featureDir w')) = 11%nat
    ∧ size (logFiles' d ∖ logFiles' (featureDir w'))
      = (size (logFiles' d) - 11)%nat.
Proof.
  intros d files Hhealthy Hown.
  assert (Hlen : (10 < length files)%nat).
  { destruct (decide (10 < length files)%nat) as [|Hle]; [done|].
    rewrite drop_ge in Hown by lia. by apply elem_of_nil in Hown. }
  destruct (cleanupOldLogs_rotates_any w)
    as (w' & Hrun & Hkept & _ & _); [done..|].
  fold d in Hkept. fold files in Hkept.
  assert (Hnd := NoDup_names_sortedLogFiles TEST_FILE_NAME d).
  fold files in Hnd. rewrite names_take_drop in Hnd.
  apply NoDup_app in Hnd as (Hnd1 & Hdisj & Hnd2).
  assert (Hin : logFileName' ∈ logFiles' d).
  { apply elem_of_names_sortedLogFiles. fold files.
    rewrite names_take_drop. apply elem_of_app. by right. }
  assert (Hsub : logFiles' (featureDir w') ⊆ logFiles' d).
  { rewrite Hkept. intros n Hn.
    apply elem_of_union in Hn as [Hn|Hn].
    - apply elem_of_list_to_set in Hn.
      apply elem_of_names_sortedLogFiles. fold files.
      rewrite names_take_drop. apply elem_of_app. by left.
    - by apply elem_of_singleton in Hn as ->. }
  assert (Heleven : size (logFiles' (featureDir w')) = 11%nat).
  { rewrite Hkept, size_union.
    - rewrite size_list_to_set, size_singleton by done.
      rewrite length_map, length_take. lia.
    - intros n Hn Hn'. apply elem_of_singleton in Hn' as ->.
      apply elem_of_list_to_set in Hn. by apply (Hdisj _ Hn). }
  exists w'. split; [done|]. split.
  { unfold files in Hlen. by rewrite length_sortedLogFiles in Hlen. }
  split; [done|]. split.
  { assert (logFileName' ∈ logFiles' (featureDir w')) as H.
    { rewrite Hkept. apply elem_of_union. right.
      by apply elem_of_singleton. }
    by apply elem_of_logFiles in H as [H _]. }
  split; [done|]. split; [done|]. split; [done|].
  rewrite size_difference by done. by rewrite Heleven.
Qed.

(** C6. The directory holds twelve per-run log files f1 .. f12 whose
    modification times increase strictly, no call of [fs] is refused,
    and the log of the running process is f1 or f2, one of the two
    oldest.  [cleanupOldLogs] returns normally and f3 .. f12 are still in
    the directory, but f1 and f2 are not both deleted: the log of the
    running process is unlinked and then created again by the line that
    reports its deletion.  Only the other one of f1 and f2 is gone, and
    eleven log files remain. *)
Theorem rotation_of_twelve_files_keeps_own_log (f : nat → str) w :
  let d := featureDir w in
  filesystemHealthy w →
  logFiles TEST_FILE_NAME d = list_to_set (map f (seq 1 12)) →
  (∀ i j, (1 ≤ i < j)%nat → (j ≤ 12)%nat →
          mtimeOf d (f i) < mtimeOf d (f j)) →
  logFileName' = f 1%nat ∨ logFileName' = f 2%nat →
  ∃ w',
    cleanupOldLogs TEST_FILE_NAME loadTime randomSuffix toISOString
      countWarning w = (Ok tt, w')
    ∧ (∀ i, (3 ≤ i ≤ 12)%nat → f i ∈ dom (featureDir w'))
    ∧ logFileName' ∈ dom (featureDir w')
    ∧ (logFileName' = f 1%nat → f 2%nat ∉ dom (featureDir w'))
    ∧ (logFileName' = f 2%nat → f 1%nat ∉ dom (featureDir w'))
    ∧ size (logFiles' (featureDir w')) = 11%nat.
Proof.
  intros d Hhealthy Hfiles Htimes Hown.
  assert (Hsorted := sortedLogFiles_of_increasing TEST_FILE_NAME f d
                       Hfiles Htimes).
  assert (Hne : f 1%nat ≠ f 2%nat).
  { intros Heq. assert (H := Htimes 1%nat 2%nat). rewrite Heq in H. lia. }
  destruct (cleanupOldLogs_rotates_any w)
    as (w' & Hrun & Hkept & Hgone & _); fold d.
  { done. }
  { rewrite Hsorted. cbn. lia. }
  fold d in Hkept, Hgone. rewrite Hsorted in Hkept, Hgone.
  assert (Hin : logFileName' ∈ logFiles' (featureDir w')).
  { rewrite Hkept. apply elem_of_union. right. by apply elem_of_singleton. }
  exists w'. split; [done|]. split; [|split; [|split; [|split]]].
  - intros i Hi.
    assert (f i ∈ logFiles' (featureDir w')) as Hin'.
    { rewrite Hkept. apply elem_of_union. left.
      apply elem_of_list_to_set.
      assert (i ∈ seq 3 10) as Hseq by (apply elem_of_seq; lia).
      cbn in Hseq |- *.
      repeat (apply elem_of_cons in Hseq as [->|Hseq];
              [repeat first [apply list_elem_of_here
                            |apply list_elem_of_further]|]).
      by apply elem_of_nil in Hseq. }
    by apply elem_of_logFiles in Hin' as [Hin' _].
  - by apply elem_of_logFiles in Hin as [Hin _].
  - intros Heq. apply Hgone; [|congruence].
    cbn. apply list_elem_of_here.
  - intros Heq. apply Hgone; [|congruence].
    cbn. apply list_elem_of_further, list_elem_of_here.
  - rewrite Hkept, size_union.
    + rewrite size_list_to_set, size_singleton; [done|].
      assert (Hnd := NoDup_names_sortedLogFiles TEST_FILE_NAME d).
      rewrite Hsorted, names_take_drop in Hnd.
      by apply NoDup_app in Hnd as (Hnd & _ & _).
    + intros n Hn Hn'. apply elem_of_singleton in Hn' as ->.
      apply elem_of_list_to_set in Hn.
      assert (Hnd := NoDup_names_sortedLogFiles TEST_FILE_NAME d).
      rewrite Hsorted, names_take_drop in Hnd.
      apply NoDup_app in Hnd as (_ & Hdisj & _).
      apply (Hdisj _ Hn). cbn.
      destruct Hown as [-> | ->];
        [apply list_elem_of_further|]; apply list_elem_of_here.
Qed.

(** X7. A rotation that deletes files writes to the per-run log the
    number of log files found, the number to clean up, and one line for
    each deleted file, in the order of the deletions (the youngest of
    the deleted files first).  When the per-run log is not one of the
    deleted files it grows by exactly these lines.  When it is one of
    them, unlinking it discards what it held: afterwards it holds the
    line of its own deletion and the lines of the deletions that
    followed, and nothing else. *)
Theorem cleanupOldLogs_logs_each_deletion w :
  let files := sortedLogFiles TEST_FILE_NAME (featureDir w) in
  filesystemHealthy w →
  (10 < length files)%nat →
  ∃ w',
    cleanupOldLogs TEST_FILE_NAME loadTime randomSuffix toISOString
      countWarning w = (Ok tt, w')
    ∧ (logFileName' ∉ map name (drop 10 files) →
       ∃ t0 t1 stamps,
         length stamps = (length files - 10)%nat
         ∧ readContent logFilePath' w'
           = readContent logFilePath' w
             ++ logEntry' t0 (lit "INFO")
                  (glyph_folder ++ lit " Found "
                   ++ numberToString (Z.of_nat (length files))
                   ++ lit " existing log files for " ++ TEST_FILE_NAME)
             ++ logEntry' t1 (lit "INFO")
                  (glyph_bin ++ lit "  Cleaning up "
                   ++ numberToString (Z.of_nat (length files - 10))
                   ++ lit " old log files")
             ++ concat (zip_with deletedLine stamps (drop 10 files)))
    ∧ (∀ pre x post,
         drop 10 files = pre ++ x :: post →
         name x = logFileName' →
         ∃ stamps,
           length stamps = Datatypes.S (length post)
           ∧ readContent logFilePath' w'
             = concat (zip_with deletedLine stamps (x :: post))).
Proof.
  intros files Hhealthy Hlen.
  destruct (cleanupOldLogs_rotates_any w) as (w' & Hrun & _); [done..|].
  destruct Hhealthy as (Hreaddir & Hstat & Hunlink).
  exists w'. split; [done|].
  set (w2 := logToFile' (cleaningMessage files) (lit "INFO")
               (logToFile' (foundMessage files) (lit "INFO") w)).
  assert (Hnames : ∀ n, n ∈ map name files ↔
                        n ∈ dom (featureDir w) ∧ qualifies' n = true).
  { intros n. unfold files.
    by rewrite elem_of_names_sortedLogFiles, elem_of_logFiles. }
  assert (Hnd := NoDup_names_sortedLogFiles TEST_FILE_NAME (featureDir w)).
  fold files in Hnd. rewrite names_take_drop in Hnd.
  apply NoDup_app in Hnd as (Hnd1 & Hdisj & Hnd2).
  assert (Hdom : ∀ n, n ∈ map name (drop 10 files) →
                      n ∈ dom (featureDir w2)).
  { intros n Hn. unfold w2. rewrite !elem_of_dom_logToFile. left. left.
    apply (Hnames n). rewrite names_take_drop. apply elem_of_app.
    by right. }
  assert (Hsum : summaryLogName' ∉ map name (drop 10 files)).
  { intros Hsum.
    assert (summaryLogName' ∈ map name files) as Hin
      by (rewrite names_take_drop; apply elem_of_app; by right).
    apply Hnames in Hin as [_ Hq].
    by rewrite summaryLogName_not_qualifies in Hq. }
  assert (Hf : ∀ n, n ∈ map name (drop 10 files) →
                    unlinkFault (faults w2) n = None).
  { intros n _. unfold w2. by rewrite !faults_logToFile. }
  split.
  - intros Hkept.
    destruct (forEach_deleteOldLog_trace TEST_FILE_NAME loadTime
                randomSuffix toISOString (drop 10 files) w2)
      as (w'' & stamps & Hrun' & _ & _ & _ & _ & _ & Hstamps & Hlog);
      [done..|].
    apply cleanupOldLogs_deletions in Hrun'; [|done..].
    rewrite Hrun in Hrun'. injection Hrun' as <-.
    eexists _, _, stamps. split.
    + by rewrite Hstamps, length_drop.
    + rewrite Hlog. unfold w2. rewrite !runLog_logToFile.
      rewrite length_drop, <- !app_assoc. reflexivity.
  - intros pre x post Hsplit Hx. rewrite Hsplit in Hnd2, Hdom, Hsum, Hf.
    destruct (forEach_deleteOldLog_own pre x post w2)
      as (w'' & stamps & Hrun' & Hstamps & Hlog); [done..|].
    rewrite <- Hsplit in Hrun'.
    apply cleanupOldLogs_deletions in Hrun'; [|done..].
    rewrite Hrun in Hrun'. injection Hrun' as <-.
    by exists stamps.
Qed.

(** X8. The rotation stops at the first file whose unlink is refused: the
    files that came before it in the deletion order are gone, except the
    per-run log when it was one of them (the line that reports its
    deletion has created it again); the per-run log, the refused file
    and every other file of the directory are there; the WARNING line
    with the message of the error ends the per-run log, after all the
    log held before the call when it was not one of the deleted files;
    the counting statement of the catch block has run once; and the
    call returns normally. *)
Theorem cleanupOldLogs_stops_at_refused_unlink w before x after error :
  let files := sortedLogFiles TEST_FILE_NAME (featureDir w) in
  readdirFault (faults w) = None →
  (∀ n, statFault (faults w) n = None) →
  drop 10 files = before ++ x :: after →
  (∀ n, n ∈ map name before → unlinkFault (faults w) n = None) →
  unlinkFault (faults w) (name x) = Some error →
  ∃ w' t earlier,
    cleanupOldLogs TEST_FILE_NAME loadTime randomSuffix toISOString
      countWarning w = (Ok tt, w')
    ∧ (∀ n, n ∈ map name before → n ≠ logFileName' →
            n ∉ dom (featureDir w'))
    ∧ logFileName' ∈ dom (featureDir w')
    ∧ (∀ n, n ∈ dom (featureDir w) → n ∉ map name before →
            n ∈ dom (featureDir w'))
    ∧ testStats w' = countWarning (testStats w)
    ∧ readContent logFilePath' w'
      = earlier
        ++ logEntry' t (lit "WARNING")
             (glyph_warning ++ lit "  Failed to cleanup old logs: "
              ++ message error)
    ∧ (logFileName' ∉ map name before →
       ∃ pre, earlier = readContent logFilePath' w ++ pre).
Proof.
  intros files Hreaddir Hstat Hdrop Hbefore Hx.
  assert (Hlen : (10 < length files)%nat).
  { destruct (decide (10 < length files)%nat) as [|Hle]; [done|].
    rewrite drop_ge in Hdrop by lia. by destruct before. }
  assert (Hnames : ∀ n, n ∈ map name files ↔
                        n ∈ dom (featureDir w) ∧ qualifies' n = true).
  { intros n. unfold files.
    by rewrite elem_of_names_sortedLogFiles, elem_of_logFiles. }
  assert (Hnd := NoDup_names_sortedLogFiles TEST_FILE_NAME (featureDir w)).
  fold files in Hnd. rewrite names_take_drop, Hdrop in Hnd.
  apply NoDup_app in Hnd as (_ & _ & Hnd).
  rewrite map_app in Hnd. apply NoDup_app in Hnd as (Hnd & _ & _).
  assert (Hin : ∀ n, n ∈ map name before → n ∈ map name files).
  { intros n Hn. rewrite names_take_drop, Hdrop, map_app, !elem_of_app.
    right. by left. }
  set (w2 := logToFile' (cleaningMessage files) (lit "INFO")
               (logToFile' (foundMessage files) (lit "INFO") w)).
  assert (Hdom : ∀ n, n ∈ map name before → n ∈ dom (featureDir w2)).
  { intros n Hn. unfold w2. rewrite !elem_of_dom_logToFile. left. left.
    by apply Hnames, Hin. }
  assert (Hsum : summaryLogName' ∉ map name before).
  { intros Hsum. apply Hin, Hnames in Hsum as [_ Hq].
    by rewrite summaryLogName_not_qualifies in Hq. }
  assert (Hf : ∀ n, n ∈ map name before →
                    unlinkFault (faults w2) n = None).
  { intros n Hn. unfold w2. rewrite !faults_logToFile. by apply Hbefore. }
  destruct (forEach_deleteOldLog_any before w2)
    as (w3 & Hrun & Hfaults & Hstats & Hi & _ & Hii & _); [done..|].
  assert (Hbody : cleanupBody' w = (Throw error, w3)).
  { rewrite (cleanupBody_ok TEST_FILE_NAME loadTime randomSuffix
               toISOString) by done.
    fold files. apply Nat.ltb_lt in Hlen as ->. fold w2.
    rewrite Hdrop, forEach_app. unfold bind at 1. rewrite Hrun.
    cbn [forEach]. unfold bind at 1. unfold deleteOldLog at 1.
    unfold bind at 1. unfold unlinkSync at 1.
    rewrite Hfaults. unfold w2. rewrite !faults_logToFile.
    by rewrite Hx. }
  rewrite (cleanupOldLogs_caught _ _ _ _ _ _ _ _ Hbody).
  eexists _, _, (readContent logFilePath' w3). split; [reflexivity|].
  cbn [featureDir testStats setTestStats].
  split; [|split; [|split; [|split; [|split]]]].
  - intros n Hn Hne Hn'. apply (Hi n Hn Hne).
    apply elem_of_dom_logToFile in Hn' as [Hn'|[->|[-> _]]]; [done|..].
    + done.
    + apply Hin, Hnames in Hn as [_ Hq].
      by rewrite summaryLogName_not_qualifies in Hq.
  - apply elem_of_dom_logToFile. right. by left.
  - intros n Hn Hn'. apply elem_of_dom_logToFile. left.
    apply Hii; [done|]. unfold w2. rewrite !elem_of_dom_logToFile.
    by left; left.
  - rewrite testStats_logToFile, Hstats. unfold w2.
    by rewrite !testStats_logToFile.
  - by rewrite readContent_setTestStats, runLog_logToFile.
  - intros Hown.
    destruct (forEach_deleteOldLog_trace TEST_FILE_NAME loadTime
                randomSuffix toISOString before w2)
      as (w3' & stamps & Hrun' & _ & _ & _ & _ & _ & _ & Hlog);
      [done..|].
    rewrite Hrun in Hrun'. injection Hrun' as <-.
    rewrite Hlog. unfold w2.
    rewrite !runLog_logToFile, <- !app_assoc. by eexists.
Qed.
End OwnLogFacts.

(** ** The order of strings and the default sort *)

Section DefaultSortFacts.
Implicit Types (x y z : str) (l : list str).

(** [x] does not come after [y]. *)
Local Abbreviation notAfter := (λ x y : str, lessThan y x = false).
(** [x] does not come before [y]. *)
Local Abbreviation notBefore := (λ x y : str, lessThan x y = false).

Lemma lessThan_irrefl x : lessThan x x = false.
Proof.
  induction x as [|c x IH]; [done|]. cbn. by rewrite N.ltb_irrefl.
Qed.

Lemma lessThan_asym x y : lessThan x y = true → lessThan y x = false.
Proof.
  revert y. induction x as [|c x IH]; intros [|d y]; try done.
  cbn. destruct (N.ltb_spec c d), (N.ltb_spec d c); try done; try lia.
  apply IH.
Qed.

Lemma lessThan_trans x y z :
  lessThan x y = true → lessThan y z = true → lessThan x z = true.
Proof.
  revert y z. induction x as [|c x IH]; intros [|d y] [|e z]; try done.
  cbn.
  destruct (N.ltb_spec c d), (N.ltb_spec d c), (N.ltb_spec d e),
    (N.ltb_spec e d), (N.ltb_spec c e), (N.ltb_spec e c);
    try done; try lia.
  apply IH.
Qed.

Lemma lessThan_total x y :
  lessThan x y = false → lessThan y x = false → x = y.
Proof.
  revert y. induction x as [|c x IH]; intros [|d y]; try done.
  cbn. destruct (N.ltb_spec c d), (N.ltb_spec d c); try done; try lia.
  intros H1 H2. assert (c = d) as -> by lia. f_equal. by apply IH.
Qed.

#[local] Instance notAfter_trans : Transitive notAfter.
Proof.
  intros x y z Hxy Hyz. cbn in *.
  destruct (lessThan z x) eqn:Hzx; [|done].
  destruct (lessThan x y) eqn:Hx.
  - by rewrite (lessThan_trans z x y) in Hyz.
  - assert (x = y) as -> by by apply lessThan_total. congruence.
Qed.

#[local] Instance notAfter_antisym : AntiSymm (=) notAfter.
Proof. intros x y Hxy Hyx. by apply lessThan_total. Qed.

#[local] Instance notBefore_trans : Transitive notBefore.
Proof. intros x y z Hxy Hyz. by apply (notAfter_trans z y x). Qed.

Lemma defaultCompare_gt x y :
  (defaultCompare x y >? 0) = lessThan y x.
Proof.
  unfold defaultCompare.
  destruct (lessThan x y) eqn:Hxy.
  - by rewrite (lessThan_asym x y).
  - by destruct (lessThan y x).
Qed.

Lemma insertSorted_default_Permutation x l :
  insertSorted defaultCompare x l ≡ₚ x :: l.
Proof.
  induction l as [|y l IH]; [done|]. cbn.
  destruct (_ >? 0); [|done]. rewrite IH. apply Permutation_swap.
Qed.

Lemma arraySort_default_Permutation l : arraySort defaultCompare l ≡ₚ l.
Proof.
  induction l as [|x l IH]; [done|]. cbn.
  fold (arraySort defaultCompare l).
  by rewrite insertSorted_default_Permutation, IH.
Qed.

Lemma insertSorted_default_sorted x l :
  StronglySorted notAfter l →
  StronglySorted notAfter (insertSorted defaultCompare x l).
Proof.
  induction 1 as [|y l Hl IH Hy]; cbn.
  { repeat constructor. }
  rewrite defaultCompare_gt. destruct (lessThan y x) eqn:Hyx.
  - constructor; [done|]. rewrite insertSorted_default_Permutation.
    constructor; [|done]. by apply lessThan_asym.
  - constructor; [by constructor|]. constructor; [done|].
    eapply List.Forall_impl; [|exact Hy]. intros z Hz.
    by apply (notAfter_trans x y z).
Qed.

Lemma arraySort_default_sorted l :
  StronglySorted notAfter (arraySort defaultCompare l).
Proof.
  induction l as [|x l IH]; cbn; [constructor|].
  by apply insertSorted_default_sorted.
Qed.

(** A list that is already in order is left as it is. *)
Lemma arraySort_default_fixed l :
  Sorted notAfter l → arraySort defaultCompare l = l.
Proof.
  induction 1 as [|x l Hl IH Hx]; [done|]. cbn.
  fold (arraySort defaultCompare l). rewrite IH.
  destruct Hx as [|y l Hxy]; [done|]. cbn.
  by rewrite defaultCompare_gt, Hxy.
Qed.

Lemma StronglySorted_rev_flip {A} (R : A → A → Prop) (l : list A) :
  StronglySorted R l → StronglySorted (flip R) (rev l).
Proof.
  induction 1 as [|x l Hl IH Hx]; cbn; [constructor|].
  apply StronglySorted_app_2; [|done|repeat constructor].
  intros a b Ha Hb. apply list_elem_of_singleton in Hb as ->.
  rewrite list_elem_of_In, <- in_rev in Ha.
  unfold flip. rewrite List.Forall_forall in Hx. by apply Hx.
Qed.

(** X10. The A to Z test compares the names the page shows with a sorted
    copy of them.  The two are equal exactly when the names are in
    order as the page shows them: no name is followed by a name that
    comes before it in the order of code units. *)
Theorem sortedNamesAZ_accepts_ordered_lists (productNames : list str) :
  Sort.sortedNamesAZ productNames = productNames
  ↔ Sorted (λ x y, lessThan y x = false) productNames.
Proof.
  unfold Sort.sortedNamesAZ. split.
  - intros <-. apply StronglySorted_Sorted, arraySort_default_sorted.
  - apply arraySort_default_fixed.
Qed.

(** X11. The Z to A test compares the names the page shows with a sorted
    copy of them, reversed.  The two are equal exactly when no name is
    followed by a name that comes after it in the order of code
    units. *)
Theorem sortedNamesZA_accepts_reversed_lists (productNames : list str) :
  Sort.sortedNamesZA productNames = productNames
  ↔ Sorted (λ x y, lessThan x y = false) productNames.
Proof.
  unfold Sort.sortedNamesZA. split.
  - intros <-. apply StronglySorted_Sorted.
    apply (StronglySorted_rev_flip notAfter), arraySort_default_sorted.
  - intros Hsorted. apply Sorted_StronglySorted in Hsorted; [|apply _].
    apply (StronglySorted_rev_flip notBefore) in Hsorted.
    rewrite <- (rev_involutive productNames) at 2. f_equal.
    apply (StronglySorted_unique notAfter).
    + apply arraySort_default_sorted.
    + exact Hsorted.
    + by rewrite arraySort_default_Permutation, <- Permutation_rev.
Qed.
End DefaultSortFacts.

(** ** The sort file: the price loop and the teardown *)

Section SortFacts.
Variable loadTime : Z.
Variable randomSuffix : str.
Variable toISOString : Z → str.
Variable cwd : str.

Implicit Types (w : World Sort.Stats).

Local Abbreviation logToFile' :=
  (logToFile (S := Sort.Stats) Sort.TEST_FILE_NAME loadTime randomSuffix
     toISOString).
Local Abbreviation logFilePath' :=
  (logFilePath Sort.TEST_FILE_NAME loadTime randomSuffix).
Local Abbreviation summaryLogPath' :=
  (summaryLogPath Sort.TEST_FILE_NAME).
Local Abbreviation logEntry' := (logEntry toISOString).
Local Abbreviation summaryEntry' :=
  (summaryEntry loadTime randomSuffix toISOString).

Lemma appendedLast_grown (a b c line : str) :
  (∃ pre, b = a ++ pre) → appendedLast b c line → appendedLast a c line.
Proof.
  intros [p ->] [q ->]. exists (p ++ q). by rewrite <- !app_assoc.
Qed.

Lemma appendedWith_here2 (a b l1 l2 : str) :
  (∃ pre, b = a ++ pre) → appendedWith a ((b ++ l1) ++ l2) (l1 ++ l2).
Proof.
  intros [pre ->]. exists pre, []. by rewrite app_nil_r, <- !app_assoc.
Qed.

Lemma appendedWith_then (a b c l1 l2 l3 l4 : str) :
  appendedWith a b (l1 ++ l2) → appendedWith b c (l3 ++ l4) →
  ∃ x y z, c = a ++ x ++ l1 ++ l2 ++ y ++ l3 ++ l4 ++ z.
Proof.
  intros (p & q & ->) (p' & q' & ->). exists p, (q ++ p'), q'.
  by rewrite <- !app_assoc.
Qed.

Lemma twice_more (x p l1 l2 l3 l4 m : str) :
  (∃ a b c, x = p ++ a ++ l1 ++ l2 ++ b ++ l3 ++ l4 ++ c) →
  ∃ a b c, x ++ m = p ++ a ++ l1 ++ l2 ++ b ++ l3 ++ l4 ++ c.
Proof.
  intros (a & b & c & ->). exists a, b, (c ++ m).
  by rewrite <- !app_assoc.
Qed.

Lemma ticks_logToFile message level w :
  ticks (logToFile' message level w)
  = (ticks w + if importantEvent message level then 3 else 2)%nat.
Proof.
  unfold logToFile. cbn.
  destruct (importantEvent message level),
    (criticalEvent message level); cbn; lia.
Qed.

Section PriceLoop.
Variable JsNumber : Type.
Variable numberString : JsNumber → str.
Variable matcherPasses : JsNumber → JsNumber → bool.
Variable matcherError : JsNumber → JsNumber → Error.
Variable symbol : str.
Variable isValid : JsNumber → JsNumber → bool.
(** The matcher makes the comparison the loop makes:
    [toBeGreaterThanOrEqual] accepts when [received >= expected], and
    [toBeLessThanOrEqual] when [received <= expected]. *)
Hypothesis matcher_agrees :
  ∀ received expected,
    matcherPasses received expected = isValid received expected.

Implicit Types (prices rest : list JsNumber).

Local Abbreviation verifyPriceOrderFrom' :=
  (Sort.verifyPriceOrderFrom loadTime randomSuffix toISOString JsNumber
     numberString matcherPasses matcherError symbol isValid).
Local Abbreviation inOrder :=
  (Sorted (λ previous current, isValid current previous = true)).
Local Abbreviation violationLine :=
  (λ (t : Z) (i : nat) (previous current : JsNumber),
     logEntry' t (lit "ERROR")
       (glyph_cross ++ lit " Price order violation at index "
        ++ numberToString (Z.of_nat i) ++ lit ": $"
        ++ numberString previous ++ lit " " ++ symbol ++ lit " $"
        ++ numberString current)).

Lemma inOrder_adjacent prices k previous current :
  inOrder prices →
  prices !! k = Some previous → prices !! Datatypes.S k = Some current →
  isValid current previous = true.
Proof.
  intros Hsorted. revert k.
  induction Hsorted as [|x l Hl IH Hx]; intros k Hk HSk; [done|].
  destruct k as [|k].
  - cbn in Hk, HSk. injection Hk as ->.
    destruct Hx as [|y l Hxy]; [done|]. cbn in HSk. by injection HSk as ->.
  - by apply (IH k).
Qed.

Lemma verifyPriceOrderFrom_outcome rest i previous w :
  ∃ w',
    (∃ more, readContent logFilePath' w'
             = readContent logFilePath' w ++ more)
    ∧ testStats w' = testStats w
    ∧ (inOrder (previous :: rest)
       ∧ verifyPriceOrderFrom' i previous rest true w = (Ok true, w')
       ∨ ∃ k before current t,
           (previous :: rest) !! k = Some before
           ∧ (previous :: rest) !! Datatypes.S k = Some current
           ∧ isValid current before = false
           ∧ inOrder (take (Datatypes.S k) (previous :: rest))
           ∧ verifyPriceOrderFrom' i previous rest true w
             = (Throw (matcherError current before), w')
           ∧ appendedLast (readContent logFilePath' w)
               (readContent logFilePath' w')
               (violationLine t (i + k)%nat before current)).
Proof.
  revert i previous w.
  induction rest as [|current rest IH]; intros i previous w.
  { exists w. split; [apply grown_refl|]. split; [done|]. left.
    split; [repeat constructor|done]. }
  cbn [Sort.verifyPriceOrderFrom]. unfold bind at 1. unfold lift at 1.
  set (w1 := Sort.logToFile _ _ _ _ _ w).
  rewrite matcher_agrees.
  destruct (isValid current previous) eqn:Hvalid.
  - cbn [negb]. unfold bind at 1. unfold ret at 1. unfold bind at 1.
    unfold ret at 1.
    destruct (IH (Datatypes.S i) current w1)
      as (w' & [more Hlog] & Hstats & Hcases).
    exists w'. split; [|split].
    + rewrite Hlog. unfold w1, Sort.logToFile.
      rewrite runLog_logToFile, <- app_assoc. by eexists.
    + rewrite Hstats. unfold w1, Sort.logToFile.
      by rewrite testStats_logToFile.
    + destruct Hcases
        as [[Hsorted Hrun]
           |(k & before & cur & t & Hk & HSk & Hbad & Hpre & Hrun & Hlast)].
      * left. split; [|done]. constructor; [done|]. by constructor.
      * right. exists (Datatypes.S k), before, cur, t.
        split; [done|]. split; [done|]. split; [done|]. split.
        { cbn [take]. constructor; [done|].
          destruct k; cbn; by constructor. }
        split; [done|].
        replace (i + Datatypes.S k)%nat with (Datatypes.S i + k)%nat
          by lia.
        apply (appendedLast_grown _ (readContent logFilePath' w1));
          [|done].
        unfold w1, Sort.logToFile. rewrite runLog_logToFile. by eexists.
  - cbn [negb]. unfold bind at 1. unfold bind at 1. unfold lift at 1.
    unfold ret at 1. unfold bind at 1. unfold throw at 1.
    match goal with |- context [(Throw _, ?x)] => exists x end.
    split; [|split].
    + unfold w1, Sort.logToFile. rewrite !runLog_logToFile, <- app_assoc.
      by eexists.
    + unfold w1, Sort.logToFile. by rewrite !testStats_logToFile.
    + right. exists 0%nat, previous, current. eexists.
      split; [done|]. split; [done|]. split; [done|].
      split; [repeat constructor|]. split; [reflexivity|].
      rewrite Nat.add_0_r. unfold Sort.logToFile at 1.
      rewrite runLog_logToFile. apply appendedLast_here.
      unfold w1, Sort.logToFile. rewrite runLog_logToFile. by eexists.
Qed.

(** X12. The loop that checks the prices pair by pair, in both price
    tests, the matcher of [expect] making the comparison the loop makes:
    when every price stands in the required relation to the one before
    it, the loop ends and [orderCorrect] is still true; otherwise it
    stops at the first pair that does not, with the error of [expect],
    right after it has written the ERROR line of that pair to the
    per-run log.  The loop never ends with [orderCorrect] false, and it
    leaves the counters alone. *)
Theorem verifyPriceOrder_outcome prices w :
  let run :=
    Sort.verifyPriceOrder loadTime randomSuffix toISOString JsNumber
      numberString matcherPasses matcherError symbol isValid prices w in
  ∃ w',
    testStats w' = testStats w
    ∧ (Sorted (λ previous current, isValid current previous = true) prices
       ∧ run = (Ok true, w')
       ∨ ∃ k previous current t,
           prices !! k = Some previous
           ∧ prices !! Datatypes.S k = Some current
           ∧ isValid current previous = false
           ∧ Sorted (λ previous current, isValid current previous = true)
               (take (Datatypes.S k) prices)
           ∧ run = (Throw (matcherError current previous), w')
           ∧ appendedLast (readContent logFilePath' w)
               (readContent logFilePath' w')
               (violationLine t (Datatypes.S k) previous current)).
Proof.
  cbn zeta. destruct prices as [|first rest].
  { exists w. split; [done|]. left. split; [constructor|done]. }
  destruct (verifyPriceOrderFrom_outcome rest 1 first w)
    as (w' & _ & Hstats & Hcases).
  exists w'. split; [done|]. exact Hcases.
Qed.
End PriceLoop.

Lemma sort_logTestStatistics_appends stats duration w :
  let w' :=
    Sort.logTestStatistics loadTime randomSuffix toISOString stats
      duration w in
  let durationLine :=
    glyph_clock ++ lit " Test Run Duration: "
    ++ Sort.durationString duration ++ lit "ms" in
  let passedLine :=
    glyph_check ++ lit " Tests Passed: "
    ++ numberToString (Sort.passed stats) in
  ∃ t1 t2,
    appendedWith (readContent logFilePath' w) (readContent logFilePath' w')
      (logEntry' t1 (lit "SUMMARY") durationLine
       ++ logEntry' t2 (lit "SUMMARY") passedLine)
    ∧ appendedWith (readContent summaryLogPath' w)
        (readContent summaryLogPath' w')
        (summaryEntry' t1 durationLine ++ summaryEntry' t2 passedLine)
    ∧ (∃ m, masterSummary w' = masterSummary w ++ m)
    ∧ testStats w' = testStats w
    ∧ clock w' = clock w
    ∧ ticks w' = (ticks w + 27)%nat.
Proof.
  cbn zeta. unfold Sort.logTestStatistics, Sort.logToFile. cbn zeta.
  eexists _, _.
  split; [|split; [|split; [|split; [|split]]]].
  - rewrite !runLog_logToFile.
    do 4 apply appendedWith_more. apply appendedWith_here2.
    do 3 apply grown_more. apply grown_refl.
  - rewrite !summaryLog_logToFile, !importantEvent_SUMMARY.
    do 4 apply appendedWith_more. apply appendedWith_here2.
    do 3 apply grown_more. apply grown_refl.
  - rewrite !masterSummary_logToFile.
    do 9 apply grown_more. apply grown_refl.
  - by rewrite !testStats_logToFile.
  - by rewrite !clock_logToFile.
  - rewrite !ticks_logToFile, !importantEvent_SUMMARY. lia.
Qed.

(** X13. The teardown of the sort file writes the statistics block
    twice, to the per-run log and to the per-feature summary; the second
    block is printed from an object without [duration], so its duration
    line reads "undefinedms".  The duration of the last line of the
    master summary is measured anew, 67 readings of the clock after the
    one of the first block. *)
Theorem sort_afterAll_writes_statistics_twice w :
  let w' := Sort.afterAll loadTime randomSuffix toISOString cwd w in
  let stats := testStats w in
  let durationLine :=
    glyph_clock ++ lit " Test Run Duration: "
    ++ numberToString (clock w (ticks w) - Sort.startTime stats)
    ++ lit "ms" in
  let undefinedLine := glyph_clock ++ lit " Test Run Duration: undefinedms" in
  let passedLine :=
    glyph_check ++ lit " Tests Passed: "
    ++ numberToString (Sort.passed stats) in
  ∃ t1 t2 t3 t4 tM,
    (∃ a b c,
       readContent logFilePath' w'
       = readContent logFilePath' w ++ a
         ++ logEntry' t1 (lit "SUMMARY") durationLine
         ++ logEntry' t2 (lit "SUMMARY") passedLine ++ b
         ++ logEntry' t3 (lit "SUMMARY") undefinedLine
         ++ logEntry' t4 (lit "SUMMARY") passedLine ++ c)
    ∧ (∃ a b c,
         readContent summaryLogPath' w'
         = readContent summaryLogPath' w ++ a
           ++ summaryEntry' t1 durationLine ++ summaryEntry' t2 passedLine
           ++ b
           ++ summaryEntry' t3 undefinedLine ++ summaryEntry' t4 passedLine
           ++ c)
    ∧ appendedLast (masterSummary w) (masterSummary w')
        (Sort.finalSummaryLine toISOString tM stats
           (clock w (ticks w + 67)%nat))
    ∧ testStats w' = testStats w.
Proof.
  cbn zeta. unfold Sort.afterAll. cbn [dateNow fst snd].
  cbn [testStats setTicks].
  set (w0 := setTicks (Datatypes.S (ticks w)) w).
  destruct (sort_logTestStatistics_appends (testStats w)
              (Some (clock w (ticks w) - Sort.startTime (testStats w))) w0)
    as (t1 & t2 & Hrun1 & Hsum1 & Hmas1 & Hstats1 & Hclock1 & Hticks1).
  cbn zeta in *.
  set (wA := Sort.logTestStatistics _ _ _ _ _ w0) in *.
  destruct (sort_logTestStatistics_appends (testStats wA) None wA)
    as (t3 & t4 & Hrun2 & Hsum2 & Hmas2 & Hstats2 & Hclock2 & Hticks2).
  cbn zeta in *.
  set (wB := Sort.logTestStatistics _ _ _ _ _ wA) in *.
  assert (testStats wA = testStats w) as HstatsA by done.
  rewrite HstatsA in Hrun2, Hsum2.
  destruct (appendedWith_then _ _ _ _ _ _ _ Hrun1 Hrun2)
    as (a & b & c & Hrun).
  destruct (appendedWith_then _ _ _ _ _ _ _ Hsum1 Hsum2)
    as (a' & b' & c' & Hsum).
  unfold w0 in Hrun, Hsum. rewrite readContent_setTicks in Hrun, Hsum.
  exists t1, t2, t3, t4. eexists.
  unfold Sort.logToFile.
  cbn [appendFileSync masterSummaryPath setMasterSummary masterSummary
         testStats setTicks readContent logFilePath summaryLogPath
         featureDir ticks clock].
  change (from_option content [] (featureDir ?x !! ?n))
    with (readContent (InFeatureDir n) x).
  fold logFilePath'. fold summaryLogPath'.
  rewrite !testStats_logToFile, !clock_logToFile, !ticks_logToFile.
  rewrite !importantEvent_SUMMARY.
  change (importantEvent (glyph_flag ++ lit " TEST SUITE COMPLETED")
            (lit "CRITICAL")) with false. cbn match.
  split; [|split; [|split]].
  - rewrite !runLog_logToFile. do 4 apply twice_more.
    rewrite Hrun. by exists a, b, c.
  - rewrite !summaryLog_logToFile, !importantEvent_SUMMARY.
    change (importantEvent (glyph_flag ++ lit " TEST SUITE COMPLETED")
              (lit "CRITICAL")) with false. cbn match.
    rewrite app_nil_r. do 3 apply twice_more.
    rewrite Hsum. by exists a', b', c'.
  - rewrite Hstats2, HstatsA, Hclock2, Hclock1, Hticks2, Hticks1.
    unfold w0. cbn [ticks clock setTicks].
    replace (Datatypes.S (Datatypes.S (ticks w) + 27 + 27 + 2 + 3 + 3 + 3))
      with (ticks w + 67)%nat by lia.
    apply appendedLast_here. rewrite !masterSummary_logToFile.
    destruct Hmas2 as [m2 ->]. destruct Hmas1 as [m1 ->].
    unfold w0. cbn [masterSummary setTicks].
    do 4 apply grown_more. do 2 apply grown_more. apply grown_refl.
  - by rewrite Hstats2.
Qed.
End SortFacts.

(** ** The prices of the inventory page *)

(** X9. The text of a price is reduced to its digits and full stops
    before it is parsed: a text made of digits and full stops only is
    left as it is, every other code unit (a currency sign, a minus sign,
    a thousands separator, a space, a label) is dropped wherever it
    stands, and nothing else is left in the result. *)
Theorem removeNonNumeric_keeps_digits_and_dots :
  let numeric (c : N) := (48 ≤ c ≤ 57 ∨ c = 46)%N in
  (∀ price, Forall numeric (InventoryPage.removeNonNumeric price))
  ∧ (∀ price, Forall numeric price →
              InventoryPage.removeNonNumeric price = price)
  ∧ (∀ before c after, ¬ numeric c →
       InventoryPage.removeNonNumeric (before ++ c :: after)
       = InventoryPage.removeNonNumeric (before ++ after)).
Proof.
  cbn zeta.
  assert (Hspec : ∀ c : N,
            ((48 <=? c) && (c <=? 57) || (c =? 46))%N = true
            ↔ (48 ≤ c ≤ 57 ∨ c = 46)%N).
  { intros c. rewrite orb_true_iff, andb_true_iff, !N.leb_le, N.eqb_eq.
    tauto. }
  unfold InventoryPage.removeNonNumeric. split; [|split].
  - intros price. apply Forall_forall. intros c Hc.
    apply elem_of_List_filter in Hc as [_ Hc]. by apply Hspec.
  - intros price Hall. induction Hall as [|c price Hc Hall IH]; [done|].
    cbn. apply Hspec in Hc. rewrite Hc. by rewrite IH.
  - intros before c after Hc. rewrite !List.filter_app. cbn.
    destruct ((48 <=? c) && (c <=? 57) || (c =? 46))%N eqn:Hn; [|done].
    by apply Hspec in Hn.
Qed.

(** X16. [getCartCount] writes to the console in one case only: the
    badge is visible and reading its text fails; the entry holds that
    error.  A visibility check that fails is swallowed without a
    trace, and so is every other way to a count of 0. *)
Theorem getCartCount_console_only_for_text_errors
    (JsNumber : Type) (zero : JsNumber) (parseInt : str → JsNumber)
    (p : InventoryPage.Page) :
  InventoryPage.consoleOutput
    (InventoryPage.getCartCount JsNumber zero parseInt p).2
  = InventoryPage.consoleOutput p
    ++ match InventoryPage.badgeIsVisible p,
             InventoryPage.badgeTextContent p with
       | Ok true, Throw e => [(lit "Error getting cart count:", e)]
       | _, _ => []
       end.
Proof.
  unfold InventoryPage.getCartCount, tryCatch, bind, ret, lift,
    InventoryPage.consoleLog, InventoryPage.cartBadge_isVisible,
    InventoryPage.cartBadge_textContent.
  destruct p as [[[]|e] [[[|c t]|]|e'] out]; cbn; by rewrite ?app_nil_r.
Qed.

(** ** The test "should add item to cart" *)

Section CartTestFacts.
Variable loadTime : Z.
Variable randomSuffix : str.
Variable toISOString : Z → str.
Variable JsNumber : Type.
Variable numberString : JsNumber → str.
Variable plusOne : JsNumber → JsNumber.
Variable objectIs : JsNumber → JsNumber → bool.
Variable toBeError : JsNumber → JsNumber → Error.
Variable getCartCount : M (World Cart.Stats) JsNumber.
Variable addProductToCart : str → M (World Cart.Stats) unit.

Implicit Types (w : World Cart.Stats).

Local Abbreviation logToFile' :=
  (logToFile (S := Cart.Stats) Cart.TEST_FILE_NAME loadTime randomSuffix
     toISOString).
Local Abbreviation masterEntry' :=
  (masterEntry Cart.TEST_FILE_NAME loadTime randomSuffix toISOString).
Local Abbreviation timeAction' :=
  (Cart.timeAction loadTime randomSuffix toISOString).
(** The three counters a test moves. *)
Local Abbreviation counts :=
  (λ s : Cart.Stats, (Cart.passed s, Cart.failed s, Cart.cartAddTests s)).

Lemma bind_lift {W A} (f : W → W) (k : unit → M W A) (w : W) :
  bind (lift f) k w = k tt (f w).
Proof. done. Qed.

Lemma bind_ok {W A B} (c : M W A) (k : A → M W B) (w w' : W) a :
  c w = (Ok a, w') → bind c k w = k a w'.
Proof. unfold bind. by intros ->. Qed.

Lemma bind_throw {W A B} (c : M W A) (k : A → M W B) (w w' : W) e :
  c w = (Throw e, w') → bind c k w = (Throw e, w').
Proof. unfold bind. by intros ->. Qed.

Lemma cart_timeAction_counts {T : Type}
    actionName (actionFn : M (World Cart.Stats) T) context w r w' :
  (∀ w0, testStats (actionFn w0).2 = testStats w0) →
  timeAction' actionName actionFn context w = (r, w') →
  counts (testStats w') = counts (testStats w).
Proof.
  intros Hkeeps. unfold Cart.timeAction.
  pose (wb := beforeAction Cart.TEST_FILE_NAME loadTime randomSuffix
                toISOString actionName context w).
  assert (testStats (actionFn wb).2 = testStats w) as Hw2.
  { rewrite Hkeeps. unfold wb.
    apply (testStats_beforeAction loadTime randomSuffix toISOString). }
  destruct (actionFn wb) as [[result|error] w2] eqn:Hrun; cbn [snd] in Hw2.
  - rewrite (timeAction_resolved _ _ _ _ _ _ _ _ _ _ _ Hrun).
    intros [= _ <-].
    destruct (_ >? 5000); cbn [testStats setTestStats];
      rewrite !testStats_logToFile; cbn [testStats setTicks dateNow snd];
      by rewrite Hw2.
  - rewrite (timeAction_rejected _ _ _ _ _ _ _ _ _ _ _ Hrun).
    intros [= _ <-].
    rewrite !testStats_logToFile. cbn [testStats setTicks dateNow snd].
    by rewrite Hw2.
Qed.

Local Abbreviation shouldAddItemToCart' :=
  (Cart.shouldAddItemToCart loadTime randomSuffix toISOString JsNumber
     numberString plusOne objectIs toBeError getCartCount addProductToCart).

(** What the catch block of the test leaves. *)
Lemma shouldAddItemToCart_caught w error w1 :
  let w' :=
    logToFile' (glyph_cross ++ lit " TEST FAILED: Add item to cart test - "
                ++ message error) (lit "ERROR")
      (setTestStats (Cart.failedIncrement (testStats w1)) w1) in
  counts (testStats w1) = counts (testStats w) →
  Cart.passed (testStats w') = Cart.passed (testStats w)
  ∧ Cart.failed (testStats w') = Cart.failed (testStats w) + 1
  ∧ Cart.cartAddTests (testStats w') = Cart.cartAddTests (testStats w)
  ∧ ∃ earlier t,
      masterSummary w'
      = earlier
        ++ masterEntry' t
             (glyph_cross ++ lit " TEST FAILED: Add item to cart test - "
              ++ message error).
Proof.
  cbn zeta. intros [= Hp Hf Hc].
  rewrite testStats_logToFile. cbn [testStats setTestStats].
  cbn [Cart.failedIncrement Cart.passed Cart.failed Cart.cartAddTests].
  rewrite Hp, Hf, Hc. repeat split; try done.
  rewrite masterSummary_logToFile.
  change (criticalEvent ?m (lit "ERROR")) with true. cbn match.
  by eexists _, _.
Qed.

(** X14. Every run of the test "should add item to cart" is counted
    once.  Whatever the page does (as long as its operations do not
    touch the counters), the test adds one to [cartAddTests] and one to
    exactly one of [passed] and [failed]: to [passed] when it returns,
    and then the master summary ends with its TEST COMPLETED line; to
    [failed] when it throws, and then the master summary ends with the
    TEST FAILED line that carries the message of the error thrown. *)
Theorem shouldAddItemToCart_counted_once w :
  (∀ w0, testStats (getCartCount w0).2 = testStats w0) →
  (∀ productName w0,
     testStats (addProductToCart productName w0).2 = testStats w0) →
  ∃ r w',
    Cart.shouldAddItemToCart loadTime randomSuffix toISOString JsNumber
      numberString plusOne objectIs toBeError getCartCount addProductToCart
      w = (r, w')
    ∧ Cart.cartAddTests (testStats w')
      = Cart.cartAddTests (testStats w) + 1
    ∧ match r with
      | Ok _ =>
          Cart.passed (testStats w') = Cart.passed (testStats w) + 1
          ∧ Cart.failed (testStats w') = Cart.failed (testStats w)
          ∧ ∃ earlier t,
              masterSummary w'
              = earlier
                ++ masterEntry' t
                     (glyph_check
                      ++ lit " TEST COMPLETED: Add item to cart test passed successfully")
      | Throw error =>
          Cart.passed (testStats w') = Cart.passed (testStats w)
          ∧ Cart.failed (testStats w') = Cart.failed (testStats w) + 1
          ∧ ∃ earlier t,
              masterSummary w'
              = earlier
                ++ masterEntry' t
                     (glyph_cross
                      ++ lit " TEST FAILED: Add item to cart test - "
                      ++ message error)
      end.
Proof.
  intros Hcount Hadd.
  set (run := Cart.shouldAddItemToCart _ _ _ _ _ _ _ _ _ _ w).
  enough (Cart.cartAddTests (testStats run.2)
          = Cart.cartAddTests (testStats w) + 1
          ∧ match run.1 with
            | Ok _ =>
                Cart.passed (testStats run.2)
                = Cart.passed (testStats w) + 1
                ∧ Cart.failed (testStats run.2) = Cart.failed (testStats w)
                ∧ ∃ earlier t,
                    masterSummary run.2
                    = earlier
                      ++ masterEntry' t
                           (glyph_check
                            ++ lit " TEST COMPLETED: Add item to cart test passed successfully")
            | Throw error =>
                Cart.passed (testStats run.2) = Cart.passed (testStats w)
                ∧ Cart.failed (testStats run.2)
                  = Cart.failed (testStats w) + 1
                ∧ ∃ earlier t,
                    masterSummary run.2
                    = earlier
                      ++ masterEntry' t
                           (glyph_cross
                            ++ lit " TEST FAILED: Add item to cart test - "
                            ++ message error)
            end) as Hgoal.
  { exists run.1, run.2. split; [by destruct run|done]. }
  unfold run, Cart.shouldAddItemToCart, Cart.logToFile. clear run.
  rewrite !bind_lift. cbn beta.
  set (w1 := setTestStats _ (logToFile' _ _ w)).
  assert (H1 : Cart.passed (testStats w1) = Cart.passed (testStats w)
               ∧ Cart.failed (testStats w1) = Cart.failed (testStats w)
               ∧ Cart.cartAddTests (testStats w1)
                 = Cart.cartAddTests (testStats w) + 1).
  { unfold w1. cbn [testStats setTestStats].
    by rewrite testStats_logToFile. }
  destruct H1 as (Hp1 & Hf1 & Hc1).
  assert (Hcaught : ∀ error w9,
            counts (testStats w9) = counts (testStats w1) →
            let r :=
              (lift (λ w0, setTestStats
                             (Cart.failedIncrement (testStats w0)) w0) ;;;
               lift (logToFile'
                       (glyph_cross
                        ++ lit " TEST FAILED: Add item to cart test - "
                        ++ message error) (lit "ERROR")) ;;;
               throw (A := unit) error)%harness w9 in
            Cart.cartAddTests (testStats r.2)
            = Cart.cartAddTests (testStats w) + 1
            ∧ match r.1 with
              | Ok _ => False
              | Throw error' =>
                  Cart.passed (testStats r.2) = Cart.passed (testStats w)
                  ∧ Cart.failed (testStats r.2)
                    = Cart.failed (testStats w) + 1
                  ∧ ∃ earlier t,
                      masterSummary r.2
                      = earlier
                        ++ masterEntry' t
                             (glyph_cross
                              ++ lit " TEST FAILED: Add item to cart test - "
                              ++ message error')
              end).
  { intros error w9 H9. cbn zeta. rewrite !bind_lift. cbn beta.
    unfold throw. cbn [fst snd].
    destruct (shouldAddItemToCart_caught w1 error w9)
      as (Hp & Hf & Hc & Hm); [done|].
    cbn zeta in Hp, Hf, Hc, Hm.
    rewrite Hp, Hf, Hc, Hp1, Hf1, Hc1. by repeat split. }
  assert (Hthrows : ∀ (r : Result unit * World Cart.Stats),
            (Cart.cartAddTests (testStats r.2)
             = Cart.cartAddTests (testStats w) + 1
             ∧ match r.1 with
               | Ok _ => False
               | Throw error' =>
                   Cart.passed (testStats r.2) = Cart.passed (testStats w)
                   ∧ Cart.failed (testStats r.2)
                     = Cart.failed (testStats w) + 1
                   ∧ ∃ earlier t,
                       masterSummary r.2
                       = earlier
                         ++ masterEntry' t
                              (glyph_cross
                               ++ lit " TEST FAILED: Add item to cart test - "
                               ++ message error')
               end) →
            Cart.cartAddTests (testStats r.2)
            = Cart.cartAddTests (testStats w) + 1
            ∧ match r.1 with
              | Ok _ =>
                  Cart.passed (testStats r.2)
                  = Cart.passed (testStats w) + 1
                  ∧ Cart.failed (testStats r.2)
                    = Cart.failed (testStats w)
                  ∧ ∃ earlier t,
                      masterSummary r.2
                      = earlier
                        ++ masterEntry' t
                             (glyph_check
                              ++ lit " TEST COMPLETED: Add item to cart test passed successfully")
              | Throw error =>
                  Cart.passed (testStats r.2) = Cart.passed (testStats w)
                  ∧ Cart.failed (testStats r.2)
                    = Cart.failed (testStats w) + 1
                  ∧ ∃ earlier t,
                      masterSummary r.2
                      = earlier
                        ++ masterEntry' t
                             (glyph_cross
                              ++ lit " TEST FAILED: Add item to cart test - "
                              ++ message error)
              end).
  { intros [[[]|error] w9] [H Hcase]; [done|]. by split. }
  unfold tryCatch. cbn zeta. rewrite bind_lift.
  set (w2 := logToFile' _ _ w1).
  assert (H2 : counts (testStats w2) = counts (testStats w1))
    by (unfold w2; by rewrite testStats_logToFile).
  destruct (timeAction' (lit "Get initial cart count") getCartCount
              (lit "Add Item Test") w2)
    as [[initialCount|e] w3] eqn:Ht1;
    (apply cart_timeAction_counts in Ht1 as H3; [|by auto]).
  2:{ rewrite (bind_throw _ _ _ _ _ Ht1). apply Hthrows, Hcaught.
      congruence. }
  rewrite (bind_ok _ _ _ _ _ Ht1), bind_lift.
  set (w4 := logToFile' _ _ w3).
  assert (H4 : counts (testStats w4) = counts (testStats w3))
    by (unfold w4; by rewrite testStats_logToFile).
  destruct (timeAction' (lit "Add product to cart")
              (addProductToCart (lit "Sauce Labs Backpack"))
              (lit "Add Item Test") w4)
    as [[[]|e] w5] eqn:Ht2;
    (apply cart_timeAction_counts in Ht2 as H5; [|by auto]).
  2:{ rewrite (bind_throw _ _ _ _ _ Ht2). apply Hthrows, Hcaught.
      congruence. }
  rewrite (bind_ok _ _ _ _ _ Ht2).
  destruct (timeAction' (lit "Get updated cart count") getCartCount
              (lit "Add Item Test") w5)
    as [[newCount|e] w6] eqn:Ht3;
    (apply cart_timeAction_counts in Ht3 as H6; [|by auto]).
  2:{ rewrite (bind_throw _ _ _ _ _ Ht3). apply Hthrows, Hcaught.
      congruence. }
  rewrite (bind_ok _ _ _ _ _ Ht3), !bind_lift.
  set (w8 := logToFile' _ _ (logToFile' _ _ w6)).
  assert (H8 : counts (testStats w8) = counts (testStats w1)).
  { unfold w8. rewrite !testStats_logToFile. congruence. }
  unfold Cart.expectToBe.
  destruct (objectIs newCount (plusOne initialCount)).
  - rewrite (bind_ok _ _ _ w8 tt) by done. rewrite !bind_lift.
    unfold lift. cbn [fst snd]. cbn beta.
    rewrite testStats_logToFile. cbn [testStats setTestStats].
    cbn [Cart.passedIncrement Cart.passed Cart.failed Cart.cartAddTests].
    cbn beta in H8. injection H8 as Hp8 Hf8 Hc8.
    rewrite Hp8, Hf8, Hc8. repeat split; try done.
    rewrite masterSummary_logToFile.
    assert (criticalEvent
              (glyph_check
               ++ lit " TEST COMPLETED: Add item to cart test passed successfully")
              (lit "SUMMARY") = true) as -> by by vm_compute.
    by eexists _, _.
  - rewrite (bind_throw _ _ _ w8 (toBeError newCount (plusOne initialCount)))
      by done.
    apply Hthrows, Hcaught. done.
Qed.
End CartTestFacts.

(** ** The setup of the cart suite *)

Section CartSetupFacts.
Variable loadTime : Z.
Variable randomSuffix : str.
Variable toISOString : Z → str.
Variable cwd : str.
Variable processVersion processPlatform : str.
Variable standardUserSet : bool.
Variable waitForLoadState : M (World Cart.Stats) unit.

Implicit Types (w : World Cart.Stats).

End CartSetupFacts.

(** ** The test "should sort products from A to Z" *)

Section SortTestFacts.
Variable loadTime : Z.
Variable randomSuffix : str.
Variable toISOString : Z → str.
Variable getProductNames : M (World Sort.Stats) (list str).
Variable sortBy : str → M (World Sort.Stats) unit.
Variable waitForTimeout : Z → M (World Sort.Stats) unit.
Variable waitForFunction : M (World Sort.Stats) unit.
Variable jsonStringify : list str → str.
Variable toEqualPasses : list str → list str → bool.
Variable toEqualError : list str → list str → Error.

(** [toEqual] accepts two arrays of strings when they hold the same
    strings in the same order. *)
Hypothesis toEqual_arrays :
  ∀ received expected,
    toEqualPasses received expected = true ↔ received = expected.
(** The operations of the page act on the browser, not on the
    counters. *)
Hypothesis getProductNames_keeps :
  ∀ w0, testStats (getProductNames w0).2 = testStats w0.
Hypothesis sortBy_keeps :
  ∀ option w0, testStats (sortBy option w0).2 = testStats w0.
Hypothesis waitForTimeout_keeps :
  ∀ timeout w0, testStats (waitForTimeout timeout w0).2 = testStats w0.
Hypothesis waitForFunction_keeps :
  ∀ w0, testStats (waitForFunction w0).2 = testStats w0.

Implicit Types (w : World Sort.Stats).

Local Abbreviation logToFile' :=
  (logToFile (S := Sort.Stats) Sort.TEST_FILE_NAME loadTime randomSuffix
     toISOString).
Local Abbreviation timeAction' :=
  (Sort.timeAction loadTime randomSuffix toISOString).
(** The error comes from an operation of the page. *)
Local Abbreviation thrownByThePage :=
  (λ error : Error,
     ∃ w0 w1,
       getProductNames w0 = (Throw error, w1)
       ∨ sortBy (lit "az") w0 = (Throw error, w1)
       ∨ waitForTimeout 2000 w0 = (Throw error, w1)
       ∨ waitForFunction w0 = (Throw error, w1)).




End SortTestFacts.

(** ** The statements on sample runs *)

Section SampleRuns.
Import Sample.

(** The run whose own log file is f12, the youngest of the twelve. *)
Local Abbreviation youngest := (cartWorld twelveLogs noFaults).

Lemma youngest_healthy : filesystemHealthy youngest.
Proof. by repeat split. Qed.

Lemma mtimeOf_twelveLogs i :
  (1 ≤ i ≤ 12)%nat →
  mtimeOf twelveLogs (logName (Z.of_nat i)) = 60000 * Z.of_nat i.
Proof.
  intros Hi.
  assert (i ∈ seq 1 12) as Hin by (apply elem_of_seq; lia).
  cbn [seq] in Hin.
  repeat (apply elem_of_cons in Hin as [->|Hin]; [by vm_compute|]).
  by apply elem_of_nil in Hin.
Qed.

(** The rotation of the twelve files with f12, the youngest, as the log
    of the running process: ten log files remain. *)
Lemma cleanupOldLogs_keeps_ten_most_recent_witness :
  ∃ w',
    cleanupOldLogs Cart.TEST_FILE_NAME 12 (lit "f12") toISOString
      Cart.warningsIncrement youngest = (Ok tt, w')
    ∧ logFiles Cart.TEST_FILE_NAME (featureDir w')
      ⊆ logFiles Cart.TEST_FILE_NAME twelveLogs
    ∧ size (logFiles Cart.TEST_FILE_NAME (featureDir w')) = 10%nat
    ∧ size (logFiles Cart.TEST_FILE_NAME twelveLogs
            ∖ logFiles Cart.TEST_FILE_NAME (featureDir w'))
      = (size (logFiles Cart.TEST_FILE_NAME twelveLogs) - 10)%nat
    ∧ (∀ deleted,
         deleted ∈ logFiles Cart.TEST_FILE_NAME twelveLogs
                   ∖ logFiles Cart.TEST_FILE_NAME (featureDir w') →
         deleted ∉ dom (featureDir w'))
    ∧ (∀ kept deleted,
         kept ∈ logFiles Cart.TEST_FILE_NAME (featureDir w') →
         deleted ∈ logFiles Cart.TEST_FILE_NAME twelveLogs
                   ∖ logFiles Cart.TEST_FILE_NAME (featureDir w') →
         mtimeOf twelveLogs deleted ≤ mtimeOf twelveLogs kept)
    ∧ (∀ n, n ∈ dom twelveLogs →
            qualifies Cart.TEST_FILE_NAME n = false →
            n ∈ dom (featureDir w')).
Proof.
  apply (cleanupOldLogs_keeps_ten_most_recent
           Cart.TEST_FILE_NAME 12 (lit "f12") toISOString
           Cart.warningsIncrement youngest).
  - exact youngest_healthy.
  - vm_compute. lia.
  - apply elem_of_dom. vm_compute. by eexists.
  - vm_compute. lia.
Defined.

(** The same twelve files with f1, the oldest, as the log of the running
    process: all calls succeed, f2 and f1 are unlinked, and the line that
    reports the deletion of f1 is appended to f1 itself, which creates it
    again.  Eleven log files remain. *)
Lemma stale_own_log_leaves_eleven :
  let w := cartWorld twelveLogs noFaults in
  let w' :=
    (cleanupOldLogs Cart.TEST_FILE_NAME 1 (lit "f1") toISOString
       Cart.warningsIncrement w).2 in
  filesystemHealthy w
  ∧ logFileName Cart.TEST_FILE_NAME 1 (lit "f1") = logName 1
  ∧ size (logFiles Cart.TEST_FILE_NAME (featureDir w)) = 12%nat
  ∧ (cleanupOldLogs Cart.TEST_FILE_NAME 1 (lit "f1") toISOString
       Cart.warningsIncrement w).1 = Ok tt
  ∧ size (logFiles Cart.TEST_FILE_NAME (featureDir w')) = 11%nat
  ∧ logName 1 ∈ dom (featureDir w')
  ∧ logName 2 ∉ dom (featureDir w').
Proof.
  cbn zeta. split; [by repeat split|].
  split; [by vm_compute|]. split; [by vm_compute|].
  split; [by vm_compute|]. split; [by vm_compute|]. split.
  - apply elem_of_dom. vm_compute. by eexists.
  - apply not_elem_of_dom. by vm_compute.
Qed.

Lemma lateRun_healthy : filesystemHealthy lateRun.
Proof. split; [|split]; intros; by vm_compute. Qed.

(** C1, on the run that starts at time 0 next to twelve logs dated
    later: its log is the oldest of thirteen, the rotation unlinks f2,
    f1 and that log, and eleven log files remain. *)
Lemma cleanupOldLogs_recreates_its_own_log_witness :
  ∃ w',
    cleanupOldLogs Cart.TEST_FILE_NAME 0 (lit "new") toISOString
      Cart.warningsIncrement lateRun = (Ok tt, w')
    ∧ (10 < size (logFiles Cart.TEST_FILE_NAME (featureDir lateRun)))%nat
    ∧ logFileName Cart.TEST_FILE_NAME 0 (lit "new")
      ∈ logFiles Cart.TEST_FILE_NAME (featureDir lateRun)
    ∧ logFileName Cart.TEST_FILE_NAME 0 (lit "new") ∈ dom (featureDir w')
    ∧ logFiles Cart.TEST_FILE_NAME (featureDir w')
      = list_to_set
          (map name
             (take 10
                (sortedLogFiles Cart.TEST_FILE_NAME (featureDir lateRun))))
        ∪ {[logFileName Cart.TEST_FILE_NAME 0 (lit "new")]}
    ∧ logFiles Cart.TEST_FILE_NAME (featureDir w')
      ⊆ logFiles Cart.TEST_FILE_NAME (featureDir lateRun)
    ∧ size (logFiles Cart.TEST_FILE_NAME (featureDir w')) = 11%nat
    ∧ size (logFiles Cart.TEST_FILE_NAME (featureDir lateRun)
            ∖ logFiles Cart.TEST_FILE_NAME (featureDir w'))
      = (size (logFiles Cart.TEST_FILE_NAME (featureDir lateRun)) - 11)%nat.
Proof.
  apply (cleanupOldLogs_recreates_its_own_log
           Cart.TEST_FILE_NAME 0 (lit "new") toISOString
           Cart.warningsIncrement lateRun).
  - exact lateRun_healthy.
  - apply (bool_decide_unpack _). by vm_compute.
Defined.

(** The same run, evaluated: thirteen log files before the rotation,
    eleven after it, and the log of the running process has lost its
    header and the lines of the environment: it holds the line of its own
    deletion and nothing else. *)
Lemma late_run_leaves_eleven :
  let own := logFileName Cart.TEST_FILE_NAME 0 (lit "new") in
  let r :=
    cleanupOldLogs Cart.TEST_FILE_NAME 0 (lit "new") toISOString
      Cart.warningsIncrement lateRun in
  size (logFiles Cart.TEST_FILE_NAME (featureDir lateRun)) = 13%nat
  ∧ mtimeOf (featureDir lateRun) own = 33000
  ∧ mtimeOf (featureDir lateRun) (logName 1) = 60000
  ∧ r.1 = Ok tt
  ∧ size (logFiles Cart.TEST_FILE_NAME (featureDir r.2)) = 11%nat
  ∧ Cart.warnings (testStats r.2) = 0
  ∧ readContent (InFeatureDir own) r.2
    = logEntry toISOString 43000 (lit "INFO")
        (glyph_bin ++ lit "  Deleted old log: " ++ own).
Proof. cbn zeta. repeat split; by vm_compute. Qed.

(** A refused [unlink] has the same effect on the count: with the unlink
    of f2 refused, nothing is deleted and twelve log files remain. *)
Lemma refused_unlink_leaves_twelve :
  let w := cartWorld twelveLogs (refuseUnlink (logName 2)) in
  let w' :=
    (cleanupOldLogs Cart.TEST_FILE_NAME 12 (lit "f12") toISOString
       Cart.warningsIncrement w).2 in
  size (logFiles Cart.TEST_FILE_NAME (featureDir w')) = 12%nat
  ∧ Cart.warnings (testStats w') = 1.
Proof. cbn zeta. split; by vm_compute. Qed.


(** C4, on an operation of the sort file that takes ten seconds. *)
Lemma sort_timeAction_slow_operation_not_counted_witness :
  let w := sortWorld in
  let w2 :=
    beforeAction Sort.TEST_FILE_NAME 12 (lit "f12") toISOString
      (lit "Sort products") (lit "Sort Test") w in
  let w2' := setTicks (ticks w2 + 10) w2 in
  ∃ w3 t1 t2,
    Sort.timeAction 12 (lit "f12") toISOString
      (lit "Sort products") slowAction (lit "Sort Test") w = (Ok tt, w3)
    ∧ readContent (Sort.logFilePath 12 (lit "f12")) w3
      = readContent (Sort.logFilePath 12 (lit "f12")) w2'
        ++ logEntry toISOString t1 (lit "SUCCESS")
             (glyph_check ++ lit " COMPLETED: "
              ++ fullContextOf (lit "Sort products") (lit "Sort Test")
              ++ lit " ("
              ++ numberToString
                   (clock w2' (ticks w2') - clock w (ticks w))
              ++ lit "ms)")
        ++ logEntry toISOString t2 (lit "WARNING")
             (glyph_warning ++ lit "  SLOW OPERATION: "
              ++ fullContextOf (lit "Sort products") (lit "Sort Test")
              ++ lit " took "
              ++ numberToString
                   (clock w2' (ticks w2') - clock w (ticks w))
              ++ lit "ms")
    ∧ Sort.slowOps (testStats w3) = Sort.slowOps (testStats w2').
Proof.
  cbn zeta.
  apply (sort_timeAction_slow_operation_not_counted (T := unit)
           12 (lit "f12") toISOString (lit "Sort products") slowAction
           (lit "Sort Test") sortWorld tt).
  - reflexivity.
  - vm_compute. reflexivity.
Defined.

(** The same run, evaluated: the WARNING line is in the log and the
    counter still reads 0. *)
Lemma sort_slow_operation_run :
  let r :=
    Sort.timeAction 12 (lit "f12") toISOString
      (lit "Sort products") slowAction (lit "Sort Test") sortWorld in
  r.1 = Ok tt
  ∧ includes (readContent (Sort.logFilePath 12 (lit "f12")) r.2)
      (lit "[WARNING] " ++ glyph_warning
       ++ lit "  SLOW OPERATION: Sort Test - Sort products took 13000ms")
    = true
  ∧ Sort.slowOps (testStats r.2) = 0.
Proof. cbn zeta. repeat split; by vm_compute. Qed.

(** C5, on the directory with three log files. *)
Lemma cleanupOldLogs_small_directory_untouched_witness :
  ∃ w',
    cleanupOldLogs Cart.TEST_FILE_NAME 3 (lit "f3") toISOString
      Cart.warningsIncrement (cartWorld threeLogs noFaults) = (Ok tt, w')
    ∧ (∀ n, n ∈ dom threeLogs → n ∈ dom (featureDir w'))
    ∧ (logFileName Cart.TEST_FILE_NAME 3 (lit "f3") ∈ dom threeLogs →
       summaryLogName Cart.TEST_FILE_NAME ∈ dom threeLogs →
       dom (featureDir w') = dom threeLogs).
Proof.
  apply (cleanupOldLogs_small_directory_untouched
           Cart.TEST_FILE_NAME 3 (lit "f3") toISOString
           Cart.warningsIncrement (cartWorld threeLogs noFaults)).
  vm_compute. lia.
Defined.

(** The rotation of the twelve sample files when the log of the running
    process is f12, the youngest. *)
Lemma rotation_of_twelve_files_witness :
  ∃ w',
    cleanupOldLogs Cart.TEST_FILE_NAME 12 (lit "f12") toISOString
      Cart.warningsIncrement (cartWorld twelveLogs noFaults) = (Ok tt, w')
    ∧ (∀ i, (3 ≤ i ≤ 12)%nat → logName (Z.of_nat i) ∈ dom (featureDir w'))
    ∧ (logName 1 ∉ dom (featureDir w'))
    ∧ (logName 2 ∉ dom (featureDir w')).
Proof.
  apply (rotation_of_twelve_files
           Cart.TEST_FILE_NAME 12 (lit "f12") toISOString
           Cart.warningsIncrement (λ i, logName (Z.of_nat i))
           (cartWorld twelveLogs noFaults)).
  - exact youngest_healthy.
  - apply (bool_decide_unpack _). by vm_compute.
  - intros i j Hij Hj. cbn [featureDir cartWorld].
    rewrite !mtimeOf_twelveLogs by lia. lia.
  - by vm_compute.
  - by vm_compute.
Defined.

(** C6, on the twelve sample files with f1 as the log of the running
    process: f1 is still there after the rotation. *)
Lemma rotation_of_twelve_files_keeps_own_log_witness :
  ∃ w',
    cleanupOldLogs Cart.TEST_FILE_NAME 1 (lit "f1") toISOString
      Cart.warningsIncrement (cartWorld twelveLogs noFaults) = (Ok tt, w')
    ∧ (∀ i, (3 ≤ i ≤ 12)%nat → logName (Z.of_nat i) ∈ dom (featureDir w'))
    ∧ logFileName Cart.TEST_FILE_NAME 1 (lit "f1") ∈ dom (featureDir w')
    ∧ (logFileName Cart.TEST_FILE_NAME 1 (lit "f1") = logName 1 →
       logName 2 ∉ dom (featureDir w'))
    ∧ (logFileName Cart.TEST_FILE_NAME 1 (lit "f1") = logName 2 →
       logName 1 ∉ dom (featureDir w'))
    ∧ size (logFiles Cart.TEST_FILE_NAME (featureDir w')) = 11%nat.
Proof.
  apply (rotation_of_twelve_files_keeps_own_log
           Cart.TEST_FILE_NAME 1 (lit "f1") toISOString
           Cart.warningsIncrement (λ i, logName (Z.of_nat i))
           (cartWorld twelveLogs noFaults)).
  - exact youngest_healthy.
  - apply (bool_decide_unpack _). by vm_compute.
  - intros i j Hij Hj. cbn [featureDir cartWorld].
    rewrite !mtimeOf_twelveLogs by lia. lia.
  - left. by vm_compute.
Defined.


(** C10 as stated fails on the cart run with no test in it: the master
    summary holds the run-start line and the final statistics line, the
    per-feature summary holds its run-start line, and none of them is in
    the per-run log, because the test file appends them with
    [fs.appendFileSync] and not through [logToFile]. *)
Lemma summary_lines_written_directly :
  let runLog :=
    readContent (Cart.logFilePath 12 (lit "f12")) emptyCartRun in
  let summary := readContent Cart.summaryLogPath emptyCartRun in
  let master := masterSummary emptyCartRun in
  includes master (lit "[cart_feature] Test Run Started: run_12_f12") = true
  ∧ includes runLog (lit "Test Run Started") = false
  ∧ includes master (lit "[cart_feature] COMPLETED - Passed: 0, Failed: 0")
    = true
  ∧ includes runLog (lit "COMPLETED - Passed") = false
  ∧ includes summary (lit "Cart Feature Tests - Run Started: run_12_f12")
    = true
  ∧ includes runLog (lit "Run Started") = false.
Proof. cbn zeta. repeat split; by vm_compute. Qed.

(** C8 as stated fails on the run of three quick actions: [passed] is 3
    when the teardown ends, and none of the three files holds the text
    "passed: 3"; what they hold is "Passed: 3". *)
Lemma flush_writes_capital_Passed :
  let r :=
    Cart.threePassedThenFlush 12 (lit "f12") toISOString (lit "/repo")
      (lit "a") (lit "b") (lit "c") quickAction quickAction quickAction
      [] [] [] (cartWorld threeLogs noFaults) in
  r.1 = Ok tt
  ∧ Cart.passed (testStats r.2) = 3
  ∧ includes (readContent (Cart.logFilePath 12 (lit "f12")) r.2)
      (lit "passed: 3") = false
  ∧ includes (readContent Cart.summaryLogPath r.2) (lit "passed: 3")
    = false
  ∧ includes (masterSummary r.2) (lit "passed: 3") = false
  ∧ includes (readContent Cart.summaryLogPath r.2) (lit "Passed: 3")
    = true
  ∧ includes (masterSummary r.2) (lit "Passed: 3") = true.
Proof. cbn zeta. repeat split; by vm_compute. Qed.

(** C8 (amended), on the run of three quick actions. *)
Lemma three_passed_then_flush_witness :
  ∃ wb tS tM rest,
    Cart.threePassedThenFlush 12 (lit "f12") toISOString (lit "/repo")
      (lit "a") (lit "b") (lit "c") quickAction quickAction quickAction
      [] [] [] (cartWorld threeLogs noFaults)
    = (Ok tt, Cart.afterAll 12 (lit "f12") toISOString (lit "/repo") wb)
    ∧ Cart.passed (testStats wb) = 3
    ∧ appendedWith
        (readContent (logFilePath Cart.TEST_FILE_NAME 12 (lit "f12")) wb)
        (readContent (logFilePath Cart.TEST_FILE_NAME 12 (lit "f12"))
           (Cart.afterAll 12 (lit "f12") toISOString (lit "/repo") wb))
        (logEntry toISOString tS (lit "SUMMARY")
           (glyph_check ++ lit " Tests Passed: 3"))
    ∧ appendedWith
        (readContent (summaryLogPath Cart.TEST_FILE_NAME) wb)
        (readContent (summaryLogPath Cart.TEST_FILE_NAME)
           (Cart.afterAll 12 (lit "f12") toISOString (lit "/repo") wb))
        (summaryEntry 12 (lit "f12") toISOString tS
           (glyph_check ++ lit " Tests Passed: 3"))
    ∧ appendedLast (masterSummary wb)
        (masterSummary
           (Cart.afterAll 12 (lit "f12") toISOString (lit "/repo") wb))
        (lit "[" ++ toISOString tM
         ++ lit "] [cart_feature] COMPLETED - Passed: 3, Failed: "
         ++ rest).
Proof.
  apply (three_passed_then_flush (T := unit) 12 (lit "f12") toISOString
           (lit "/repo") (lit "a") (lit "b") (lit "c")
           quickAction quickAction quickAction [] [] []
           (cartWorld threeLogs noFaults)).
  - intros a Ha w0. assert (a = quickAction) as -> by set_solver.
    exists tt, w0. by split.
  - reflexivity.
Defined.

(** X3, on an operation that takes 5000 ms exactly. *)
Lemma timeAction_fast_witness :
  let w := cartWorld threeLogs noFaults in
  let wb :=
    beforeAction Cart.TEST_FILE_NAME 12 (lit "f12") toISOString
      (lit "Add product to cart") (lit "Add Item Test") w in
  let w2 := setTicks (ticks wb + 2) wb in
  clock w2 (ticks w2) - clock w (ticks w) = 5000
  ∧ ∃ w3 t1,
      timeAction Cart.TEST_FILE_NAME 12 (lit "f12") toISOString
        Cart.slowOpsIncrement (lit "Add product to cart") fiveSecondAction
        (lit "Add Item Test") w
      = (Ok tt, w3)
      ∧ readContent (logFilePath Cart.TEST_FILE_NAME 12 (lit "f12")) w3
        = readContent (logFilePath Cart.TEST_FILE_NAME 12 (lit "f12")) w2
          ++ logEntry toISOString t1 (lit "SUCCESS")
               (glyph_check ++ lit " COMPLETED: "
                ++ fullContextOf (lit "Add product to cart")
                     (lit "Add Item Test")
                ++ lit " ("
                ++ numberToString (clock w2 (ticks w2) - clock w (ticks w))
                ++ lit "ms)")
      ∧ testStats w3 = testStats w2.
Proof.
  cbn zeta. split; [by vm_compute|].
  apply (timeAction_fast (T := unit) Cart.TEST_FILE_NAME 12 (lit "f12")
           toISOString Cart.slowOpsIncrement (lit "Add product to cart")
           fiveSecondAction (lit "Add Item Test")
           (cartWorld threeLogs noFaults) tt).
  - reflexivity.
  - by vm_compute.
Defined.

(** X4, on an operation that returns at once. *)
Lemma timeAction_completed_line_reaches_summaries_witness :
  let w := cartWorld threeLogs noFaults in
  let w2 :=
    beforeAction Cart.TEST_FILE_NAME 12 (lit "f12") toISOString
      (lit "Add product to cart") (lit "Add Item Test") w in
  let completed :=
    glyph_check ++ lit " COMPLETED: "
    ++ fullContextOf (lit "Add product to cart") (lit "Add Item Test")
    ++ lit " (" ++ numberToString (clock w2 (ticks w2) - clock w (ticks w))
    ++ lit "ms)" in
  ∃ w3 t more more',
    timeAction Cart.TEST_FILE_NAME 12 (lit "f12") toISOString
      Cart.slowOpsIncrement (lit "Add product to cart") quickAction
      (lit "Add Item Test") w
    = (Ok tt, w3)
    ∧ readContent (summaryLogPath Cart.TEST_FILE_NAME) w3
      = readContent (summaryLogPath Cart.TEST_FILE_NAME) w2
        ++ summaryEntry 12 (lit "f12") toISOString t completed ++ more
    ∧ masterSummary w3
      = masterSummary w2
        ++ masterEntry Cart.TEST_FILE_NAME 12 (lit "f12") toISOString t
             completed
        ++ more'.
Proof.
  cbn zeta.
  apply (timeAction_completed_line_reaches_summaries (T := unit)
           Cart.TEST_FILE_NAME 12 (lit "f12") toISOString
           Cart.slowOpsIncrement (lit "Add product to cart") quickAction
           (lit "Add Item Test") (cartWorld threeLogs noFaults) tt).
  reflexivity.
Defined.

(** X5, on an operation that times out. *)
Lemma timeAction_failure_reaches_summaries_witness :
  let w := cartWorld threeLogs noFaults in
  let w2 :=
    beforeAction Cart.TEST_FILE_NAME 12 (lit "f12") toISOString
      (lit "Add product to cart") (lit "Add Item Test") w in
  let failedLine :=
    glyph_cross ++ lit " FAILED: "
    ++ fullContextOf (lit "Add product to cart") (lit "Add Item Test")
    ++ lit " after "
    ++ numberToString (clock w2 (ticks w2) - clock w (ticks w))
    ++ lit "ms" in
  let details :=
    glyph_cross ++ lit " ERROR DETAILS: " ++ message timeoutError in
  let trace := glyph_cross ++ lit " STACK TRACE: " ++ stack timeoutError in
  ∃ w3 t1 t2 t3,
    timeAction Cart.TEST_FILE_NAME 12 (lit "f12") toISOString
      Cart.slowOpsIncrement (lit "Add product to cart") failingAction
      (lit "Add Item Test") w
    = (Throw timeoutError, w3)
    ∧ readContent (summaryLogPath Cart.TEST_FILE_NAME) w3
      = readContent (summaryLogPath Cart.TEST_FILE_NAME) w2
        ++ summaryEntry 12 (lit "f12") toISOString t1 failedLine
        ++ summaryEntry 12 (lit "f12") toISOString t2 details
        ++ summaryEntry 12 (lit "f12") toISOString t3 trace
    ∧ masterSummary w3
      = masterSummary w2
        ++ masterEntry Cart.TEST_FILE_NAME 12 (lit "f12") toISOString t1
             failedLine
        ++ masterEntry Cart.TEST_FILE_NAME 12 (lit "f12") toISOString t2
             details
        ++ masterEntry Cart.TEST_FILE_NAME 12 (lit "f12") toISOString t3
             trace.
Proof.
  cbn zeta.
  apply (timeAction_failure_reaches_summaries (T := unit)
           Cart.TEST_FILE_NAME 12 (lit "f12") toISOString
           Cart.slowOpsIncrement (lit "Add product to cart") failingAction
           (lit "Add Item Test") (cartWorld threeLogs noFaults)
           timeoutError).
  reflexivity.
Defined.

(** X6, on the twelve files with f12 as the log of the running
    process. *)
Lemma cleanupOldLogs_second_call_deletes_nothing_witness :
  ∃ w1 w2,
    cleanupOldLogs Cart.TEST_FILE_NAME 12 (lit "f12") toISOString
      Cart.warningsIncrement youngest = (Ok tt, w1)
    ∧ cleanupOldLogs Cart.TEST_FILE_NAME 12 (lit "f12") toISOString
        Cart.warningsIncrement w1 = (Ok tt, w2)
    ∧ size (logFiles Cart.TEST_FILE_NAME (featureDir w1)) = 10%nat
    ∧ (∀ n, n ∈ dom (featureDir w1) → n ∈ dom (featureDir w2))
    ∧ logFiles Cart.TEST_FILE_NAME (featureDir w2)
      = logFiles Cart.TEST_FILE_NAME (featureDir w1).
Proof.
  apply (cleanupOldLogs_second_call_deletes_nothing
           Cart.TEST_FILE_NAME 12 (lit "f12") toISOString
           Cart.warningsIncrement youngest).
  - exact youngest_healthy.
  - vm_compute. lia.
  - apply elem_of_dom. vm_compute. by eexists.
  - vm_compute. lia.
Defined.

(** X7, on the twelve files with f12 as the log of the running
    process: f2 and f1 are deleted, in that order. *)
Lemma cleanupOldLogs_logs_each_deletion_witness :
  ∃ w',
    cleanupOldLogs Cart.TEST_FILE_NAME 12 (lit "f12") toISOString
      Cart.warningsIncrement youngest = (Ok tt, w')
    ∧ (logFileName Cart.TEST_FILE_NAME 12 (lit "f12")
       ∉ map name (drop 10 (sortedLogFiles Cart.TEST_FILE_NAME twelveLogs)) →
       ∃ t0 t1 stamps,
         length stamps
         = (length (sortedLogFiles Cart.TEST_FILE_NAME twelveLogs) - 10)%nat
         ∧ readContent (logFilePath Cart.TEST_FILE_NAME 12 (lit "f12")) w'
           = readContent (logFilePath Cart.TEST_FILE_NAME 12 (lit "f12"))
               youngest
             ++ logEntry toISOString t0 (lit "INFO")
                  (glyph_folder ++ lit " Found "
                   ++ numberToString
                        (Z.of_nat
                           (length (sortedLogFiles Cart.TEST_FILE_NAME
                                      twelveLogs)))
                   ++ lit " existing log files for " ++ Cart.TEST_FILE_NAME)
             ++ logEntry toISOString t1 (lit "INFO")
                  (glyph_bin ++ lit "  Cleaning up "
                   ++ numberToString
                        (Z.of_nat
                           (length (sortedLogFiles Cart.TEST_FILE_NAME
                                      twelveLogs) - 10))
                   ++ lit " old log files")
             ++ concat
                  (zip_with
                     (λ t file,
                        logEntry toISOString t (lit "INFO")
                          (glyph_bin ++ lit "  Deleted old log: "
                           ++ name file))
                     stamps
                     (drop 10
                        (sortedLogFiles Cart.TEST_FILE_NAME twelveLogs))))
    ∧ (∀ pre x post,
         drop 10 (sortedLogFiles Cart.TEST_FILE_NAME twelveLogs)
         = pre ++ x :: post →
         name x = logFileName Cart.TEST_FILE_NAME 12 (lit "f12") →
         ∃ stamps,
           length stamps = Datatypes.S (length post)
           ∧ readContent (logFilePath Cart.TEST_FILE_NAME 12 (lit "f12")) w'
             = concat
                 (zip_with
                    (λ t file,
                       logEntry toISOString t (lit "INFO")
                         (glyph_bin ++ lit "  Deleted old log: "
                          ++ name file))
                    stamps (x :: post))).
Proof.
  apply (cleanupOldLogs_logs_each_deletion
           Cart.TEST_FILE_NAME 12 (lit "f12") toISOString
           Cart.warningsIncrement youngest).
  - exact youngest_healthy.
  - vm_compute. lia.
Defined.

(** X8, on a file system that refuses to unlink f1: f2 is deleted before
    the rotation stops. *)
Lemma cleanupOldLogs_stops_at_refused_unlink_witness :
  let w := cartWorld twelveLogs (refuseUnlink (logName 1)) in
  let f2 := statOf twelveLogs (logName 2) in
  ∃ w' t earlier,
    cleanupOldLogs Cart.TEST_FILE_NAME 12 (lit "f12") toISOString
      Cart.warningsIncrement w = (Ok tt, w')
    ∧ (∀ n, n ∈ map name [f2] →
            n ≠ logFileName Cart.TEST_FILE_NAME 12 (lit "f12") →
            n ∉ dom (featureDir w'))
    ∧ logFileName Cart.TEST_FILE_NAME 12 (lit "f12") ∈ dom (featureDir w')
    ∧ (∀ n, n ∈ dom (featureDir w) → n ∉ map name [f2] →
            n ∈ dom (featureDir w'))
    ∧ testStats w' = Cart.warningsIncrement (testStats w)
    ∧ readContent (logFilePath Cart.TEST_FILE_NAME 12 (lit "f12")) w'
      = earlier
        ++ logEntry toISOString t (lit "WARNING")
             (glyph_warning ++ lit "  Failed to cleanup old logs: "
              ++ message eperm)
    ∧ (logFileName Cart.TEST_FILE_NAME 12 (lit "f12") ∉ map name [f2] →
       ∃ pre,
         earlier
         = readContent (logFilePath Cart.TEST_FILE_NAME 12 (lit "f12")) w
           ++ pre).
Proof.
  cbn zeta.
  apply (cleanupOldLogs_stops_at_refused_unlink
           Cart.TEST_FILE_NAME 12 (lit "f12") toISOString
           Cart.warningsIncrement
           (cartWorld twelveLogs (refuseUnlink (logName 1)))
           [statOf twelveLogs (logName 2)]
           (statOf twelveLogs (logName 1)) [] eperm).
  - reflexivity.
  - intros n. reflexivity.
  - vm_compute. reflexivity.
  - intros n Hn. apply list_elem_of_singleton in Hn as ->. by vm_compute.
  - by vm_compute.
Defined.

(** The same refusal met by the run whose own log is f2: f2 is unlinked
    and created again by the line that reports it, the unlink of f1 is
    refused, and the twelve log files are all there when the call
    returns; f2 holds that line and the WARNING line only. *)
Lemma refused_unlink_after_own_log :
  let w := cartWorld twelveLogs (refuseUnlink (logName 1)) in
  let r :=
    cleanupOldLogs Cart.TEST_FILE_NAME 2 (lit "f2") toISOString
      Cart.warningsIncrement w in
  logFileName Cart.TEST_FILE_NAME 2 (lit "f2") = logName 2
  ∧ r.1 = Ok tt
  ∧ logName 2 ∈ dom (featureDir r.2)
  ∧ size (logFiles Cart.TEST_FILE_NAME (featureDir r.2)) = 12%nat
  ∧ Cart.warnings (testStats r.2) = 1
  ∧ readContent (InFeatureDir (logName 2)) r.2
    = logEntry toISOString 4000 (lit "INFO")
        (glyph_bin ++ lit "  Deleted old log: " ++ logName 2)
      ++ logEntry toISOString 6000 (lit "WARNING")
           (glyph_warning ++ lit "  Failed to cleanup old logs: "
            ++ message eperm).
Proof.
  cbn zeta. split; [by vm_compute|]. split; [by vm_compute|]. split.
  { apply elem_of_dom. vm_compute. by eexists. }
  repeat split; by vm_compute.
Qed.

(** X14, on a page whose cart stays empty: the test fails and is counted
    as failed. *)
Lemma shouldAddItemToCart_counted_once_witness :
  let w := cartWorld threeLogs noFaults in
  ∃ r w',
    Cart.shouldAddItemToCart 12 (lit "f12") toISOString Z numberToString
      Z.succ Z.eqb toBeError emptyCartCount ignoredAddToCart w = (r, w')
    ∧ Cart.cartAddTests (testStats w')
      = Cart.cartAddTests (testStats w) + 1
    ∧ match r with
      | Ok _ =>
          Cart.passed (testStats w') = Cart.passed (testStats w) + 1
          ∧ Cart.failed (testStats w') = Cart.failed (testStats w)
          ∧ ∃ earlier t,
              masterSummary w'
              = earlier
                ++ masterEntry Cart.TEST_FILE_NAME 12 (lit "f12")
                     toISOString t
                     (glyph_check
                      ++ lit " TEST COMPLETED: Add item to cart test passed successfully")
      | Throw error =>
          Cart.passed (testStats w') = Cart.passed (testStats w)
          ∧ Cart.failed (testStats w') = Cart.failed (testStats w) + 1
          ∧ ∃ earlier t,
              masterSummary w'
              = earlier
                ++ masterEntry Cart.TEST_FILE_NAME 12 (lit "f12")
                     toISOString t
                     (glyph_cross
                      ++ lit " TEST FAILED: Add item to cart test - "
                      ++ message error)
      end.
Proof.
  cbn zeta.
  apply (shouldAddItemToCart_counted_once 12 (lit "f12") toISOString Z
           numberToString Z.succ Z.eqb toBeError emptyCartCount
           ignoredAddToCart (cartWorld threeLogs noFaults)).
  - intros w0. reflexivity.
  - intros productName w0. reflexivity.
Defined.

(** X10 and X11 on two names: capital letters come before small ones in
    the order of code units, so "Zebra", "apple" is in A to Z order and
    "apple", "Zebra" is not. *)
Lemma sortedNames_capitals_first :
  Sort.sortedNamesAZ [lit "Zebra"; lit "apple"] = [lit "Zebra"; lit "apple"]
  ∧ Sort.sortedNamesAZ [lit "apple"; lit "Zebra"]
    = [lit "Zebra"; lit "apple"]
  ∧ Sort.sortedNamesZA [lit "apple"; lit "Zebra"]
    = [lit "apple"; lit "Zebra"].
Proof. repeat split; by vm_compute. Qed.

(** X12 on the prices 1, 3, 2 of the low-to-high test: the loop throws
    at index 2, and the ERROR line of that pair is in the per-run log. *)
Lemma verifyPriceOrder_run :
  let r :=
    Sort.verifyPriceOrder 12 (lit "f12") toISOString Z numberToString
      Z.geb toBeError (lit "<=") Z.geb [1; 3; 2] sortWorld in
  r.1 = Throw (toBeError 2 3)
  ∧ includes (readContent (Sort.logFilePath 12 (lit "f12")) r.2)
      (lit "[ERROR] " ++ glyph_cross
       ++ lit " Price order violation at index 2: $3 <= $2")
    = true.
Proof. cbn zeta. split; by vm_compute. Qed.

(** X12 on the same prices, with [>=] on integers for the comparison
    and for the matcher. *)
Lemma verifyPriceOrder_outcome_witness :
  let run :=
    Sort.verifyPriceOrder 12 (lit "f12") toISOString Z numberToString
      Z.geb toBeError (lit "<=") Z.geb [1; 3; 2] sortWorld in
  ∃ w',
    testStats w' = testStats sortWorld
    ∧ (Sorted (λ previous current, Z.geb current previous = true)
         [1; 3; 2]
       ∧ run = (Ok true, w')
       ∨ ∃ k previous current t,
           [1; 3; 2] !! k = Some previous
           ∧ [1; 3; 2] !! Datatypes.S k = Some current
           ∧ Z.geb current previous = false
           ∧ Sorted (λ previous current, Z.geb current previous = true)
               (take (Datatypes.S k) [1; 3; 2])
           ∧ run = (Throw (toBeError current previous), w')
           ∧ appendedLast
               (readContent (logFilePath Sort.TEST_FILE_NAME 12 (lit "f12"))
                  sortWorld)
               (readContent (logFilePath Sort.TEST_FILE_NAME 12 (lit "f12"))
                  w')
               (logEntry toISOString t (lit "ERROR")
                  (glyph_cross ++ lit " Price order violation at index "
                   ++ numberToString (Z.of_nat (Datatypes.S k)) ++ lit ": $"
                   ++ numberToString previous ++ lit " " ++ lit "<="
                   ++ lit " $" ++ numberToString current))).
Proof.
  cbn zeta.
  apply (verifyPriceOrder_outcome 12 (lit "f12") toISOString Z
           numberToString Z.geb toBeError (lit "<=") Z.geb).
  intros received expected. reflexivity.
Defined.

(** X13 on the sort run with no test in it: the per-run log holds both
    duration lines, and the master summary a third duration. *)
Lemma sort_afterAll_run :
  let w' := Sort.afterAll 12 (lit "f12") toISOString (lit "/repo") sortWorld in
  let runLog := readContent (Sort.logFilePath 12 (lit "f12")) w' in
  includes runLog (lit " Test Run Duration: 0ms") = true
  ∧ includes runLog (lit " Test Run Duration: undefinedms") = true
  ∧ includes (masterSummary w')
      (lit "[sort_feature] COMPLETED - Passed: 0, Failed: 0, Duration: 67000ms")
    = true.
Proof. cbn zeta. repeat split; by vm_compute. Qed.


(** The same run, evaluated: the test returns and is counted as
    passed. *)
Lemma shouldSortAZ_run :
  let r :=
    Sort.shouldSortAZ 12 (lit "f12") toISOString twoNames sortAtOnce
      waitAtOnce quickAction jsonStringify toEqualPasses toEqualError
      sortWorld in
  r.1 = Ok tt
  ∧ Sort.passed (testStats r.2) = 1
  ∧ Sort.failed (testStats r.2) = 0
  ∧ includes (readContent (Sort.logFilePath 12 (lit "f12")) r.2)
      (lit " A-Z Sort Result: PASS") = true.
Proof. cbn zeta. repeat split; by vm_compute. Qed.
End SampleRuns.
